(** * The server-side SMTP session engine of OpenSMTPD (smtp_session.c)

    A shallow embedding of [smtpd/smtp_session.c]: the per-connection state
    machine ([smtp_io], [smtp_command], [smtp_session_imsg]), the SASL
    sub-machines, the body ingester and the pending-request trees, followed
    by the properties of the session engine that the specification states.

    Conventions.
    - A [char *] is a Rocq [string].  Buffers that come straight from the
      network may hold NUL bytes; [cstr] gives what the C string functions
      see of them.  Every other string is already such a view.
    - [int] and [size_t] values are [Z]; the wrap-around of [size_t]
      counters is written out with [wrap].
    - Code that can call [fatalx]/[errx] lives in the monad [M], whose
      result is either a new session and new globals or [Fatal].
    - Logging ([log_trace], [log_debug], [log_info]) has no effect on the
      session and is left out. *)

From Stdlib Require Import ZArith Ascii String List Lia Bool.
From stdpp Require Import base gmap strings list.
Import ListNotations.
Local Open Scope Z_scope.

(** ** C strings *)

Module CStr.

Definition NUL : ascii := Ascii.zero.
Definition code (c : ascii) : Z := Z.of_N (N_of_ascii c).
Definition chr (z : Z) : ascii := ascii_of_N (Z.to_N z).

(** The NUL-terminated view of a buffer. *)
Fixpoint cstr (s : string) : string :=
  match s with
  | EmptyString => EmptyString
  | String c r => if Ascii.eqb c NUL then EmptyString else String c (cstr r)
  end.

Definition strlen (s : string) : Z := Z.of_nat (String.length s).

Fixpoint take (n : nat) (s : string) : string :=
  match n, s with
  | S n', String c r => String c (take n' r)
  | _, _ => EmptyString
  end.

Fixpoint drop (n : nat) (s : string) : string :=
  match n, s with
  | S n', String _ r => drop n' r
  | _, _ => s
  end.

(** The first character of [s] ([NUL] for the empty string). *)
Definition head (s : string) : ascii :=
  match s with
  | EmptyString => NUL
  | String c _ => c
  end.

(** [s[len - 1]] for a non-empty string. *)
Fixpoint last (s : string) : ascii :=
  match s with
  | EmptyString => NUL
  | String c EmptyString => c
  | String _ r => last r
  end.

(** Offset of the first occurrence of [c], as [strchr] returns it. *)
Fixpoint strchr (s : string) (c : ascii) : option nat :=
  match s with
  | EmptyString => None
  | String a r =>
      if Ascii.eqb a c then Some O
      else match strchr r c with
           | Some i => Some (S i)
           | None => None
           end
  end.

(** Offset of the last occurrence of [c], as [strrchr] returns it. *)
Fixpoint strrchr (s : string) (c : ascii) : option nat :=
  match s with
  | EmptyString => None
  | String a r =>
      match strrchr r c with
      | Some i => Some (S i)
      | None => if Ascii.eqb a c then Some O else None
      end
  end.

Definition tolower (c : ascii) : ascii :=
  let n := code c in
  if (65 <=? n) && (n <=? 90) then chr (n + 32) else c.

Definition isspace (c : ascii) : bool :=
  let n := code c in
  (n =? 32) || ((9 <=? n) && (n <=? 13)).

Fixpoint strcmp (a b : string) : Z :=
  match a, b with
  | EmptyString, EmptyString => 0
  | EmptyString, String y _ => 0 - code y
  | String x _, EmptyString => code x
  | String x a', String y b' =>
      if Ascii.eqb x y then strcmp a' b' else code x - code y
  end.

Fixpoint strcasecmp (a b : string) : Z :=
  match a, b with
  | EmptyString, EmptyString => 0
  | EmptyString, String y _ => 0 - code (tolower y)
  | String x _, EmptyString => code (tolower x)
  | String x a', String y b' =>
      if Ascii.eqb (tolower x) (tolower y) then strcasecmp a' b'
      else code (tolower x) - code (tolower y)
  end.

Fixpoint strncasecmp (a b : string) (n : nat) {struct n} : Z :=
  match n with
  | O => 0
  | S n' =>
      match a, b with
      | EmptyString, EmptyString => 0
      | EmptyString, String y _ => 0 - code (tolower y)
      | String x _, EmptyString => code (tolower x)
      | String x a', String y b' =>
          if Ascii.eqb (tolower x) (tolower y) then strncasecmp a' b' n'
          else code (tolower x) - code (tolower y)
      end
  end.

(** Skips leading white space, as the [isspace] loops of the source do. *)
Fixpoint skip_space (s : string) : string :=
  match s with
  | EmptyString => EmptyString
  | String c r => if isspace c then skip_space r else s
  end.

Fixpoint map (f : ascii -> ascii) (s : string) : string :=
  match s with
  | EmptyString => EmptyString
  | String c r => String (f c) (map f r)
  end.

(** [strlcpy(dst, src, size)]: the copy that lands in [dst] and the value
    returned, which is [strlen(src)]. *)
Definition strlcpy (src : string) (size : Z) : string * Z :=
  (take (Z.to_nat (size - 1)) src, strlen src).

Definition CR : ascii := chr 13.
Definition LF : ascii := chr 10.
Definition CRLF : string := String CR (String LF EmptyString).
Definition NL : string := String LF EmptyString.
Definition TAB : string := String (chr 9) EmptyString.
Definition DQUOTE : string := String (chr 34) EmptyString.

End CStr.
Import CStr.

(** ** printf conversions *)

Module Fmt.

Definition digit (n : Z) : ascii := chr (if n <? 10 then 48 + n else 87 + n).

Fixpoint digits (base : Z) (fuel : nat) (n : Z) (acc : string) : string :=
  match fuel with
  | O => acc
  | S fuel' =>
      let acc' := String (digit (n mod base)) acc in
      if n / base =? 0 then acc' else digits base fuel' (n / base) acc'
  end.

(** [%d] of an [int]. *)
Definition d (n : Z) : string :=
  if n <? 0 then String "-" (digits 10 10 (- n) EmptyString)
  else digits 10 10 n EmptyString.

(** [%zu] of a [size_t]. *)
Definition zu (n : Z) : string := digits 10 20 n EmptyString.

Fixpoint zeros (n : nat) : string :=
  match n with
  | O => EmptyString
  | S n' => String "0" (zeros n')
  end.

(** [%08x] of a [uint32_t]. *)
Definition x08 (n : Z) : string :=
  let h := digits 16 8 n EmptyString in
  zeros (8 - String.length h) ++ h.

End Fmt.

(** ** Base64 ([__b64_pton] of the C library)

    The decoder is not part of the repository.  The session code takes it
    from the header record below; [B64.pton] is the usual decoder (standard
    alphabet, white space skipped, [=] padding checked), used to run the
    code on concrete credentials. *)

Module B64.

Definition sextet (c : ascii) : option Z :=
  let n := code c in
  if (65 <=? n) && (n <=? 90) then Some (n - 65)
  else if (97 <=? n) && (n <=? 122) then Some (n - 71)
  else if (48 <=? n) && (n <=? 57) then Some (n + 4)
  else if n =? 43 then Some 62
  else if n =? 47 then Some 63
  else None.

(** After the first [=]: in state 2 one more [=] is required; then only
    white space may follow. *)
Fixpoint only_space (s : string) : bool :=
  match s with
  | EmptyString => true
  | String c r => isspace c && only_space r
  end.

Definition padding_ok (st : nat) (after : string) : bool :=
  match st with
  | 2%nat =>
      match skip_space after with
      | String c r => Ascii.eqb c "=" && only_space r
      | EmptyString => false
      end
  | 3%nat => only_space after
  | _ => false
  end.

(** [st] is the position in the current group of four, [acc] the bits
    pending from the previous characters. *)
Fixpoint decode (s : string) (st : nat) (acc : Z) : option string :=
  match s with
  | EmptyString => if Nat.eqb st 0 then Some EmptyString else None
  | String c r =>
      if isspace c then decode r st acc
      else if Ascii.eqb c "=" then
        if padding_ok st r && (acc =? 0) then Some EmptyString else None
      else
        match sextet c with
        | None => None
        | Some v =>
            match st with
            | 0%nat => decode r 1 v
            | 1%nat =>
                match decode r 2 (v mod 16) with
                | Some out => Some (String (chr (acc * 4 + v / 16)) out)
                | None => None
                end
            | 2%nat =>
                match decode r 3 (v mod 4) with
                | Some out => Some (String (chr (acc * 16 + v / 4)) out)
                | None => None
                end
            | _ =>
                match decode r 0 0 with
                | Some out => Some (String (chr (acc * 64 + v)) out)
                | None => None
                end
            end
        end
  end.

(** [__b64_pton(src, target, targsize)]: [None] stands for -1. *)
Definition pton (src : string) (targsize : Z) : option string :=
  match decode src 0 0 with
  | Some out => if strlen out <=? targsize then Some out else None
  | None => None
  end.

End B64.

(** ** Constants and enumerations of smtp_session.c *)

Definition SMTP_KICKTHRESHOLD : Z := 50.
Definition SMTP_MAXMAIL : Z := 100.
Definition SMTP_MAXRCPT : Z := 1000.

(** Modelled from the spec: [SMTP_LINE_MAX] is defined in smtpd.h, which is
    not among the sources; the specification gives the line cap as 1024. *)
Definition SMTP_LINE_MAX : Z := 1024.

Definition SIZE_MAX : Z := 2 ^ 64 - 1.

(** Arithmetic on [size_t] counters. *)
Definition wrap (z : Z) : Z := z mod 2 ^ 64.

Inductive cmd_code :=
| CMD_HELO | CMD_EHLO | CMD_STARTTLS | CMD_AUTH | CMD_MAIL_FROM | CMD_RCPT_TO
| CMD_DATA | CMD_RSET | CMD_QUIT | CMD_HELP | CMD_NOOP.

Inductive smtp_state :=
| S_NEW | S_CONNECTED | S_TLS | S_HELO | S_AUTH_INIT | S_AUTH_USERNAME
| S_AUTH_PASSWORD | S_AUTH_FINALIZE | S_BODY | S_QUIT.

#[global] Instance smtp_state_eq_dec : EqDecision smtp_state.
Proof. solve_decision. Defined.

(** [enum session_flags] *)
Definition F_EHLO : Z := 0x01.
Definition F_8BITMIME : Z := 0x02.
Definition F_SECURE : Z := 0x04.
Definition F_AUTHENTICATED : Z := 0x08.
Definition F_SMTP_MESSAGE_END : Z := 0x10.
Definition F_MFA_MESSAGE_END : Z := 0x20.
Definition F_KICK : Z := 0x40.

Inductive phase_t := PHASE_INIT | PHASE_SETUP | PHASE_TRANSACTION.

#[global] Instance phase_eq_dec : EqDecision phase_t.
Proof. solve_decision. Defined.

(** [x & mask] as a C condition. *)
Definition has (x mask : Z) : bool := negb (Z.land x mask =? 0).

Definition commands : list (cmd_code * string) :=
  [ (CMD_HELO, "HELO"); (CMD_EHLO, "EHLO"); (CMD_STARTTLS, "STARTTLS");
    (CMD_AUTH, "AUTH"); (CMD_MAIL_FROM, "MAIL FROM"); (CMD_RCPT_TO, "RCPT TO");
    (CMD_DATA, "DATA"); (CMD_RSET, "RSET"); (CMD_QUIT, "QUIT");
    (CMD_HELP, "HELP"); (CMD_NOOP, "NOOP") ].

(** ** What smtpd.h and the libraries provide

    The header is not among the sources.  Its constants that the
    specification does not give, and the helpers declared there, are the
    fields of [smtpd_h]; the session code is written over an arbitrary such
    record. *)

Definition sockaddr_storage := string.

Record mailaddr := { ma_user : string; ma_domain : string }.

Record auth_t := {
  auth_id : Z;
  auth_user : string;
  auth_pass : string;
  auth_success : Z;
}.

Record ssl_t := { ssl_version : string; ssl_cipher : string; ssl_bits : Z }.

Record listener_t := { l_flags : Z; l_tag : string; l_ssl_ctx : ssl_t }.

Record smtpd_h := {
  DS_PERMFAILURE : Z;
  DS_TEMPFAILURE : Z;
  F_SMTPS : Z;
  F_STARTTLS : Z;
  F_STARTTLS_REQUIRE : Z;
  F_AUTH : Z;
  F_AUTH_REQUIRE : Z;
  DF_BOUNCE : Z;
  MFA_OK : Z;
  HOOK_DATALINE : Z;
  sizeof_hostname : Z;
  sizeof_auth_user : Z;
  sizeof_auth_pass : Z;
  sizeof_mfa_buffer : Z;
  sizeof_evp_helo : Z;
  SMTPD_BANNER : string -> string;
  valid_domainpart : string -> bool;
  (** [email_to_mailaddr(maddr, buf)]: the value returned, the address
      left in [maddr], and what the string at [buf] reads afterwards. *)
  email_to_mailaddr : mailaddr -> string -> Z * mailaddr * string;
  (** [__b64_pton(src, target, targsize)]: [None] for -1. *)
  b64_pton : string -> Z -> option string;
  ss_to_text : sockaddr_storage -> string;
  time_to_text : Z -> string;
  evpid_to_msgid : Z -> Z;
}.

(** [struct smtpd *env] *)
Record smtpd := { sc_hostname : string; sc_maxsize : Z; filtermask : Z }.

(** ** The session *)

Record envelope := {
  evp_tag : string;
  evp_session_id : Z;
  evp_ss : sockaddr_storage;
  evp_hostname : string;
  evp_helo : string;
  evp_sender : mailaddr;
  evp_rcpt : mailaddr;
  evp_id : Z;
  evp_flags : Z;
}.

Definition set_evp_session_id (v : Z) (e : envelope) : envelope :=
  Build_envelope (evp_tag e) v (evp_ss e) (evp_hostname e) (evp_helo e) (evp_sender e) (evp_rcpt e) (evp_id e) (evp_flags e).
Definition set_evp_hostname (v : string) (e : envelope) : envelope :=
  Build_envelope (evp_tag e) (evp_session_id e) (evp_ss e) v (evp_helo e) (evp_sender e) (evp_rcpt e) (evp_id e) (evp_flags e).
Definition set_evp_helo (v : string) (e : envelope) : envelope :=
  Build_envelope (evp_tag e) (evp_session_id e) (evp_ss e) (evp_hostname e) v (evp_sender e) (evp_rcpt e) (evp_id e) (evp_flags e).
Definition set_evp_sender (v : mailaddr) (e : envelope) : envelope :=
  Build_envelope (evp_tag e) (evp_session_id e) (evp_ss e) (evp_hostname e) (evp_helo e) v (evp_rcpt e) (evp_id e) (evp_flags e).
Definition set_evp_rcpt (v : mailaddr) (e : envelope) : envelope :=
  Build_envelope (evp_tag e) (evp_session_id e) (evp_ss e) (evp_hostname e) (evp_helo e) (evp_sender e) v (evp_id e) (evp_flags e).
Definition set_evp_id (v : Z) (e : envelope) : envelope :=
  Build_envelope (evp_tag e) (evp_session_id e) (evp_ss e) (evp_hostname e) (evp_helo e) (evp_sender e) (evp_rcpt e) v (evp_flags e).
Definition set_evp_flags (v : Z) (e : envelope) : envelope :=
  Build_envelope (evp_tag e) (evp_session_id e) (evp_ss e) (evp_hostname e) (evp_helo e) (evp_sender e) (evp_rcpt e) (evp_id e) v.

(** The two halves of [struct iobuf]: bytes received and not yet consumed,
    and the replies queued for the peer, oldest first. *)
Record iobuf_t := { ib_in : string; ib_out : list string }.

Inductive io_dir := IO_READ | IO_WRITE.

Record io_t := { io_mode : io_dir; io_ssl : option ssl_t }.

(** The spool file behind [s->ofile]: what has been written, how many more
    bytes the device takes, and the stream's error indicator. *)
Record FILE := { f_data : string; f_room : Z; f_err : bool }.

Record smtp_session := {
  s_id : Z;
  iobuf : iobuf_t;
  io : io_t;
  listener : listener_t;
  ss : sockaddr_storage;
  hostname : string;
  flags : Z;
  phase : phase_t;
  state : smtp_state;
  auth : auth_t;
  evp : envelope;
  cmd : string;
  kickcount : Z;
  mailcount : Z;
  rcptcount : Z;
  destcount : Z;
  ofile : option FILE;
  datalen : Z;
  s_dstatus : Z;
}.

Definition set_iobuf (v : iobuf_t) (s : smtp_session) : smtp_session :=
  Build_smtp_session (s_id s) v (io s) (listener s) (ss s) (hostname s) (flags s) (phase s) (state s) (auth s) (evp s) (cmd s) (kickcount s) (mailcount s) (rcptcount s) (destcount s) (ofile s) (datalen s) (s_dstatus s).
Definition set_io (v : io_t) (s : smtp_session) : smtp_session :=
  Build_smtp_session (s_id s) (iobuf s) v (listener s) (ss s) (hostname s) (flags s) (phase s) (state s) (auth s) (evp s) (cmd s) (kickcount s) (mailcount s) (rcptcount s) (destcount s) (ofile s) (datalen s) (s_dstatus s).
Definition set_hostname (v : string) (s : smtp_session) : smtp_session :=
  Build_smtp_session (s_id s) (iobuf s) (io s) (listener s) (ss s) v (flags s) (phase s) (state s) (auth s) (evp s) (cmd s) (kickcount s) (mailcount s) (rcptcount s) (destcount s) (ofile s) (datalen s) (s_dstatus s).
Definition set_flags (v : Z) (s : smtp_session) : smtp_session :=
  Build_smtp_session (s_id s) (iobuf s) (io s) (listener s) (ss s) (hostname s) v (phase s) (state s) (auth s) (evp s) (cmd s) (kickcount s) (mailcount s) (rcptcount s) (destcount s) (ofile s) (datalen s) (s_dstatus s).
Definition set_phase (v : phase_t) (s : smtp_session) : smtp_session :=
  Build_smtp_session (s_id s) (iobuf s) (io s) (listener s) (ss s) (hostname s) (flags s) v (state s) (auth s) (evp s) (cmd s) (kickcount s) (mailcount s) (rcptcount s) (destcount s) (ofile s) (datalen s) (s_dstatus s).
Definition set_state (v : smtp_state) (s : smtp_session) : smtp_session :=
  Build_smtp_session (s_id s) (iobuf s) (io s) (listener s) (ss s) (hostname s) (flags s) (phase s) v (auth s) (evp s) (cmd s) (kickcount s) (mailcount s) (rcptcount s) (destcount s) (ofile s) (datalen s) (s_dstatus s).
Definition set_auth (v : auth_t) (s : smtp_session) : smtp_session :=
  Build_smtp_session (s_id s) (iobuf s) (io s) (listener s) (ss s) (hostname s) (flags s) (phase s) (state s) v (evp s) (cmd s) (kickcount s) (mailcount s) (rcptcount s) (destcount s) (ofile s) (datalen s) (s_dstatus s).
Definition set_evp (v : envelope) (s : smtp_session) : smtp_session :=
  Build_smtp_session (s_id s) (iobuf s) (io s) (listener s) (ss s) (hostname s) (flags s) (phase s) (state s) (auth s) v (cmd s) (kickcount s) (mailcount s) (rcptcount s) (destcount s) (ofile s) (datalen s) (s_dstatus s).
Definition set_cmd (v : string) (s : smtp_session) : smtp_session :=
  Build_smtp_session (s_id s) (iobuf s) (io s) (listener s) (ss s) (hostname s) (flags s) (phase s) (state s) (auth s) (evp s) v (kickcount s) (mailcount s) (rcptcount s) (destcount s) (ofile s) (datalen s) (s_dstatus s).
Definition set_kickcount (v : Z) (s : smtp_session) : smtp_session :=
  Build_smtp_session (s_id s) (iobuf s) (io s) (listener s) (ss s) (hostname s) (flags s) (phase s) (state s) (auth s) (evp s) (cmd s) v (mailcount s) (rcptcount s) (destcount s) (ofile s) (datalen s) (s_dstatus s).
Definition set_mailcount (v : Z) (s : smtp_session) : smtp_session :=
  Build_smtp_session (s_id s) (iobuf s) (io s) (listener s) (ss s) (hostname s) (flags s) (phase s) (state s) (auth s) (evp s) (cmd s) (kickcount s) v (rcptcount s) (destcount s) (ofile s) (datalen s) (s_dstatus s).
Definition set_rcptcount (v : Z) (s : smtp_session) : smtp_session :=
  Build_smtp_session (s_id s) (iobuf s) (io s) (listener s) (ss s) (hostname s) (flags s) (phase s) (state s) (auth s) (evp s) (cmd s) (kickcount s) (mailcount s) v (destcount s) (ofile s) (datalen s) (s_dstatus s).
Definition set_destcount (v : Z) (s : smtp_session) : smtp_session :=
  Build_smtp_session (s_id s) (iobuf s) (io s) (listener s) (ss s) (hostname s) (flags s) (phase s) (state s) (auth s) (evp s) (cmd s) (kickcount s) (mailcount s) (rcptcount s) v (ofile s) (datalen s) (s_dstatus s).
Definition set_ofile (v : option FILE) (s : smtp_session) : smtp_session :=
  Build_smtp_session (s_id s) (iobuf s) (io s) (listener s) (ss s) (hostname s) (flags s) (phase s) (state s) (auth s) (evp s) (cmd s) (kickcount s) (mailcount s) (rcptcount s) (destcount s) v (datalen s) (s_dstatus s).
Definition set_datalen (v : Z) (s : smtp_session) : smtp_session :=
  Build_smtp_session (s_id s) (iobuf s) (io s) (listener s) (ss s) (hostname s) (flags s) (phase s) (state s) (auth s) (evp s) (cmd s) (kickcount s) (mailcount s) (rcptcount s) (destcount s) (ofile s) v (s_dstatus s).
Definition set_s_dstatus (v : Z) (s : smtp_session) : smtp_session :=
  Build_smtp_session (s_id s) (iobuf s) (io s) (listener s) (ss s) (hostname s) (flags s) (phase s) (state s) (auth s) (evp s) (cmd s) (kickcount s) (mailcount s) (rcptcount s) (destcount s) (ofile s) (datalen s) v.

(** ** Process-wide state *)

(** The ten [static struct tree wait_*]. *)
Inductive wait_kind :=
| wait_lka_ptr | wait_mfa_connect | wait_mfa_data | wait_mfa_helo
| wait_mfa_mailfrom | wait_mfa_rcpt | wait_parent_auth | wait_queue_msg
| wait_queue_fd | wait_queue_commit.

#[global] Instance wait_kind_eq_dec : EqDecision wait_kind.
Proof. solve_decision. Defined.

Definition all_wait_kinds : list wait_kind :=
  [ wait_lka_ptr; wait_mfa_connect; wait_mfa_data; wait_mfa_helo;
    wait_mfa_mailfrom; wait_mfa_rcpt; wait_parent_auth; wait_queue_msg;
    wait_queue_fd; wait_queue_commit ].

(** A session pointer. *)
Definition ptr := Z.

(** A tree maps a 64-bit key to the session pointer stored under it. *)
Definition trees := wait_kind -> gmap Z ptr.

(** Messages composed to the other processes ([imsg_compose_event],
    [dns_query_ptr]). *)
Inductive imsg_out :=
| Q_DNS_PTR (ss : sockaddr_storage) (id : Z)
| Q_MFA_CONNECT (reqid : Z) (evp : envelope)
| Q_MFA_HELO (reqid : Z) (evp : envelope)
| Q_MFA_MAIL (reqid : Z) (evp : envelope)
| Q_MFA_RCPT (reqid : Z) (evp : envelope)
| Q_MFA_RSET (reqid : Z) (evp : envelope)
| Q_MFA_DATALINE (reqid : Z) (buffer : string)
| Q_QUEUE_CREATE_MESSAGE (reqid evpid : Z)
| Q_QUEUE_MESSAGE_FILE (reqid evpid : Z)
| Q_QUEUE_COMMIT_MESSAGE (reqid evpid : Z)
| Q_QUEUE_REMOVE_MESSAGE (msgid : Z)
| Q_PARENT_AUTHENTICATE (a : auth_t).

Record globals := {
  wait : trees;
  sent : list imsg_out;          (* oldest first *)
  stats : gmap string Z;         (* stat_increment / stat_decrement *)
  spool : list FILE;             (* files closed so far, oldest first *)
  now : Z;                       (* what time(NULL) returns *)
}.

Definition set_wait (v : trees) (g : globals) : globals :=
  Build_globals v (sent g) (stats g) (spool g) (now g).
Definition set_sent (v : list imsg_out) (g : globals) : globals :=
  Build_globals (wait g) v (stats g) (spool g) (now g).
Definition set_stats (v : gmap string Z) (g : globals) : globals :=
  Build_globals (wait g) (sent g) v (spool g) (now g).
Definition set_spool (v : list FILE) (g : globals) : globals :=
  Build_globals (wait g) (sent g) (stats g) v (now g).

Definition upd_tree (t : wait_kind) (m : gmap Z ptr) (w : trees) : trees :=
  fun t' => if decide (t' = t) then m else w t'.

(** Messages received from the other processes, by [imsg->hdr.type]. *)
Record dns_t := { dns_id : Z; dns_error : Z; dns_host : string }.

Record mfa_resp_msg := {
  mfa_reqid : Z;
  mfa_status : Z;
  mfa_code : Z;
  mfa_u_mailaddr : mailaddr;
  mfa_u_buffer : string;
}.

Record queue_resp_msg := { q_reqid : Z; q_success : Z; q_evpid : Z }.

(** A descriptor passed with a message: the file behind it, and whether
    [fdopen] succeeds on it. *)
Record fdesc := { fd_file : FILE; fd_openable : bool }.

Inductive imsg :=
| IMSG_DNS_PTR (dns : dns_t)
| IMSG_MFA_CONNECT (r : mfa_resp_msg)
| IMSG_MFA_HELO (r : mfa_resp_msg)
| IMSG_MFA_MAIL (r : mfa_resp_msg)
| IMSG_MFA_RCPT (r : mfa_resp_msg)
| IMSG_MFA_DATALINE (r : mfa_resp_msg)
| IMSG_QUEUE_CREATE_MESSAGE (q : queue_resp_msg)
| IMSG_QUEUE_MESSAGE_FILE (q : queue_resp_msg) (fd : option fdesc)
| IMSG_QUEUE_SUBMIT_ENVELOPE (q : queue_resp_msg)
| IMSG_QUEUE_COMMIT_ENVELOPES (q : queue_resp_msg)
| IMSG_QUEUE_COMMIT_MESSAGE (q : queue_resp_msg)
| IMSG_PARENT_AUTHENTICATE (a : auth_t)
| IMSG_OTHER (type : Z).

(** Events raised by the I/O driver. *)
Inductive io_event :=
| IO_TLSREADY | IO_DATAIN | IO_LOWAT | IO_TIMEOUT | IO_DISCONNECTED | IO_ERROR
| IO_OTHER (evt : Z).

(** ** The monad of session code *)

Inductive res (A : Type) : Type :=
| Ok (a : A) (s : smtp_session) (g : globals)
| Fatal (msg : string).
Arguments Ok {A} a s g.
Arguments Fatal {A} msg.

(** Session code runs on the session [s] points to and on the globals. *)
Definition M (A : Type) : Type := ptr -> smtp_session -> globals -> res A.

Definition ret {A} (a : A) : M A := fun _ s g => Ok a s g.

Definition bind {A B} (m : M A) (k : A -> M B) : M B :=
  fun p s g =>
    match m p s g with
    | Ok a s' g' => k a p s' g'
    | Fatal msg => Fatal msg
    end.

Notation "x <- c1 ;; c2" := (bind c1 (fun x => c2))
  (at level 20, c1 at level 99, c2 at level 200, only parsing).
Notation "c1 ;; c2" := (bind c1 (fun _ => c2))
  (at level 100, c2 at level 200, only parsing, right associativity).

Definition self : M ptr := fun p s g => Ok p s g.
Definition get : M smtp_session := fun _ s g => Ok s s g.
Definition getg : M globals := fun _ s g => Ok g s g.
Definition modify (f : smtp_session -> smtp_session) : M unit :=
  fun _ s g => Ok tt (f s) g.
Definition modifyg (f : globals -> globals) : M unit :=
  fun _ s g => Ok tt s (f g).
Definition fatalx {A} (msg : string) : M A := fun _ _ _ => Fatal msg.

(** What a handler leaves behind: the session goes on, or [smtp_free] has
    released it, or the process has aborted. *)
Inductive outcome :=
| Live (s : smtp_session) (g : globals)
| Freed (reason : string) (g : globals)
| Aborted (msg : string).

(** ** Trees (tree.c is not among the sources)

    Modelled from the spec: the pending-request registry maps a request id
    to a non-owning session reference; lookup-and-remove is the resumption
    pattern, and a missing entry is fatal except where the caller tolerates
    it ([tree_get], [tree_pop]).  At most one request per kind is pending
    for a session: [tree_xset] aborts on a key that is already present. *)

Definition tree_get (t : wait_kind) (k : Z) (g : globals) : option ptr :=
  wait g t !! k.

Definition tree_pop (t : wait_kind) (k : Z) (g : globals) : option ptr * globals :=
  (wait g t !! k, set_wait (upd_tree t (delete k (wait g t)) (wait g)) g).

Definition tree_xset (t : wait_kind) (k : Z) : M unit :=
  fun p s g =>
    match wait g t !! k with
    | Some _ => Fatal "tree_xset"
    | None => Ok tt s (set_wait (upd_tree t (<[k := p]> (wait g t)) (wait g)) g)
    end.

(** ** Collaborators, statistics, I/O driver *)

Definition imsg_compose_event (m : imsg_out) : M unit :=
  modifyg (fun g => set_sent (sent g ++ [m]) g).

Definition stat_add (key : string) (n : Z) (g : globals) : globals :=
  set_stats (<[key := default 0 (stats g !! key) + n]> (stats g)) g.

Definition stat_increment (key : string) (n : Z) : M unit :=
  modifyg (stat_add key n).

Definition io_set_read (s : smtp_session) : smtp_session :=
  set_io {| io_mode := IO_READ; io_ssl := io_ssl (io s) |} s.

Definition io_set_write (s : smtp_session) : smtp_session :=
  set_io {| io_mode := IO_WRITE; io_ssl := io_ssl (io s) |} s.

Definition io_start_tls (ssl : ssl_t) (s : smtp_session) : smtp_session :=
  set_io {| io_mode := io_mode (io s); io_ssl := Some ssl |} s.

(** [ssl_smtp_init(ctx)] *)
Definition ssl_smtp_init (ctx : ssl_t) : ssl_t := ctx.

(** [io_reload] re-arms the driver's events; it leaves the session as is. *)
Definition io_reload : M unit := ret tt.

(** ** The line framer (iobuf.c is not among the sources)

    Modelled from the spec: a line is the bytes up to and including the next
    LF, returned without the trailing CRLF; [iobuf_getline] also reports its
    length and removes it from the buffer. *)

Definition iobuf_len (ib : iobuf_t) : Z := strlen (ib_in ib).

Definition iobuf_getline (ib : iobuf_t) : option (string * Z * iobuf_t) :=
  match strchr (ib_in ib) LF with
  | None => None
  | Some i =>
      let len :=
        match i with
        | S j => if Ascii.eqb (head (drop j (ib_in ib))) CR then j else i
        | O => i
        end in
      Some (take len (ib_in ib), Z.of_nat len,
            {| ib_in := drop (S i) (ib_in ib); ib_out := ib_out ib |})
  end.

(** [iobuf_normalize] moves the pending bytes to the front of the buffer. *)
Definition iobuf_normalize (ib : iobuf_t) : iobuf_t := ib.

(** [iobuf_xfqueue(&s->iobuf, where, "%s\r\n", buf)] *)
Definition iobuf_xfqueue (buf : string) (ib : iobuf_t) : iobuf_t :=
  {| ib_in := ib_in ib; ib_out := ib_out ib ++ [(buf ++ CRLF)%string] |}.

(** ** The spool file (stdio)

    Modelled from the spec: a line is appended to the spool writer, a
    short write is detected by the caller, and a close error is reported by
    [safe_fclose].  A write that does not fit the room left writes what fits
    and sets the error indicator. *)

Definition ftell (f : FILE) : Z := strlen (f_data f).

Definition fprintf (f : FILE) (text : string) : FILE * Z :=
  if strlen text <=? f_room f then
    ({| f_data := f_data f ++ text; f_room := f_room f - strlen text;
        f_err := f_err f |}, strlen text)
  else
    ({| f_data := f_data f ++ take (Z.to_nat (f_room f)) text; f_room := 0;
        f_err := true |}, -1).

(** [safe_fclose] returns 0 when the stream had an error. *)
Definition safe_fclose (f : FILE) : bool := negb (f_err f).

Definition fdopen (fd : fdesc) : option FILE :=
  if fd_openable fd then Some (fd_file fd) else None.

(** ** The session code *)

Section Session.

Context (H : smtpd_h) (env : smtpd).

Definition ADVERTISE_TLS (s : smtp_session) : bool :=
  has (l_flags (listener s)) (F_STARTTLS H) && negb (has (flags s) F_SECURE).

Definition ADVERTISE_AUTH (s : smtp_session) : bool :=
  has (l_flags (listener s)) (F_AUTH H) && has (flags s) F_SECURE
  && negb (has (flags s) F_AUTHENTICATED).

(** [smtp_reply(s, fmt, ...)], given the text that [vsnprintf] produces. *)
Definition smtp_reply (buf : string) : M unit :=
  let n := strlen buf in
  if SMTP_LINE_MAX <=? n then fatalx "smtp_reply: line too long"
  else if n <? 4 then fatalx "smtp_reply: response too short"
  else modify (fun s => set_iobuf (iobuf_xfqueue buf (iobuf s)) s).

Definition smtp_enter_state (newstate : smtp_state) : M unit :=
  modify (set_state newstate);;
  match newstate with
  | S_CONNECTED =>
      s <- get;;
      imsg_compose_event (Q_MFA_CONNECT (s_id s) (evp s));;
      tree_xset wait_mfa_connect (s_id s)
  | _ => ret tt
  end.

(** [smtp_free(s, reason)].  The session is gone afterwards; what remains
    are the globals.  ([smtp_collect] only tells the accept loop that a slot
    is free.) *)
Definition smtp_free (s : smtp_session) (reason : string) (g : globals) : outcome :=
  let g := snd (tree_pop wait_mfa_data (s_id s) g) in
  let g :=
    if evp_id (evp s) =? 0 then g
    else set_sent
           (sent g ++ [Q_QUEUE_REMOVE_MESSAGE (evpid_to_msgid H (evp_id (evp s)))]) g in
  let g :=
    match ofile s with
    | Some f => set_spool (spool g ++ [f]) g
    | None => g
    end in
  let g :=
    if has (flags s) F_SECURE && has (l_flags (listener s)) (F_SMTPS H)
    then stat_add "smtp.smtps" (-1) g else g in
  let g :=
    if has (flags s) F_SECURE && has (l_flags (listener s)) (F_STARTTLS H)
    then stat_add "smtp.tls" (-1) g else g in
  Freed reason g.

Definition mask7 (c : ascii) : ascii :=
  if has (code c) 0x80 then chr (Z.land (code c) 0x7f) else c.

Definition or_dstatus (bit : Z) : M unit :=
  modify (fun s => set_s_dstatus (Z.lor (s_dstatus s) bit) s).

(** [smtp_queue_data(s, line)].  [line] is the buffer as received; the code
    reads it as a C string.  The bytes are masked in place, and [fprintf]
    with [%s] then writes the masked line up to its first NUL: a byte 0x80
    is masked to NUL, so the line is cut there and the result differs from
    [len + 1].  Reading the position of a NULL [ofile] is undefined in C and
    fatal here. *)
Definition smtp_queue_data (line : string) : M unit :=
  s <- get;;
  if has (s_dstatus s) (Z.lor (DS_PERMFAILURE H) (DS_TEMPFAILURE H)) then ret tt
  else
    let line := cstr line in
    let line := if Ascii.eqb (head line) "." then drop 1 line else line in
    let len := strlen line in
    match ofile s with
    | None => fatalx "smtp_queue_data: no spool file"
    | Some f =>
        let datalen := ftell f in
        if (SIZE_MAX - datalen <? len + 1) || (sc_maxsize env <? datalen + len + 1)
        then or_dstatus (DS_PERMFAILURE H)
        else
          let line := if has (flags s) F_8BITMIME then line else CStr.map mask7 line in
          let '(f', n) := fprintf f (cstr line ++ NL) in
          modify (set_ofile (Some f'));;
          if n =? len + 1 then ret tt else or_dstatus (DS_TEMPFAILURE H)
    end.

(** [smtp_end_body(s)] *)
Definition smtp_end_body : M unit :=
  s <- get;;
  if negb (has (flags s) F_SMTP_MESSAGE_END && has (flags s) F_MFA_MESSAGE_END)
  then ret tt
  else
    modify (set_phase PHASE_SETUP);;
    match ofile s with
    | None => fatalx "smtp_end_body: no spool file"
    | Some f =>
        modify (set_datalen (ftell f));;
        (if safe_fclose f then ret tt else or_dstatus (DS_TEMPFAILURE H));;
        modifyg (fun g => set_spool (spool g ++ [f]) g);;
        modify (set_ofile None);;
        s <- get;;
        if has (s_dstatus s) (DS_PERMFAILURE H) then
          smtp_reply "554 5.0.0 Transaction failed";;
          smtp_enter_state S_HELO
        else if has (s_dstatus s) (DS_TEMPFAILURE H) then
          smtp_reply "421 4.0.0 Temporary failure";;
          smtp_enter_state S_QUIT;;
          stat_increment "smtp.tempfail" 1
        else
          imsg_compose_event (Q_QUEUE_COMMIT_MESSAGE (s_id s) (evp_id (evp s)));;
          tree_xset wait_queue_commit (s_id s)
    end.

(** [smtp_mailaddr(maddr, line)]: the value returned, the address left in
    [maddr], and what [line] reads afterwards. *)
Definition smtp_mailaddr (maddr : mailaddr) (line : string) : Z * mailaddr * string :=
  if negb (Ascii.eqb (head line) "<") || negb (Ascii.eqb (last line) ">")
  then (0, maddr, line)
  else
    let line := take (String.length line - 1) line in
    let '(r, maddr', rest) := email_to_mailaddr H maddr (drop 1 line) in
    (r, maddr', String "<" rest).

(** The loop of [smtp_parse_mail_args(s, args)].  Every round cuts [args]
    at its last space, so [S (length args)] rounds are enough
    ([smtp_parse_mail_args_fuel]); the value at [O] is never asked for. *)
Fixpoint smtp_parse_mail_args_loop (fuel : nat) (args : string) : M Z :=
  match fuel with
  | O => ret 0
  | S fuel' =>
      match strrchr args " " with
      | None => ret 0
      | Some i =>
          let b := drop (S i) args in
          let args := take i args in
          if strncasecmp b "AUTH=" 5 =? 0 then
            smtp_parse_mail_args_loop fuel' args
          else if strcasecmp b "BODY=7BIT" =? 0 then
            modify (fun s => set_flags (Z.land (flags s) (Z.lnot F_8BITMIME)) s);;
            smtp_parse_mail_args_loop fuel' args
          else if negb (strcasecmp b "BODY=8BITMIME" =? 0) then
            smtp_parse_mail_args_loop fuel' args
          else
            smtp_reply ("503 5.5.4 Unsupported option " ++ b);;
            ret (-1)
      end
  end.

Definition smtp_parse_mail_args (args : string) : M Z :=
  smtp_parse_mail_args_loop (S (String.length args)) args.

Definition set_auth_user (v : string) (s : smtp_session) : smtp_session :=
  set_auth {| auth_id := auth_id (auth s); auth_user := v;
              auth_pass := auth_pass (auth s);
              auth_success := auth_success (auth s) |} s.

Definition set_auth_pass (v : string) (s : smtp_session) : smtp_session :=
  set_auth {| auth_id := auth_id (auth s); auth_user := auth_user (auth s);
              auth_pass := v; auth_success := auth_success (auth s) |} s.

Definition set_auth_id (v : Z) (s : smtp_session) : smtp_session :=
  set_auth {| auth_id := v; auth_user := auth_user (auth s);
              auth_pass := auth_pass (auth s);
              auth_success := auth_success (auth s) |} s.

(** The tail shared by both SASL methods: hand the credentials to the
    parent, wipe the password, wait for the verdict. *)
Definition smtp_authenticate : M unit :=
  modify (fun s => set_auth_id (s_id s) s);;
  s <- get;;
  imsg_compose_event (Q_PARENT_AUTHENTICATE (auth s));;
  modify (set_auth_pass EmptyString);;
  tree_xset wait_parent_auth (s_id s).

(** The [abort:] label of both SASL methods. *)
Definition smtp_auth_abort : M unit :=
  smtp_reply "501 Syntax error";;
  smtp_enter_state S_HELO.

(** [case S_AUTH_INIT:] of [smtp_rfc4954_auth_plain].  Offsets into [buf]
    stand for the pointers [user] and [pass]. *)
Definition smtp_auth_plain_decode (arg : string) : M unit :=
  match b64_pton H arg (1024 - 1) with
  | None => smtp_auth_abort
  | Some buf =>
      let len := strlen buf in
      match strchr buf NUL with
      | None => smtp_auth_abort
      | Some u0 =>
          if len - 2 <=? Z.of_nat u0 then smtp_auth_abort
          else
            let user := S u0 in
            let '(copy, n) := strlcpy (cstr (drop user buf)) (sizeof_auth_user H) in
            modify (set_auth_user copy);;
            if sizeof_auth_user H <=? n then smtp_auth_abort
            else
              match strchr (drop user buf) NUL with
              | None => smtp_auth_abort
              | Some k =>
                  let p0 := (user + k)%nat in
                  if len - 2 <=? Z.of_nat p0 then smtp_auth_abort
                  else
                    let pass := S p0 in
                    let '(copy, n) :=
                      strlcpy (cstr (drop pass buf)) (sizeof_auth_pass H) in
                    modify (set_auth_pass copy);;
                    if sizeof_auth_pass H <=? n then smtp_auth_abort
                    else smtp_authenticate
              end
      end
  end.

(** [smtp_rfc4954_auth_plain(s, arg)]; [None] is a NULL [arg]. *)
Definition smtp_rfc4954_auth_plain (arg : option string) : M unit :=
  s <- get;;
  match state s, arg with
  | S_HELO, None =>
      smtp_enter_state S_AUTH_INIT;;
      smtp_reply "334 "
  | S_HELO, Some a =>
      smtp_enter_state S_AUTH_INIT;;
      smtp_auth_plain_decode a
  | S_AUTH_INIT, Some a => smtp_auth_plain_decode a
  | S_AUTH_INIT, None => fatalx "smtp_rfc4954_auth_plain: NULL argument"
  | _, _ => fatalx "smtp_rfc4954_auth_plain: unknown state"
  end.

(** [smtp_rfc4954_auth_login(s, arg)].  The destination is zeroed before
    decoding, so it reads as the decoded bytes up to their first NUL. *)
Definition smtp_rfc4954_auth_login (arg : option string) : M unit :=
  s <- get;;
  match state s with
  | S_HELO =>
      smtp_enter_state S_AUTH_USERNAME;;
      smtp_reply "334 VXNlcm5hbWU6"
  | S_AUTH_USERNAME =>
      modify (set_auth_user EmptyString);;
      match arg with
      | None => fatalx "smtp_rfc4954_auth_login: NULL argument"
      | Some a =>
          match b64_pton H a (sizeof_auth_user H - 1) with
          | None => smtp_auth_abort
          | Some u =>
              modify (set_auth_user (cstr u));;
              smtp_enter_state S_AUTH_PASSWORD;;
              smtp_reply "334 UGFzc3dvcmQ6"
          end
      end
  | S_AUTH_PASSWORD =>
      modify (set_auth_pass EmptyString);;
      match arg with
      | None => fatalx "smtp_rfc4954_auth_login: NULL argument"
      | Some a =>
          match b64_pton H a (sizeof_auth_pass H - 1) with
          | None => smtp_auth_abort
          | Some pw =>
              modify (set_auth_pass (cstr pw));;
              smtp_authenticate
          end
      end
  | _ => fatalx "smtp_rfc4954_auth_login: unknown state"
  end.

(** *** smtp_command *)

(** The verb and the argument of a command line ([None] is a NULL
    [args]). *)
Definition smtp_split (line : string) : string * option string :=
  let args :=
    if (strncasecmp "mail from:" line 10 =? 0)
       || (strncasecmp "rcpt to:" line 8 =? 0)
    then strchr line ":"
    else strchr line " " in
  match args with
  | Some i => (take i line, Some (skip_space (drop (S i) line)))
  | None => (line, None)
  end.

(** The [for] loop over [commands]; [None] is [cmd = -1]. *)
Fixpoint smtp_lookup (tbl : list (cmd_code * string)) (verb : string) : option cmd_code :=
  match tbl with
  | [] => None
  | (c, name) :: tbl' =>
      if strcasecmp verb name =? 0 then Some c else smtp_lookup tbl' verb
  end.

Definition set_helo (cmd : cmd_code) (args : string) (s : smtp_session) : smtp_session :=
  let s := set_evp (set_evp_helo (fst (strlcpy args (sizeof_evp_helo H))) (evp s)) s in
  let s := set_evp (set_evp_session_id (s_id s) (evp s)) s in
  let s := set_flags (Z.land (flags s) (Z.lor F_SECURE F_AUTHENTICATED)) s in
  match cmd with
  | CMD_EHLO =>
      let s := set_flags (Z.lor (flags s) F_EHLO) s in
      set_flags (Z.lor (flags s) F_8BITMIME) s
  | _ => s
  end.

Definition cmd_helo (cmd : cmd_code) (args : option string) : M unit :=
  s <- get;;
  if negb (bool_decide (phase s = PHASE_INIT)) then
    smtp_reply "XXX Already indentified"
  else
    match args with
    | None =>
        smtp_reply ("501 " ++ match cmd with CMD_HELO => "HELO" | _ => "EHLO" end
                    ++ " requires domain address")
    | Some args =>
        if negb (valid_domainpart H args) then smtp_reply "501 Invalid domain name"
        else
          modify (set_helo cmd args);;
          s <- get;;
          imsg_compose_event (Q_MFA_HELO (s_id s) (evp s));;
          tree_xset wait_mfa_helo (s_id s)
    end.

Definition cmd_starttls (args : option string) : M unit :=
  s <- get;;
  if negb (bool_decide (phase s = PHASE_SETUP)) then
    smtp_reply "XXX Command not allowed at this point."
  else if has (flags s) F_SECURE then smtp_reply "501 Channel already secured"
  else
    match args with
    | Some _ => smtp_reply "501 No parameters allowed"
    | None =>
        smtp_reply "220 Ready to start TLS";;
        smtp_enter_state S_TLS
    end.

Definition cmd_auth (args : option string) : M unit :=
  s <- get;;
  if negb (bool_decide (phase s = PHASE_SETUP)) then
    smtp_reply "XXX Command not allowed at this point."
  else if has (flags s) F_AUTHENTICATED then smtp_reply "503 Already authenticated"
  else if negb (ADVERTISE_AUTH s) then smtp_reply "503 Command not supported"
  else
    match args with
    | None => smtp_reply "501 No parameters given"
    | Some args =>
        let eom :=
          match strchr args " " with
          | Some i => Some i
          | None => strchr args (chr 9)
          end in
        let method := match eom with Some i => take i args | None => args end in
        let eom := match eom with Some i => Some (drop (S i) args) | None => None end in
        if strcasecmp method "PLAIN" =? 0 then smtp_rfc4954_auth_plain eom
        else if strcasecmp method "LOGIN" =? 0 then smtp_rfc4954_auth_login eom
        else smtp_reply ("504 AUTH method " ++ DQUOTE ++ method ++ DQUOTE ++ " not supported")
    end.

Definition cmd_mail_from (args : option string) : M unit :=
  s <- get;;
  if negb (bool_decide (phase s = PHASE_SETUP)) then
    smtp_reply "XXX Command not allowed at this point."
  else if has (l_flags (listener s)) (F_STARTTLS_REQUIRE H)
          && negb (has (flags s) F_SECURE) then
    smtp_reply "530 5.7.0 Must issue a STARTTLS command first"
  else if has (l_flags (listener s)) (F_AUTH_REQUIRE H)
          && negb (has (flags s) F_AUTHENTICATED) then
    smtp_reply "530 5.7.0 Must issue an AUTH command first"
  else if SMTP_MAXMAIL <=? mailcount s then smtp_reply "452 Too many messages sent"
  else
    match args with
    | None => fatalx "smtp_mailaddr: NULL argument"
    | Some args =>
        let '(r, sender, args) := smtp_mailaddr (evp_sender (evp s)) args in
        modify (fun s => set_evp (set_evp_sender sender (evp s)) s);;
        if r =? 0 then smtp_reply "553 5.1.7 Sender address syntax error"
        else
          r <- (if has (flags s) F_EHLO then smtp_parse_mail_args args else ret 0);;
          if r =? -1 then ret tt
          else
            s <- get;;
            imsg_compose_event (Q_MFA_MAIL (s_id s) (evp s));;
            tree_xset wait_mfa_mailfrom (s_id s)
    end.

Definition cmd_rcpt_to (args : option string) : M unit :=
  s <- get;;
  if negb (bool_decide (phase s = PHASE_TRANSACTION)) then
    smtp_reply "XXX Command not allowed at this point."
  else if SMTP_MAXRCPT <=? rcptcount s then smtp_reply "452 Too many recipients"
  else
    match args with
    | None => fatalx "smtp_mailaddr: NULL argument"
    | Some args =>
        let '(r, rcpt, _) := smtp_mailaddr (evp_rcpt (evp s)) args in
        modify (fun s => set_evp (set_evp_rcpt rcpt (evp s)) s);;
        if r =? 0 then smtp_reply "553 5.1.3 Recipient address syntax error"
        else
          s <- get;;
          imsg_compose_event (Q_MFA_RCPT (s_id s) (evp s));;
          tree_xset wait_mfa_rcpt (s_id s)
    end.

Definition cmd_rset : M unit :=
  s <- get;;
  if negb (bool_decide (phase s = PHASE_TRANSACTION)) then
    smtp_reply "XXX Command not allowed at this point."
  else
    imsg_compose_event (Q_MFA_RSET (s_id s) (evp s));;
    smtp_reply "250 2.0.0 Reset state";;
    modify (set_phase PHASE_SETUP);;
    modify (fun s => set_evp (set_evp_id 0 (evp s)) s).

Definition cmd_data : M unit :=
  s <- get;;
  if negb (bool_decide (phase s = PHASE_TRANSACTION)) then
    smtp_reply "XXX Command not allowed at this point."
  else if rcptcount s =? 0 then smtp_reply "503 5.5.1 No recipient specified"
  else
    imsg_compose_event (Q_QUEUE_MESSAGE_FILE (s_id s) (evp_id (evp s)));;
    tree_xset wait_queue_fd (s_id s).

Definition cmd_help : M unit :=
  smtp_reply "214- This is OpenSMTPD";;
  smtp_reply ("214- To report bugs in the implementation, "
              ++ "please contact bugs@openbsd.org");;
  smtp_reply "214- with full details";;
  smtp_reply "214 End of HELP info".

(** The [switch (cmd)] of [smtp_command]. *)
Definition smtp_dispatch (cmd : option cmd_code) (args : option string) : M unit :=
  match cmd with
  | Some CMD_HELO => cmd_helo CMD_HELO args
  | Some CMD_EHLO => cmd_helo CMD_EHLO args
  | Some CMD_STARTTLS => cmd_starttls args
  | Some CMD_AUTH => cmd_auth args
  | Some CMD_MAIL_FROM => cmd_mail_from args
  | Some CMD_RCPT_TO => cmd_rcpt_to args
  | Some CMD_RSET => cmd_rset
  | Some CMD_DATA => cmd_data
  | Some CMD_QUIT =>
      smtp_reply "221 2.0.0 Bye";;
      smtp_enter_state S_QUIT
  | Some CMD_NOOP => smtp_reply "250 2.0.0 Ok"
  | Some CMD_HELP => cmd_help
  | None => smtp_reply "500 Command unrecognized"
  end.

(** [smtp_command(s, line)].  [line] is [s->cmd]; cutting it at the
    argument leaves the verb as what [s->cmd] reads. *)
Definition smtp_command (line : string) : M unit :=
  modify (fun s => set_kickcount (wrap (kickcount s + 1)) s);;
  s <- get;;
  if SMTP_KICKTHRESHOLD <=? kickcount s then
    modify (fun s => set_flags (Z.lor (flags s) F_KICK) s);;
    stat_increment "smtp.kick" 1
  else
    match state s with
    | S_AUTH_INIT => smtp_rfc4954_auth_plain (Some line)
    | S_AUTH_USERNAME | S_AUTH_PASSWORD => smtp_rfc4954_auth_login (Some line)
    | _ =>
        let '(verb, args) := smtp_split line in
        modify (set_cmd verb);;
        smtp_dispatch (smtp_lookup commands verb) args
    end.

(** *** smtp_io *)

Definition run (m : M unit) (p : ptr) (s : smtp_session) (g : globals) : outcome :=
  match m p s g with
  | Ok _ s' g' => Live s' g'
  | Fatal msg => Aborted msg
  end.

Definition line_too_long : M unit :=
  smtp_reply "500 5.0.0 Line too long";;
  smtp_enter_state S_QUIT;;
  modify io_set_write.

Definition pipelining_not_supported : M unit :=
  smtp_reply "500 5.0.0 Pipelining not supported";;
  smtp_enter_state S_QUIT;;
  modify io_set_write.

(** A body line that is not the lone dot: to the filter when it listens to
    data lines, to the spool otherwise. *)
Definition smtp_body_line (line : string) : M unit :=
  if has (filtermask env) (HOOK_DATALINE H) then
    s <- get;;
    if sizeof_mfa_buffer H <=? snd (strlcpy (cstr line) (sizeof_mfa_buffer H))
    then fatalx "smtp_io: data truncation"
    else imsg_compose_event (Q_MFA_DATALINE (s_id s) (cstr line))
  else smtp_queue_data line.

Definition smtp_end_of_body : M unit :=
  modify (fun s => set_flags (Z.lor (flags s) F_SMTP_MESSAGE_END) s);;
  modify (fun s => set_iobuf (iobuf_normalize (iobuf s)) s);;
  modify io_set_write;;
  smtp_end_body.

(** One pass from the label [nextline]: either the handler is done, or it
    jumps back to [nextline]. *)
Inductive step :=
| Next (s : smtp_session) (g : globals)
| Done (o : outcome).

(** What [smtp_io] does with a line that passed the length check. *)
Definition smtp_io_line (line : string) (p : ptr) (s : smtp_session) (g : globals) : step :=
  if bool_decide (state s = S_BODY) && negb (strcmp (cstr line) "." =? 0) then
    match smtp_body_line line p s g with
    | Ok _ s' g' => Next s' g'
    | Fatal msg => Done (Aborted msg)
    end
  else if negb (iobuf_len (iobuf s) =? 0) then
    Done (run pipelining_not_supported p s g)
  else if bool_decide (state s = S_BODY) then
    Done (run smtp_end_of_body p s g)
  else
    let s := set_cmd (fst (strlcpy (cstr line) SMTP_LINE_MAX)) s in
    let s := set_iobuf (iobuf_normalize (iobuf s)) s in
    let s := io_set_write s in
    match smtp_command (cmd s) p s g with
    | Ok _ s' g' =>
        if has (flags s') F_KICK then Done (smtp_free s' "kick" g')
        else Done (Live s' g')
    | Fatal msg => Done (Aborted msg)
    end.

Definition smtp_io_nextline (p : ptr) (s : smtp_session) (g : globals) : step :=
  match iobuf_getline (iobuf s) with
  | None =>
      if SMTP_LINE_MAX <=? iobuf_len (iobuf s) then Done (run line_too_long p s g)
      else Done (Live (set_iobuf (iobuf_normalize (iobuf s)) s) g)
  | Some (line, len, ib) =>
      let s := set_iobuf ib s in
      if SMTP_LINE_MAX <=? len then Done (run line_too_long p s g)
      else smtp_io_line line p s g
  end.

(** [case IO_DATAIN:].  Every jump back to [nextline] has taken a line off
    the buffer, so [length] of the buffer bounds the number of jumps
    ([smtp_io_datain_fuel]); the value at [O] is never asked for. *)
Fixpoint smtp_io_datain_loop (fuel : nat) (p : ptr) (s : smtp_session) (g : globals)
  : outcome :=
  match smtp_io_nextline p s g with
  | Done o => o
  | Next s' g' =>
      match fuel with
      | O => Live s' g'
      | S fuel' => smtp_io_datain_loop fuel' p s' g'
      end
  end.

Definition smtp_io_datain (p : ptr) (s : smtp_session) (g : globals) : outcome :=
  smtp_io_datain_loop (String.length (ib_in (iobuf s))) p s g.

Definition smtp_io_tlsready : M unit :=
  modify (fun s => set_flags (Z.lor (flags s) F_SECURE) s);;
  modify (set_kickcount 0);;
  s <- get;;
  if has (l_flags (listener s)) (F_SMTPS H) then
    stat_increment "smtp.smtps" 1;;
    smtp_reply (SMTPD_BANNER H (sc_hostname env));;
    modify io_set_write
  else stat_increment "smtp.tls" 1.

(** [smtp_io(io, evt)], for the session [io->arg]. *)
Definition smtp_io (evt : io_event) (p : ptr) (s : smtp_session) (g : globals) : outcome :=
  match evt with
  | IO_TLSREADY => run smtp_io_tlsready p s g
  | IO_DATAIN => smtp_io_datain p s g
  | IO_LOWAT =>
      if bool_decide (state s = S_QUIT) then smtp_free s "done" g
      else
        let s := io_set_read s in
        if bool_decide (state s = S_TLS)
        then Live (io_start_tls (ssl_smtp_init (l_ssl_ctx (listener s))) s) g
        else Live s g
  | IO_TIMEOUT => smtp_free s "timeout" g
  | IO_DISCONNECTED => smtp_free s "disconnected" g
  | IO_ERROR => smtp_free s "IO error" g
  | IO_OTHER _ => Aborted "smtp_io()"
  end.

(** *** smtp_session_imsg: the session-side handlers *)

Definition set_hostnames (h : string) (s : smtp_session) : smtp_session :=
  let s := set_hostname (fst (strlcpy h (sizeof_hostname H))) s in
  set_evp (set_evp_hostname (fst (strlcpy (hostname s) (sizeof_hostname H))) (evp s)) s.

Definition on_dns_ptr (dns : dns_t) : M unit :=
  modify (set_hostnames (if dns_error dns =? 0 then dns_host dns else "<unknown>"));;
  smtp_enter_state S_CONNECTED.

Definition on_mfa_connect (r : mfa_resp_msg) (p : ptr) (s : smtp_session) (g : globals)
  : outcome :=
  if negb (mfa_status r =? MFA_OK H) then smtp_free s "rejected by filter" g
  else if has (l_flags (listener s)) (F_SMTPS H) then
    Live (io_start_tls (ssl_smtp_init (l_ssl_ctx (listener s))) (io_set_read s)) g
  else
    run (smtp_reply (SMTPD_BANNER H (sc_hostname env));;
         smtp_enter_state S_HELO;;
         io_reload) p s g.

Definition on_mfa_helo (r : mfa_resp_msg) : M unit :=
  if negb (mfa_status r =? MFA_OK H) then
    smtp_reply (Fmt.d (mfa_code r) ++ " Hello rejected");;
    io_reload
  else
    s <- get;;
    smtp_reply ("250" ++ (if has (flags s) F_EHLO then "-" else " ")
                ++ sc_hostname env ++ " Hello " ++ evp_helo (evp s)
                ++ " [" ++ ss_to_text H (ss s) ++ "], pleased to meet you");;
    (if has (flags s) F_EHLO then
       smtp_reply "250-8BITMIME";;
       smtp_reply "250-ENHANCEDSTATUSCODES";;
       smtp_reply ("250-SIZE " ++ Fmt.zu (sc_maxsize env));;
       (if ADVERTISE_TLS s then smtp_reply "250-STARTTLS" else ret tt);;
       (if ADVERTISE_AUTH s then smtp_reply "250-AUTH PLAIN LOGIN" else ret tt);;
       smtp_reply "250 HELP"
     else ret tt);;
    modify (set_kickcount 0);;
    modify (set_phase PHASE_SETUP);;
    io_reload.

Definition on_mfa_mail (r : mfa_resp_msg) : M unit :=
  if negb (mfa_status r =? MFA_OK H) then
    smtp_reply (Fmt.d (mfa_code r) ++ " Sender rejected");;
    io_reload
  else
    modify (fun s => set_evp (set_evp_sender (mfa_u_mailaddr r) (evp s)) s);;
    s <- get;;
    imsg_compose_event (Q_QUEUE_CREATE_MESSAGE (s_id s) 0);;
    tree_xset wait_queue_msg (s_id s).

Definition on_mfa_rcpt (r : mfa_resp_msg) : M unit :=
  s <- get;;
  (if negb (mfa_status r =? MFA_OK H) then
     smtp_reply (Fmt.d (mfa_code r) ++ " 5.0.0 Recipient rejected: "
                 ++ ma_user (evp_rcpt (evp s)) ++ "@" ++ ma_domain (evp_rcpt (evp s)))
   else
     modify (fun s => set_rcptcount (wrap (rcptcount s + 1)) s);;
     modify (fun s => set_kickcount (wrap (kickcount s - 1)) s);;
     smtp_reply (Fmt.d (mfa_code r) ++ " 2.0.0 Recipient ok"));;
  io_reload.

Definition on_mfa_dataline_end : M unit :=
  modify (fun s => set_flags (Z.lor (flags s) F_MFA_MESSAGE_END) s);;
  smtp_end_body.

Definition on_queue_create_message (q : queue_resp_msg) : M unit :=
  (if negb (q_success q =? 0) then
     modify (fun s => set_evp (set_evp_id (q_evpid q) (evp s)) s);;
     modify (set_rcptcount 0);;
     modify (set_phase PHASE_TRANSACTION);;
     smtp_reply "250 Ok"
   else smtp_reply "421 Temporary Error");;
  io_reload.

(** The [Received:] lines; the results of these [fprintf] calls are not
    looked at. *)
Definition write_received (f : FILE) (s : smtp_session) (g : globals) : option FILE :=
  let f := fst (fprintf f
    ("Received: from " ++ evp_helo (evp s) ++ " (" ++ hostname s ++ " ["
     ++ ss_to_text H (ss s) ++ "]);" ++ NL
     ++ TAB ++ "by " ++ sc_hostname env ++ " (OpenSMTPD) with "
     ++ (if has (flags s) F_EHLO then "E" else EmptyString) ++ "SMTP id "
     ++ Fmt.x08 (evpid_to_msgid H (evp_id (evp s))) ++ ";" ++ NL)) in
  let f :=
    if has (flags s) F_SECURE then
      match io_ssl (io s) with
      | Some ssl =>
          Some (fst (fprintf f
            (TAB ++ "TLS version=" ++ ssl_version ssl ++ " cipher=" ++ ssl_cipher ssl
             ++ " bits=" ++ Fmt.d (ssl_bits ssl) ++ ";" ++ NL)))
      | None => None
      end
    else Some f in
  match f with
  | None => None
  | Some f =>
      let f :=
        if rcptcount s =? 1 then
          fst (fprintf f
            (TAB ++ "for <" ++ ma_user (evp_rcpt (evp s)) ++ "@"
             ++ ma_domain (evp_rcpt (evp s)) ++ ">;" ++ NL))
        else f in
      Some (fst (fprintf f (TAB ++ time_to_text H (now g) ++ NL)))
  end.

Definition on_queue_message_file (q : queue_resp_msg) (fd : option fdesc) : M unit :=
  if q_success q =? 0 then smtp_reply "421 Temporary Error"
  else
    match fd with
    | None => smtp_reply "421 Temporary Error"
    | Some fd =>
        match fdopen fd with
        | None => smtp_reply "421 Temporary Error"
        | Some f =>
            s <- get;;
            g <- getg;;
            match write_received f s g with
            | None => fatalx "smtp_session_imsg: no TLS object"
            | Some f =>
                modify (set_ofile (Some f));;
                smtp_reply ("354 Enter mail, end with " ++ DQUOTE ++ "." ++ DQUOTE
                            ++ " on a lineby itself");;
                tree_xset wait_mfa_data (s_id s);;
                smtp_enter_state S_BODY;;
                (if negb (has (filtermask env) (HOOK_DATALINE H)) then
                   modify (fun s => set_flags (Z.lor (flags s) F_MFA_MESSAGE_END) s)
                 else ret tt);;
                io_reload
            end
        end
    end.

Definition on_queue_submit_envelope (q : queue_resp_msg) : M unit :=
  if negb (q_success q =? 0) then
    modify (fun s => set_destcount (wrap (destcount s + 1)) s)
  else or_dstatus (DS_TEMPFAILURE H).

Definition on_queue_commit_envelopes (q : queue_resp_msg) : M unit :=
  modify (fun s => set_rcptcount (wrap (rcptcount s + 1)) s);;
  modify (fun s => set_kickcount (wrap (kickcount s - 1)) s);;
  smtp_reply "250 2.0.0 Recipient ok";;
  io_reload.

Definition on_queue_commit_message (q : queue_resp_msg) : M unit :=
  if q_success q =? 0 then
    smtp_reply "421 Temporay failure";;
    io_reload
  else
    s <- get;;
    smtp_reply ("250 2.0.0 " ++ Fmt.x08 (evpid_to_msgid H (evp_id (evp s)))
                ++ " Message accepted for delivery");;
    modify (fun s => set_mailcount (wrap (mailcount s + 1)) s);;
    modify (fun s => set_evp (set_evp_id 0 (evp s)) s);;
    modify (set_phase PHASE_SETUP);;
    modify (set_kickcount 0);;
    smtp_enter_state S_HELO;;
    io_reload.

Definition on_parent_authenticate (a : auth_t) : M unit :=
  (if negb (auth_success a =? 0) then
     modify (set_kickcount 0);;
     modify (fun s => set_flags (Z.lor (flags s) F_AUTHENTICATED) s);;
     smtp_reply "235 Authentication succeeded"
   else smtp_reply "535 Authentication failed");;
  io_reload.

(** *** The process: live sessions and globals *)

Record proc := { heap : gmap ptr smtp_session; glob : globals }.

Inductive presult :=
| Running (P : proc)
| Crashed (msg : string).

(** Store what a handler left of the session at [p]. *)
Definition settle (p : ptr) (h : gmap ptr smtp_session) (o : outcome) : presult :=
  match o with
  | Live s g => Running {| heap := <[p := s]> h; glob := g |}
  | Freed _ g => Running {| heap := delete p h; glob := g |}
  | Aborted msg => Crashed msg
  end.

(** Run a handler on the session a tree lookup returned.  A pointer to a
    session that has been freed cannot be followed. *)
Definition resume (p : ptr) (P : proc) (g : globals)
    (body : ptr -> smtp_session -> globals -> outcome) : presult :=
  match heap P !! p with
  | Some s => settle p (heap P) (body p s g)
  | None => Crashed "session pointer is dangling"
  end.

(** [s = tree_xpop(t, k); body] *)
Definition with_xpop (t : wait_kind) (k : Z) (P : proc)
    (body : ptr -> smtp_session -> globals -> outcome) : presult :=
  match tree_pop t k (glob P) with
  | (Some p, g) => resume p P g body
  | (None, _) => Crashed "tree_xpop"
  end.

(** [s = tree_xget(t, k); body] *)
Definition with_xget (t : wait_kind) (k : Z) (P : proc)
    (body : ptr -> smtp_session -> globals -> outcome) : presult :=
  match tree_get t k (glob P) with
  | Some p => resume p P (glob P) body
  | None => Crashed "tree_xget"
  end.

(** [smtp_session_imsg(iev, imsg)] *)
Definition smtp_session_imsg (m : imsg) (P : proc) : presult :=
  match m with
  | IMSG_DNS_PTR dns => with_xpop wait_lka_ptr (dns_id dns) P (run (on_dns_ptr dns))
  | IMSG_MFA_CONNECT r => with_xpop wait_mfa_connect (mfa_reqid r) P (on_mfa_connect r)
  | IMSG_MFA_HELO r => with_xpop wait_mfa_helo (mfa_reqid r) P (run (on_mfa_helo r))
  | IMSG_MFA_MAIL r => with_xpop wait_mfa_mailfrom (mfa_reqid r) P (run (on_mfa_mail r))
  | IMSG_MFA_RCPT r => with_xpop wait_mfa_rcpt (mfa_reqid r) P (run (on_mfa_rcpt r))
  | IMSG_MFA_DATALINE r =>
      if strcmp (mfa_u_buffer r) "." =? 0 then
        match tree_pop wait_mfa_data (mfa_reqid r) (glob P) with
        | (Some p, g) => resume p P g (run on_mfa_dataline_end)
        | (None, _) => Running P          (* dead session *)
        end
      else
        match tree_get wait_mfa_data (mfa_reqid r) (glob P) with
        | Some p => resume p P (glob P) (run (smtp_queue_data (mfa_u_buffer r)))
        | None => Running P               (* dead session *)
        end
  | IMSG_QUEUE_CREATE_MESSAGE q =>
      with_xpop wait_queue_msg (q_reqid q) P (run (on_queue_create_message q))
  | IMSG_QUEUE_MESSAGE_FILE q fd =>
      with_xpop wait_queue_fd (q_reqid q) P (run (on_queue_message_file q fd))
  | IMSG_QUEUE_SUBMIT_ENVELOPE q =>
      with_xget wait_mfa_rcpt (q_reqid q) P (run (on_queue_submit_envelope q))
  | IMSG_QUEUE_COMMIT_ENVELOPES q =>
      with_xpop wait_mfa_rcpt (q_reqid q) P (run (on_queue_commit_envelopes q))
  | IMSG_QUEUE_COMMIT_MESSAGE q =>
      with_xpop wait_queue_commit (q_reqid q) P (run (on_queue_commit_message q))
  | IMSG_PARENT_AUTHENTICATE a =>
      with_xpop wait_parent_auth (auth_id a) P (run (on_parent_authenticate a))
  | IMSG_OTHER _ => Crashed "smtp_session_imsg: unexpected imsg"
  end.

(** An I/O event on the session at [p]. *)
Definition smtp_io_event (evt : io_event) (p : ptr) (P : proc) : presult :=
  resume p P (glob P) (smtp_io evt).

(** The I/O driver has read [bytes] from the peer of the session at [p]. *)
Definition io_receive (bytes : string) (p : ptr) (P : proc) : proc :=
  match heap P !! p with
  | Some s =>
      {| heap := <[p := set_iobuf {| ib_in := ib_in (iobuf s) ++ bytes;
                                     ib_out := ib_out (iobuf s) |} s]> (heap P);
         glob := glob P |}
  | None => P
  end.

(** [smtp_session(listener, sock, ss, hostname)]: [p] is the block that
    [calloc] returns and [uid] the value of [generate_uid()]. *)
Definition smtp_session_init (p : ptr) (uid : Z) (l : listener_t)
    (ss0 : sockaddr_storage) (host : option string) (P : proc) : presult :=
  let e := {| evp_tag := l_tag l; evp_session_id := uid; evp_ss := ss0;
              evp_hostname := EmptyString; evp_helo := EmptyString;
              evp_sender := {| ma_user := EmptyString; ma_domain := EmptyString |};
              evp_rcpt := {| ma_user := EmptyString; ma_domain := EmptyString |};
              evp_id := 0; evp_flags := 0 |} in
  let s := {| s_id := uid;
              iobuf := {| ib_in := EmptyString; ib_out := [] |};
              io := {| io_mode := IO_WRITE; io_ssl := None |};
              listener := l; ss := ss0; hostname := EmptyString; flags := 0;
              phase := PHASE_INIT; state := S_NEW;
              auth := {| auth_id := 0; auth_user := EmptyString;
                         auth_pass := EmptyString; auth_success := 0 |};
              evp := e; cmd := EmptyString; kickcount := 0; mailcount := 0;
              rcptcount := 0; destcount := 0; ofile := None; datalen := 0;
              s_dstatus := 0 |} in
  match host with
  | Some h =>
      let s :=
        if strcmp h "localhost" =? 0
        then set_evp (set_evp_flags (Z.lor (evp_flags (evp s)) (DF_BOUNCE H)) (evp s)) s
        else s in
      let s := set_hostnames h s in
      settle p (heap P) (run (smtp_enter_state S_CONNECTED) p s (glob P))
  | None =>
      settle p (heap P)
        (run (imsg_compose_event (Q_DNS_PTR ss0 uid);;
              tree_xset wait_lka_ptr uid) p s (glob P))
  end.

End Session.

(** ** A platform to run the code on

    Sample values for what smtpd.h leaves open, with the C library's
    decoder, used where a statement is evaluated on concrete input.  The
    theorems about the session code hold for every [smtpd_h]. *)

Module Sample.

Definition ldh (c : ascii) : bool :=
  let n := code (tolower c) in
  ((97 <=? n) && (n <=? 122)) || ((48 <=? n) && (n <=? 57)) || (n =? 45) || (n =? 46).

Fixpoint all_ldh (s : string) : bool :=
  match s with
  | EmptyString => true
  | String c r => ldh c && all_ldh r
  end.

Definition ldh_domain (s : string) : bool :=
  negb (String.eqb s EmptyString) && all_ldh s.

(** Splits at the last [@]; an empty address is the null return path. *)
Definition split_mailaddr (m : mailaddr) (buf : string) : Z * mailaddr * string :=
  match buf with
  | EmptyString => (1, {| ma_user := EmptyString; ma_domain := EmptyString |}, buf)
  | _ =>
      match strrchr buf "@" with
      | Some i => (1, {| ma_user := take i buf; ma_domain := drop (S i) buf |}, take i buf)
      | None =>
          if strcasecmp buf "postmaster" =? 0
          then (1, {| ma_user := buf; ma_domain := "localhost" |}, buf)
          else (0, m, buf)
      end
  end.

Definition h : smtpd_h := {|
  DS_PERMFAILURE := 0x1;
  DS_TEMPFAILURE := 0x2;
  F_SMTPS := 0x02;
  F_STARTTLS := 0x01;
  F_STARTTLS_REQUIRE := 0x08;
  F_AUTH := 0x04;
  F_AUTH_REQUIRE := 0x10;
  DF_BOUNCE := 0x04;
  MFA_OK := 0;
  HOOK_DATALINE := 0x40;
  sizeof_hostname := 256;
  sizeof_auth_user := 32;
  sizeof_auth_pass := 2049;
  sizeof_mfa_buffer := 2049;
  sizeof_evp_helo := 256;
  SMTPD_BANNER := fun host => ("220 " ++ host ++ " ESMTP OpenSMTPD")%string;
  valid_domainpart := ldh_domain;
  email_to_mailaddr := split_mailaddr;
  b64_pton := B64.pton;
  ss_to_text := fun ss => ss;
  time_to_text := fun t => Fmt.d t;
  evpid_to_msgid := fun evpid => Z.shiftr evpid 32;
|}.

Definition env : smtpd :=
  {| sc_hostname := "mx.example"; sc_maxsize := 1000000; filtermask := 0 |}.

(** A plain listener, and one that offers STARTTLS and AUTH. *)
Definition plain : listener_t :=
  {| l_flags := 0; l_tag := "in";
     l_ssl_ctx := {| ssl_version := "TLSv1"; ssl_cipher := "AES256-SHA"; ssl_bits := 256 |} |}.

Definition secure : listener_t :=
  {| l_flags := Z.lor 0x01 0x04; l_tag := "in"; l_ssl_ctx := l_ssl_ctx plain |}.

Definition boot : proc :=
  {| heap := ∅;
     glob := {| wait := fun _ => ∅; sent := []; stats := ∅; spool := []; now := 0 |} |}.

(** What happens to the process, one event at a time. *)
Inductive event :=
| Accept (p : ptr) (uid : Z) (l : listener_t) (ss : sockaddr_storage) (host : option string)
| Imsg (m : imsg)
| Io (evt : io_event) (p : ptr)
| Recv (bytes : string) (p : ptr).

Definition fire (e : event) (P : proc) : presult :=
  match e with
  | Accept p uid l ss host => smtp_session_init h p uid l ss host P
  | Imsg m => smtp_session_imsg h env m P
  | Io evt p => smtp_io_event h env evt p P
  | Recv bytes p => Running (io_receive bytes p P)
  end.

Fixpoint play (es : list event) (P : proc) : presult :=
  match es with
  | [] => Running P
  | e :: es' =>
      match fire e P with
      | Running P' => play es' P'
      | Crashed msg => Crashed msg
      end
  end.

(** The same under another configuration. *)
Definition fire_in (e : smtpd) (ev : event) (P : proc) : presult :=
  match ev with
  | Accept p uid l ss host => smtp_session_init h p uid l ss host P
  | Imsg m => smtp_session_imsg h e m P
  | Io evt p => smtp_io_event h e evt p P
  | Recv bytes p => Running (io_receive bytes p P)
  end.

(** Modelled from the spec: which I/O events the I/O object of a session
    can raise ([io.c] is not among the sources).  By sections 4.1 and 5 a
    line is read and handed over only while the read side is armed, and
    [IO_LOWAT] is raised when the queued replies have drained; a session
    armed for writing with nothing to drain gets no I/O event at all until
    the reply of a collaborator resumes it, and a timeout, a disconnect or
    an error is raised only while one of the two sides is at work.
    [drained] is the number of replies that have left the output queue. *)
Definition deliverable (evt : io_event) (s : smtp_session) (drained : nat) : bool :=
  let reading := match io_mode (io s) with IO_READ => true | IO_WRITE => false end in
  let draining :=
    match io_mode (io s) with
    | IO_WRITE => (drained <? length (ib_out (iobuf s)))%nat
    | IO_READ => false
    end in
  match evt with
  | IO_DATAIN => reading && negb (strlen (ib_in (iobuf s)) =? 0)
  | IO_LOWAT => draining
  | IO_TLSREADY => match io_ssl (io s) with Some _ => true | None => false end
  | IO_TIMEOUT | IO_DISCONNECTED | IO_ERROR => reading || draining
  | IO_OTHER _ => false
  end.

(** Whether the event can happen in [P], with [drained] the replies
    drained so far, session by session. *)
Definition possible (ev : event) (P : proc) (drained : gmap ptr nat) : bool :=
  match ev with
  | Accept p _ _ _ _ => bool_decide (heap P !! p = None)
  | Imsg _ => true
  | Io evt p =>
      match heap P !! p with
      | Some s => deliverable evt s (default O (drained !! p))
      | None => false
      end
  | Recv _ p =>
      match heap P !! p with
      | Some s => match io_mode (io s) with IO_READ => true | IO_WRITE => false end
      | None => false
      end
  end.

Definition drained_after (ev : event) (P : proc) (drained : gmap ptr nat) : gmap ptr nat :=
  match ev with
  | Accept p _ _ _ _ => delete p drained
  | Io IO_LOWAT p =>
      match heap P !! p with
      | Some s => <[p := length (ib_out (iobuf s))]> drained
      | None => drained
      end
  | _ => drained
  end.

(** [play] under the configuration [e], for events that can happen only:
    [None] when one of them cannot. *)
Fixpoint drive (e : smtpd) (es : list event) (P : proc) (drained : gmap ptr nat)
  : option presult :=
  match es with
  | [] => Some (Running P)
  | ev :: es' =>
      if possible ev P drained then
        match fire_in e ev P with
        | Running P' => drive e es' P' (drained_after ev P drained)
        | Crashed msg => Some (Crashed msg)
        end
      else None
  end.

Definition driven (e : smtpd) (es : list event) : presult :=
  match drive e es boot ∅ with
  | Some r => r
  | None => Crashed "an event that cannot happen"
  end.

(** The client sends a line and the session handles it. *)
Definition line (l : string) (p : ptr) : list event :=
  [Recv (l ++ CRLF) p; Io IO_DATAIN p].

Definition mfa (reqid status code : Z) : mfa_resp_msg :=
  {| mfa_reqid := reqid; mfa_status := status; mfa_code := code;
     mfa_u_mailaddr := {| ma_user := "a"; ma_domain := "b" |};
     mfa_u_buffer := EmptyString |}.

Definition queue (reqid success evpid : Z) : queue_resp_msg :=
  {| q_reqid := reqid; q_success := success; q_evpid := evpid |}.

Definition blank : FILE := {| f_data := EmptyString; f_room := 1000000; f_err := false |}.

(** Session 1 (id 7) on listener [l], up to the end of the greeting. *)
Definition greeted (l : listener_t) : list event :=
  [Accept 1 7 l "192.0.2.1" (Some "client.example");
   Imsg (IMSG_MFA_CONNECT (mfa 7 0 250)); Io IO_LOWAT 1].

(** ... then EHLO, accepted by the filter. *)
Definition helloed (l : listener_t) : list event :=
  greeted l ++ line "EHLO mx.example." 1
  ++ [Imsg (IMSG_MFA_HELO (mfa 7 0 250)); Io IO_LOWAT 1].

(** ... then MAIL FROM, accepted by the filter and the queue. *)
Definition mailed (l : listener_t) (mail : string) : list event :=
  helloed l ++ line mail 1
  ++ [Imsg (IMSG_MFA_MAIL (mfa 7 0 250));
      Imsg (IMSG_QUEUE_CREATE_MESSAGE (queue 7 1 (Z.shiftl 0xabc 32)));
      Io IO_LOWAT 1].

(** ... then one recipient, committed by the queue, and DATA. *)
Definition in_body (l : listener_t) (mail : string) : list event :=
  mailed l mail ++ line "RCPT TO:<c@d>" 1
  ++ [Imsg (IMSG_QUEUE_SUBMIT_ENVELOPE (queue 7 1 0));
      Imsg (IMSG_QUEUE_COMMIT_ENVELOPES (queue 7 1 0)); Io IO_LOWAT 1]
  ++ line "DATA" 1
  ++ [Imsg (IMSG_QUEUE_MESSAGE_FILE (queue 7 1 0)
              (Some {| fd_file := blank; fd_openable := true |}));
      Io IO_LOWAT 1].

(** Observations. *)
Definition session_at (p : ptr) (r : presult) : option smtp_session :=
  match r with
  | Running P => heap P !! p
  | Crashed _ => None
  end.

Definition replies (p : ptr) (r : presult) : list string :=
  match session_at p r with
  | Some s => ib_out (iobuf s)
  | None => []
  end.

Definition globals_of (r : presult) : option globals :=
  match r with
  | Running P => Some (glob P)
  | Crashed _ => None
  end.

End Sample.

(** ** Auxiliary definitions for the statements *)

(** The peer of session [s] sends [l] as one line. *)
Definition client_sends (l : string) (s : smtp_session) : smtp_session :=
  set_iobuf {| ib_in := ib_in (iobuf s) ++ l ++ CRLF; ib_out := ib_out (iobuf s) |} s.

(** [n] times: the peer sends [NOOP], the session handles the line, the
    reply drains. *)
Fixpoint noops (H : smtpd_h) (env : smtpd) (n : nat) (p : ptr) (s : smtp_session)
    (g : globals) : outcome :=
  match n with
  | O => Live s g
  | S n' =>
      match smtp_io H env IO_DATAIN p (client_sends "NOOP" s) g with
      | Live s1 g1 =>
          match smtp_io H env IO_LOWAT p s1 g1 with
          | Live s2 g2 => noops H env n' p s2 g2
          | o => o
          end
      | o => o
      end
  end.

(** Dot-unstuffing as the specification words it: a leading [.] is
    stripped if and only if it is not the only character. *)
Definition dot_unstuff (l : string) : string :=
  match l with
  | String "." (String c r) => String c r
  | _ => l
  end.

(** High-bit masking as the specification words it: each byte has its
    high bit cleared. *)
Definition clear_high_bit (c : ascii) : ascii :=
  match c with
  | Ascii b0 b1 b2 b3 b4 b5 b6 _ => Ascii b0 b1 b2 b3 b4 b5 b6 false
  end.


(** The session after a refusal that ends it: [reply] is queued, the state
    is [S_QUIT], and the I/O turns to writing. *)
Definition refused (reply : string) (s : smtp_session) : smtp_session :=
  io_set_write (set_state S_QUIT (set_iobuf (iobuf_xfqueue reply (iobuf s)) s)).

(** The guard at the head of each [case] of [smtp_command]: whether
    command [c] is refused in phase [ph], and the reply it then gets. *)
Definition out_of_phase (c : cmd_code) (ph : phase_t) : bool :=
  match c with
  | CMD_HELO | CMD_EHLO => negb (bool_decide (ph = PHASE_INIT))
  | CMD_STARTTLS | CMD_AUTH | CMD_MAIL_FROM => negb (bool_decide (ph = PHASE_SETUP))
  | CMD_RCPT_TO | CMD_RSET | CMD_DATA => negb (bool_decide (ph = PHASE_TRANSACTION))
  | CMD_QUIT | CMD_HELP | CMD_NOOP => false
  end.

Definition out_of_phase_reply (c : cmd_code) : string :=
  match c with
  | CMD_HELO | CMD_EHLO => "XXX Already indentified"
  | _ => "XXX Command not allowed at this point."
  end.

(** The session once a recipient has been counted and [reply] queued. *)
Definition recipient_counted (reply : string) (s : smtp_session) : smtp_session :=
  set_iobuf (iobuf_xfqueue reply (iobuf s))
    (set_kickcount (wrap (kickcount s - 1)) (set_rcptcount (wrap (rcptcount s + 1)) s)).



(** What a piece of session code may leave alone: the session's id and
    [kickcount], and [F_KICK] when it is not set. *)
Definition same_kick (s s' : smtp_session) : Prop :=
  s_id s' = s_id s /\ kickcount s' = kickcount s
  /\ (has (flags s) F_KICK = false -> has (flags s') F_KICK = false).

(** [steady m]: every run of [m] that returns is of that kind. *)
Definition steady {A} (m : M A) : Prop :=
  forall p s g a s' g', m p s g = Ok a s' g' -> same_kick s s'.

(** Traces and states used in the examples below. *)
Module Cases.
Import Sample.

(** The last reply queued for the session at [p]. *)
Definition last_reply (p : ptr) (r : presult) : string :=
  List.last (replies p r) EmptyString.

Definition waiting (t : wait_kind) (k : Z) (r : presult) : option ptr :=
  match r with
  | Running P => wait (glob P) t !! k
  | Crashed _ => None
  end.

(** A client connects and the resolver has not answered yet. *)
Definition connecting : list event := [Accept 1 7 plain "192.0.2.1" None].

(** [RCPT TO] has been sent to the filter. *)
Definition rcpt_asked : list event :=
  mailed plain "MAIL FROM:<a@b>" ++ line "RCPT TO:<c@d>" 1.

(** The client sends the final dot and goes on in the same segment. *)
Definition dot_then_quit : list event :=
  in_body plain "MAIL FROM:<a@b>"
  ++ [Recv ("Hi" ++ CRLF ++ "." ++ CRLF ++ "QUIT" ++ CRLF) 1; Io IO_DATAIN 1].

(** A session on the listener that offers STARTTLS and AUTH: TLS is
    started, one message is sent, and the session is back in [S_HELO]. *)
Definition secured : list event :=
  helloed secure ++ line "STARTTLS" 1
  ++ [Io IO_LOWAT 1; Io IO_TLSREADY 1]
  ++ line "MAIL FROM:<a@b>" 1
  ++ [Imsg (IMSG_MFA_MAIL (mfa 7 0 250));
      Imsg (IMSG_QUEUE_CREATE_MESSAGE (queue 7 1 (Z.shiftl 0xabc 32)));
      Io IO_LOWAT 1]
  ++ line "RCPT TO:<c@d>" 1
  ++ [Imsg (IMSG_QUEUE_COMMIT_ENVELOPES (queue 7 1 0)); Io IO_LOWAT 1]
  ++ line "DATA" 1
  ++ [Imsg (IMSG_QUEUE_MESSAGE_FILE (queue 7 1 0)
              (Some {| fd_file := blank; fd_openable := true |}));
      Io IO_LOWAT 1;
      Recv ("Hi" ++ CRLF ++ "." ++ CRLF) 1; Io IO_DATAIN 1;
      Imsg (IMSG_QUEUE_COMMIT_MESSAGE (queue 7 1 0)); Io IO_LOWAT 1].

(** A session that has just been greeted: state [S_HELO], phase INIT. *)
Definition idle : smtp_session :=
  {| s_id := 7;
     iobuf := {| ib_in := EmptyString;
                 ib_out := [("220 mx.example ESMTP OpenSMTPD" ++ CRLF)%string] |};
     io := {| io_mode := IO_READ; io_ssl := None |};
     listener := plain; ss := "192.0.2.1"; hostname := "client.example";
     flags := 0; phase := PHASE_INIT; state := S_HELO;
     auth := {| auth_id := 0; auth_user := EmptyString; auth_pass := EmptyString;
                auth_success := 0 |};
     evp := {| evp_tag := "in"; evp_session_id := 7; evp_ss := "192.0.2.1";
               evp_hostname := "client.example"; evp_helo := EmptyString;
               evp_sender := {| ma_user := EmptyString; ma_domain := EmptyString |};
               evp_rcpt := {| ma_user := EmptyString; ma_domain := EmptyString |};
               evp_id := 0; evp_flags := 0 |};
     cmd := EmptyString; kickcount := 0; mailcount := 0; rcptcount := 0;
     destcount := 0; ofile := None; datalen := 0; s_dstatus := 0 |}.

(** The same session in the middle of a message body. *)
Definition receiving : smtp_session :=
  set_ofile (Some blank)
    (set_state S_BODY
       (set_phase PHASE_TRANSACTION
          (set_flags (Z.lor F_EHLO (Z.lor F_8BITMIME F_MFA_MESSAGE_END)) idle))).

Definition g0 : globals := glob boot.

(** [receiving] with bytes of the next command already in the buffer. *)
Definition receiving_more : smtp_session :=
  set_iobuf {| ib_in := ("QUIT" ++ CRLF)%string; ib_out := [] |} receiving.

(** [receiving] after a write to the spool has failed. *)
Definition receiving_failed : smtp_session := set_s_dstatus 0x2 receiving.

(** [receiving] when the client has not announced 8-bit content. *)
Definition receiving_7bit : smtp_session :=
  set_flags (Z.lor F_EHLO F_MFA_MESSAGE_END) receiving.

(** A line that begins with a dot and has a byte above 127. *)
Definition stuffed_8bit_line : string := String "." (String (chr 233) "x").

(** A configuration that allows very small messages only. *)
Definition tight : smtpd :=
  {| sc_hostname := "mx.example"; sc_maxsize := 2; filtermask := 0 |}.

(** The body of a message on a spool with room for the [Received] header
    (123 bytes here) and four bytes more: the line [Hello] does not fit. *)
Definition short_spool : FILE := {| f_data := EmptyString; f_room := 127; f_err := false |}.

Definition body_on_short_spool : list event :=
  mailed plain "MAIL FROM:<a@b>" ++ line "RCPT TO:<c@d>" 1
  ++ [Imsg (IMSG_QUEUE_SUBMIT_ENVELOPE (queue 7 1 0));
      Imsg (IMSG_QUEUE_COMMIT_ENVELOPES (queue 7 1 0)); Io IO_LOWAT 1]
  ++ line "DATA" 1
  ++ [Imsg (IMSG_QUEUE_MESSAGE_FILE (queue 7 1 0)
              (Some {| fd_file := short_spool; fd_openable := true |}));
      Io IO_LOWAT 1]
  ++ line "Hello" 1.

(** A configuration in which the filter takes the data lines. *)
Definition filtering : smtpd :=
  {| sc_hostname := "mx.example"; sc_maxsize := 1000000; filtermask := HOOK_DATALINE h |}.

(** The filter replays the data line [buf]. *)
Definition replayed (buf : string) : imsg :=
  IMSG_MFA_DATALINE
    {| mfa_reqid := 7; mfa_status := 0; mfa_code := 250;
       mfa_u_mailaddr := {| ma_user := "a"; ma_domain := "b" |};
       mfa_u_buffer := buf |}.

(** With the filter in the data path: a first message, [Hi] and the final
    dot, replayed by the filter and committed by the queue ... *)
Definition first_message : list event :=
  in_body plain "MAIL FROM:<a@b>"
  ++ [Recv ("Hi" ++ CRLF ++ "." ++ CRLF) 1; Io IO_DATAIN 1;
      Imsg (replayed "Hi"); Imsg (replayed ".");
      Imsg (IMSG_QUEUE_COMMIT_MESSAGE (queue 7 1 0)); Io IO_LOWAT 1].

(** ... then a second message up to its first line, which the filter
    replays, and the filter's final dot while the client is still
    sending. *)
Definition second_body : list event :=
  first_message
  ++ line "MAIL FROM:<a@b>" 1
  ++ [Imsg (IMSG_MFA_MAIL (mfa 7 0 250));
      Imsg (IMSG_QUEUE_CREATE_MESSAGE (queue 7 1 (Z.shiftl 0xabd 32)));
      Io IO_LOWAT 1]
  ++ line "RCPT TO:<c@d>" 1
  ++ [Imsg (IMSG_QUEUE_SUBMIT_ENVELOPE (queue 7 1 0));
      Imsg (IMSG_QUEUE_COMMIT_ENVELOPES (queue 7 1 0)); Io IO_LOWAT 1]
  ++ line "DATA" 1
  ++ [Imsg (IMSG_QUEUE_MESSAGE_FILE (queue 7 1 0)
              (Some {| fd_file := blank; fd_openable := true |}));
      Io IO_LOWAT 1]
  ++ line "Hi" 1
  ++ [Imsg (replayed "Hi"); Imsg (replayed ".")].

(** Whether the session at [p] is armed for reading. *)
Definition reading_at (p : ptr) (r : presult) : option bool :=
  option_map (fun s => match io_mode (io s) with IO_READ => true | IO_WRITE => false end)
    (session_at p r).

(** [n] times: the client sends [NOOP] and the reply drains. *)
Definition noop_rounds (n : nat) : list event :=
  concat (repeat (line "NOOP" 1 ++ [Io IO_LOWAT 1]) n).

(** After MAIL FROM, forty-seven NOOPs and a recipient that the queue
    commits. *)
Definition rcpt_after_noops : list event :=
  mailed plain "MAIL FROM:<a@b>" ++ noop_rounds 47 ++ line "RCPT TO:<c@d>" 1
  ++ [Imsg (IMSG_QUEUE_SUBMIT_ENVELOPE (queue 7 1 0));
      Imsg (IMSG_QUEUE_COMMIT_ENVELOPES (queue 7 1 0)); Io IO_LOWAT 1].

(** The lone dot arrives in one segment with the next command. *)
Definition dot_then_noop : list event :=
  in_body plain "MAIL FROM:<a@b>"
  ++ [Recv ("." ++ CRLF ++ "NOOP" ++ CRLF) 1; Io IO_DATAIN 1].

(** What the spool file of the session at [p] holds. *)
Definition spooled_at (p : ptr) (r : presult) : option string :=
  match session_at p r with
  | Some s => option_map f_data (ofile s)
  | None => None
  end.

(** The process and the session once [RCPT TO] has been sent to the
    filter. *)
Definition rcpt_proc : proc :=
  match play rcpt_asked boot with
  | Running P => P
  | Crashed _ => boot
  end.

Definition rcpt_session : smtp_session := default idle (heap rcpt_proc !! 1).

(** The process and the session in the middle of a message body. *)
Definition body_proc : proc :=
  match play (in_body plain "MAIL FROM:<a@b>") boot with
  | Running P => P
  | Crashed _ => boot
  end.

Definition body_session : smtp_session := default idle (heap body_proc !! 1).

(** Whether each event of [es] can happen when its turn comes. *)
Definition can_happen (e : smtpd) (es : list event) : bool :=
  match drive e es boot ∅ with
  | Some _ => true
  | None => false
  end.


End Cases.

(** ** Footprints of session code

    What a handler may do to its session and to the process-wide state.
    [P id m] says which requests a session with id [id] may compose, [S st]
    which states it may enter, and [F x x'] how it may change the flag
    word. *)

(** A queued reply: at least 4 and fewer than [SMTP_LINE_MAX] characters,
    then CRLF. *)
Definition reply_line (x : string) : Prop :=
  exists buf, x = (buf ++ CRLF)%string /\ 4 <= strlen buf < SMTP_LINE_MAX.

Definition tidy_session (S : smtp_state -> Prop) (F : Z -> Z -> Prop)
    (s s' : smtp_session) : Prop :=
  s_id s' = s_id s
  /\ listener s' = listener s
  /\ (state s' = state s \/ S (state s'))
  /\ F (flags s) (flags s')
  /\ ib_in (iobuf s') = ib_in (iobuf s)
  /\ (exists r, ib_out (iobuf s') = ib_out (iobuf s) ++ r /\ Forall reply_line r)
  /\ (io_mode (io s') = IO_WRITE \/ io s' = io s).

Definition tidy_globals (P : Z -> imsg_out -> Prop) (id : Z) (g g' : globals) : Prop :=
  (forall t k, k <> id -> wait g' t !! k = wait g t !! k)
  /\ (exists l, sent g' = sent g ++ l /\ Forall (P id) l).

Definition tidy (P : Z -> imsg_out -> Prop) (S : smtp_state -> Prop)
    (F : Z -> Z -> Prop) (s : smtp_session) (g : globals)
    (s' : smtp_session) (g' : globals) : Prop :=
  tidy_session S F s s' /\ tidy_globals P (s_id s) g g'.

(** [kept P S F id m]: every run of [m] on a session with id [id] that
    returns stays within the footprint. *)
Definition kept (P : Z -> imsg_out -> Prop) (S : smtp_state -> Prop)
    (F : Z -> Z -> Prop) (id : Z) {A} (m : M A) : Prop :=
  forall p s g a s' g', s_id s = id -> m p s g = Ok a s' g' -> tidy P S F s g s' g'.

(** A request carries the id of the session that composes it; the removal
    of a message names the message only. *)
Definition from_session (id : Z) (m : imsg_out) : Prop :=
  match m with
  | Q_DNS_PTR _ k => k = id
  | Q_MFA_CONNECT k _ | Q_MFA_HELO k _ | Q_MFA_MAIL k _ | Q_MFA_RCPT k _
  | Q_MFA_RSET k _ | Q_MFA_DATALINE k _ => k = id
  | Q_QUEUE_CREATE_MESSAGE k _ | Q_QUEUE_MESSAGE_FILE k _
  | Q_QUEUE_COMMIT_MESSAGE k _ => k = id
  | Q_QUEUE_REMOVE_MESSAGE _ => True
  | Q_PARENT_AUTHENTICATE a => auth_id a = id
  end.

(** The requests that are the session [s]'s own: those that carry its
    id, and the removal of the message it holds, if it holds one. *)
Definition own_request (H : smtpd_h) (s : smtp_session) (m : imsg_out) : Prop :=
  match m with
  | Q_QUEUE_REMOVE_MESSAGE msgid =>
      evp_id (evp s) <> 0 /\ msgid = evpid_to_msgid H (evp_id (evp s))
  | _ => from_session (s_id s) m
  end.

(** The session [s'] holds the message that [s] holds, or none. *)
Definition same_msg (s s' : smtp_session) : Prop :=
  evp_id (evp s') = evp_id (evp s) \/ evp_id (evp s') = 0.

(** [calm m]: no run of [m] that returns has given the session another
    message. *)
Definition calm {A} (m : M A) : Prop :=
  forall p s g a s' g', m p s g = Ok a s' g' -> same_msg s s'.

(** The footprint of a whole event: as [tidy_session], except that input
    may have been consumed from the front of the buffer and the I/O
    direction may have changed. *)
Definition loose_session (S : smtp_state -> Prop) (F : Z -> Z -> Prop)
    (s s' : smtp_session) : Prop :=
  s_id s' = s_id s
  /\ listener s' = listener s
  /\ (state s' = state s \/ S (state s'))
  /\ F (flags s) (flags s')
  /\ (exists pre, ib_in (iobuf s) = (pre ++ ib_in (iobuf s'))%string)
  /\ (exists r, ib_out (iobuf s') = ib_out (iobuf s) ++ r /\ Forall reply_line r).

Definition tidy_event (P : Z -> imsg_out -> Prop) (S : smtp_state -> Prop)
    (F : Z -> Z -> Prop) (s : smtp_session) (g : globals) (o : outcome) : Prop :=
  match o with
  | Live s' g' => loose_session S F s s' /\ tidy_globals P (s_id s) g g'
  | Freed _ g' => tidy_globals P (s_id s) g g'
  | Aborted _ => True
  end.

(** The key under which the reply [m] is looked up. *)
Definition imsg_key (m : imsg) : Z :=
  match m with
  | IMSG_DNS_PTR dns => dns_id dns
  | IMSG_MFA_CONNECT r | IMSG_MFA_HELO r | IMSG_MFA_MAIL r | IMSG_MFA_RCPT r
  | IMSG_MFA_DATALINE r => mfa_reqid r
  | IMSG_QUEUE_CREATE_MESSAGE q | IMSG_QUEUE_MESSAGE_FILE q _
  | IMSG_QUEUE_SUBMIT_ENVELOPE q | IMSG_QUEUE_COMMIT_ENVELOPES q
  | IMSG_QUEUE_COMMIT_MESSAGE q => q_reqid q
  | IMSG_PARENT_AUTHENTICATE a => auth_id a
  | IMSG_OTHER _ => 0
  end.

(** The footprint of a reply on the process: the sessions that are live
    afterwards were live before and have stayed within their footprint, and
    unless nothing has changed, one session has been resumed: the others
    are as they were, and the trees and the requests sent have changed only
    as that session may change them, apart from the entry under [key]. *)
Definition tidy_proc (P : Z -> imsg_out -> Prop) (S : smtp_state -> Prop)
    (F : Z -> Z -> Prop) (key : Z) (P0 P' : proc) : Prop :=
  (forall q s', heap P' !! q = Some s' ->
     exists s0, heap P0 !! q = Some s0 /\ loose_session S F s0 s')
  /\ (P' = P0
      \/ exists p s,
           heap P0 !! p = Some s
           /\ (forall q, q <> p -> heap P' !! q = heap P0 !! q)
           /\ (forall t k, k <> key -> k <> s_id s ->
                 wait (glob P') t !! k = wait (glob P0) t !! k)
           /\ exists l, sent (glob P') = sent (glob P0) ++ l /\ Forall (P (s_id s)) l).

(** The two flags on which policy decisions rest are the same in both flag
    words. *)
Definition same_trust (x x' : Z) : Prop :=
  has x' F_SECURE = has x F_SECURE /\ has x' F_AUTHENTICATED = has x F_AUTHENTICATED.

(** The states of a SASL exchange in progress. *)
Definition sasl (st : smtp_state) : bool :=
  match st with
  | S_AUTH_INIT | S_AUTH_USERNAME | S_AUTH_PASSWORD => true
  | _ => false
  end.

(** A session to which [AUTH] is not on offer and which is not in a SASL
    exchange. *)
Definition auth_closed (H : smtpd_h) (s : smtp_session) : Prop :=
  ADVERTISE_AUTH H s = false /\ sasl (state s) = false.

(** A session from which the listener's policy takes no sender yet: TLS
    is required and not on, or authentication is required and not done. *)
Definition sender_barred (H : smtpd_h) (s : smtp_session) : Prop :=
  has (l_flags (listener s)) (F_STARTTLS_REQUIRE H) && negb (has (flags s) F_SECURE)
  || has (l_flags (listener s)) (F_AUTH_REQUIRE H) && negb (has (flags s) F_AUTHENTICATED)
  = true.

(** The delivery status records a failure. *)
Definition ds_failed (H : smtpd_h) (d : Z) : bool :=
  has d (Z.lor (DS_PERMFAILURE H) (DS_TEMPFAILURE H)).

(** Requests other than credentials for the parent. *)
Definition no_credentials (m : imsg_out) : Prop :=
  match m with
  | Q_PARENT_AUTHENTICATE _ => False
  | _ => True
  end.

(** Requests other than a sender for the filter. *)
Definition no_sender (m : imsg_out) : Prop :=
  match m with
  | Q_MFA_MAIL _ _ => False
  | _ => True
  end.

(** Every character of [s] has its high bit clear. *)
Fixpoint seven_bit (s : string) : bool :=
  match s with
  | EmptyString => true
  | String c r => (code c <? 128) && seven_bit r
  end.

(** The bytes of the lines [ls] as the peer sends them, each ended by
    CRLF. *)
Fixpoint wire (ls : list string) : string :=
  match ls with
  | [] => EmptyString
  | l :: ls' => l ++ CRLF ++ wire ls'
  end.

(** What the body line [line] adds to the spool when it is stored, under
    the flag word [fl]; and the same for a list of lines. *)
Definition spooled (fl : Z) (line : string) : string :=
  (if has fl F_8BITMIME then dot_unstuff (cstr line)
   else CStr.map mask7 (dot_unstuff (cstr line))) ++ NL.

Fixpoint spooled_all (fl : Z) (ls : list string) : string :=
  match ls with
  | [] => EmptyString
  | l :: ls' => spooled fl l ++ spooled_all fl ls'
  end.

(** The tree in which the reply [m] looks for its session. *)
Definition imsg_tree (m : imsg) : option wait_kind :=
  match m with
  | IMSG_DNS_PTR _ => Some wait_lka_ptr
  | IMSG_MFA_CONNECT _ => Some wait_mfa_connect
  | IMSG_MFA_HELO _ => Some wait_mfa_helo
  | IMSG_MFA_MAIL _ => Some wait_mfa_mailfrom
  | IMSG_MFA_RCPT _ => Some wait_mfa_rcpt
  | IMSG_MFA_DATALINE _ => Some wait_mfa_data
  | IMSG_QUEUE_CREATE_MESSAGE _ => Some wait_queue_msg
  | IMSG_QUEUE_MESSAGE_FILE _ _ => Some wait_queue_fd
  | IMSG_QUEUE_SUBMIT_ENVELOPE _ => Some wait_mfa_rcpt
  | IMSG_QUEUE_COMMIT_ENVELOPES _ => Some wait_mfa_rcpt
  | IMSG_QUEUE_COMMIT_MESSAGE _ => Some wait_queue_commit
  | IMSG_PARENT_AUTHENTICATE _ => Some wait_parent_auth
  | IMSG_OTHER _ => None
  end.

(** The replies that take their session out of the tree ([tree_xpop],
    [tree_pop]); the others look it up and leave it there. *)
Definition imsg_pops (m : imsg) : bool :=
  match m with
  | IMSG_MFA_DATALINE r => strcmp (mfa_u_buffer r) "." =? 0
  | IMSG_QUEUE_SUBMIT_ENVELOPE _ | IMSG_OTHER _ => false
  | _ => true
  end.

(** [spares t m]: no run of [m] that returns has changed the tree [t]. *)
Definition spares (t : wait_kind) {A} (m : M A) : Prop :=
  forall p s g a s' g', m p s g = Ok a s' g' -> wait g' t = wait g t.

(** Scenes used in the examples of the further properties. *)
Module Scenes.
Import Sample Cases.

Definition running (r : presult) : proc :=
  match r with
  | Running P => P
  | Crashed _ => boot
  end.

Definition live_session (o : outcome) : smtp_session :=
  match o with
  | Live s _ => s
  | _ => idle
  end.

Definition live_globals (o : outcome) : globals :=
  match o with
  | Live _ g => g
  | Freed _ g => g
  | Aborted _ => g0
  end.

(** [idle] once HELO has been accepted. *)
Definition ready : smtp_session := set_phase PHASE_SETUP idle.

(** The peer of [ready] sends NOOP. *)
Definition noop_sent : outcome :=
  smtp_io h env IO_DATAIN 1 (client_sends "NOOP" ready) g0.

(** The queue has committed the envelopes of the recipient of
    [rcpt_proc]. *)
Definition rcpt_committed : imsg := IMSG_QUEUE_COMMIT_ENVELOPES (queue 7 1 0).

Definition rcpt_done : proc := running (smtp_session_imsg h env rcpt_committed rcpt_proc).

(** After [secured], the peer sends credentials ([AHVzZXIAcGFzcw==] is the
    Base64 form of NUL [user] NUL [pass]), and the parent accepts them. *)
Definition auth_asked : proc :=
  running (play (secured ++ line "AUTH PLAIN AHVzZXIAcGFzcw==" 1) boot).

Definition verdict : imsg :=
  IMSG_PARENT_AUTHENTICATE
    {| auth_id := 7; auth_user := "user"; auth_pass := EmptyString; auth_success := 1 |}.

Definition auth_done : proc := running (smtp_session_imsg h env verdict auth_asked).

(** The peer of [ready], on the plain listener, sends credentials all the
    same. *)
Definition auth_unoffered : smtp_session :=
  client_sends "AUTH PLAIN AHVzZXIAcGFzcw==" ready.

(** A reply of the filter that no session waits for. *)
Definition stray : imsg := IMSG_MFA_HELO (mfa 9 0 250).

(** A listener that requires STARTTLS, and a session on it after EHLO. *)
Definition strict : listener_t :=
  {| l_flags := Z.lor 0x01 0x08; l_tag := "in"; l_ssl_ctx := l_ssl_ctx plain |}.

Definition strict_session : smtp_session :=
  default idle (heap (running (play (helloed strict) boot)) !! 1).

(** The peer of [strict_session] sends a sender before STARTTLS. *)
Definition mail_early : smtp_session := client_sends "MAIL FROM:<a@b>" strict_session.

(** [receiving] without [F_8BITMIME]. *)
Definition seven : smtp_session := set_flags F_MFA_MESSAGE_END receiving.

(** A line with a byte above 127. *)
Definition eight_bit_line : string := String (chr 233) "te".

(** The peer of [receiving] sends two lines and the final dot. *)
Definition body_lines : list string := ["Hi"%string; "..x"%string].

Definition body_sent : smtp_session :=
  set_iobuf {| ib_in := wire (body_lines ++ ["."%string]); ib_out := [] |} receiving.

Definition body_done : outcome := smtp_io h env IO_DATAIN 1 body_sent g0.

(** A whole message has been sent, and the queue commits it or not. *)
Definition commit_asked : proc :=
  running (play (in_body plain "MAIL FROM:<a@b>"
                 ++ [Recv ("Hi" ++ CRLF ++ "." ++ CRLF) 1; Io IO_DATAIN 1]) boot).

Definition commit_done (success : Z) : proc :=
  running (smtp_session_imsg h env (IMSG_QUEUE_COMMIT_MESSAGE (queue 7 success 0))
             commit_asked).

(** The resolver's answer for the session of [connecting]. *)
Definition resolved : dns_t :=
  {| dns_id := 7; dns_error := 0; dns_host := "client.example" |}.

(** On the listener [secure], STARTTLS has been answered and the reply
    has drained. *)
Definition tls_starting : smtp_session :=
  default idle
    (heap (running (play (helloed secure ++ line "STARTTLS" 1 ++ [Io IO_LOWAT 1]) boot))
       !! 1).

Definition tls_started : outcome := smtp_io h env IO_TLSREADY 1 tls_starting g0.

End Scenes.

(** * Properties *)

(** ** Strings *)

Section Strings.

Implicit Types (s r pre : string) (c : ascii).

Lemma length_app s r : String.length (s ++ r) = (String.length s + String.length r)%nat.
Proof. induction s as [|a s IH]; simpl; [reflexivity | now rewrite IH]. Qed.

Lemma take_app s r : take (String.length s) (s ++ r) = s.
Proof. induction s as [|a s IH]; simpl; [now destruct r | now rewrite IH]. Qed.

Lemma drop_app s c r : drop (S (String.length s)) (s ++ String c r) = r.
Proof. induction s as [|a s IH]; simpl; [reflexivity | exact IH]. Qed.

Lemma drop_app0 s r : drop (String.length s) (s ++ r) = r.
Proof. induction s as [|a s IH]; simpl; [now destruct r | exact IH]. Qed.

Lemma length_take_le n s : (String.length (take n s) <= n)%nat.
Proof.
  revert s; induction n as [|n IH]; intros [|a s]; simpl; try lia.
  specialize (IH s); lia.
Qed.

Lemma strrchr_lt s c i : strrchr s c = Some i -> (i < String.length s)%nat.
Proof.
  revert i; induction s as [|a s IH]; simpl; intros i; [discriminate|].
  destruct (strrchr s c) as [j|].
  - intros [= <-]. specialize (IH j eq_refl). lia.
  - destruct (Ascii.eqb a c); [intros [= <-]; lia | discriminate].
Qed.

Lemma strrchr_app s c r :
  strrchr r c = None -> strrchr (s ++ String c r) c = Some (String.length s).
Proof.
  intros Hr. induction s as [|a s IH]; simpl.
  - now rewrite Hr, Ascii.eqb_refl.
  - now rewrite IH.
Qed.

Lemma strchr_lt s c i : strchr s c = Some i -> (i < String.length s)%nat.
Proof.
  revert i; induction s as [|a s IH]; simpl; intros i; [discriminate|].
  destruct (Ascii.eqb a c); [intros [= <-]; lia|].
  destruct (strchr s c) as [j|]; [|discriminate].
  intros [= <-]. specialize (IH j eq_refl). lia.
Qed.


Lemma strchr_app_none s c r :
  strchr s c = None -> strchr r c = None -> strchr (s ++ r) c = None.
Proof.
  intros Hs Hr. induction s as [|a s IH]; simpl in *; [exact Hr|].
  destruct (Ascii.eqb a c); [discriminate|].
  destruct (strchr s c); [discriminate|]. now rewrite IH.
Qed.

(** A string without NUL reads as itself. *)
Lemma cstr_id s : strchr s NUL = None -> cstr s = s.
Proof.
  induction s as [|a s IH]; simpl; [reflexivity|].
  destruct (Ascii.eqb a NUL); [discriminate|].
  destruct (strchr s NUL); [discriminate|]. intros _. now rewrite IH.
Qed.

Lemma cstr_app s r : strchr s NUL = None -> cstr (s ++ String NUL r) = s.
Proof.
  induction s as [|a s IH]; simpl; [reflexivity|].
  destruct (Ascii.eqb a NUL); [discriminate|].
  destruct (strchr s NUL); [discriminate|]. intros _. now rewrite IH.
Qed.

Lemma strchr_cstr s : strchr (cstr s) NUL = None.
Proof.
  induction s as [|a s IH]; simpl; [reflexivity|].
  destruct (Ascii.eqb a NUL) eqn:E; simpl; [reflexivity|]. now rewrite E, IH.
Qed.

Lemma length_cstr_le s : (String.length (cstr s) <= String.length s)%nat.
Proof.
  induction s as [|a s IH]; simpl; [lia|].
  destruct (Ascii.eqb a NUL); simpl; lia.
Qed.

Lemma strcmp_eq a b : strchr a NUL = None -> strchr b NUL = None ->
  strcmp a b = 0 <-> a = b.
Proof.
  revert b; induction a as [|x a IH]; intros [|y b]; simpl.
  - tauto.
  - destruct (Ascii.eqb y NUL) eqn:E; [discriminate|]. intros _ _.
    split; [|discriminate]. intros Hc. exfalso.
    assert (code y = 0) as Hy by lia.
    apply Ascii.eqb_neq in E. apply E. unfold code in Hy.
    apply (f_equal Z.to_N) in Hy. rewrite N2Z.id in Hy. simpl in Hy.
    rewrite <- (ascii_N_embedding y), Hy. reflexivity.
  - destruct (Ascii.eqb x NUL) eqn:E; [discriminate|]. intros _ _.
    split; [|discriminate]. intros Hc. exfalso.
    apply Ascii.eqb_neq in E. apply E. unfold code in Hc.
    apply (f_equal Z.to_N) in Hc. rewrite N2Z.id in Hc. simpl in Hc.
    rewrite <- (ascii_N_embedding x), Hc. reflexivity.
  - destruct (Ascii.eqb x NUL) eqn:Ex; [discriminate|].
    destruct (Ascii.eqb y NUL) eqn:Ey; [discriminate|].
    destruct (strchr a NUL) eqn:Ha; [discriminate|].
    destruct (strchr b NUL) eqn:Hb; [discriminate|]. intros _ _.
    destruct (Ascii.eqb x y) eqn:Exy.
    + apply Ascii.eqb_eq in Exy; subst y. rewrite (IH b eq_refl Hb).
      split; congruence.
    + apply Ascii.eqb_neq in Exy. split; [|congruence]. intros Hc. exfalso.
      apply Exy. assert (code x = code y) as Hxy by lia. unfold code in Hxy.
      apply N2Z.inj in Hxy.
      rewrite <- (ascii_N_embedding x), <- (ascii_N_embedding y), Hxy. reflexivity.
Qed.

End Strings.

(** ** printf conversions stay short *)

Lemma digits_length base fuel n acc :
  (String.length acc < String.length (Fmt.digits base fuel n acc)
     <= fuel + String.length acc)%nat \/ fuel = O.
Proof.
  revert n acc; induction fuel as [|fuel IH]; intros n acc; [now right|left].
  simpl. destruct (n / base =? 0); simpl; [lia|].
  destruct (IH (n / base) (String (Fmt.digit (n mod base)) acc)) as [IH'|Hf];
    [simpl in IH'; lia | subst fuel; simpl; lia].
Qed.

Lemma d_length n : (1 <= String.length (Fmt.d n) <= 11)%nat.
Proof.
  unfold Fmt.d. destruct (n <? 0); simpl.
  - destruct (digits_length 10 10 (- n) EmptyString) as [Hl|?]; [simpl in Hl; lia|lia].
  - destruct (digits_length 10 10 n EmptyString) as [Hl|?]; [simpl in Hl; lia|lia].
Qed.

(** ** smtp_parse_mail_args *)

(** The loop does not depend on its fuel once there is enough of it. *)
Lemma smtp_parse_mail_args_fuel fuel fuel' args p s g :
  (String.length args < fuel)%nat -> (String.length args < fuel')%nat ->
  smtp_parse_mail_args_loop fuel args p s g
  = smtp_parse_mail_args_loop fuel' args p s g.
Proof.
  revert fuel' args s g.
  induction fuel as [|fuel IH]; intros fuel' args s g Hf Hf'; [lia|].
  destruct fuel' as [|fuel']; [lia|]. cbn [smtp_parse_mail_args_loop].
  destruct (strrchr args " ") as [i|] eqn:Hi; [|reflexivity].
  apply strrchr_lt in Hi. pose proof (length_take_le i args) as Hl.
  destruct (strncasecmp _ _ _ =? 0); [apply IH; lia|].
  destruct (strcasecmp _ "BODY=7BIT" =? 0).
  { unfold bind, modify. apply IH; lia. }
  destruct (strcasecmp _ "BODY=8BITMIME" =? 0); cbn [negb]; [reflexivity|].
  apply IH; lia.
Qed.

(** One round of the loop on [pre ++ " " ++ tok]. *)
Lemma smtp_parse_mail_args_round pre tok p s g :
  strrchr tok " " = None ->
  smtp_parse_mail_args (pre ++ String " " tok) p s g
  = if strncasecmp tok "AUTH=" 5 =? 0 then smtp_parse_mail_args pre p s g
    else if strcasecmp tok "BODY=7BIT" =? 0 then
      smtp_parse_mail_args pre p
        (set_flags (Z.land (flags s) (Z.lnot F_8BITMIME)) s) g
    else if negb (strcasecmp tok "BODY=8BITMIME" =? 0) then
      smtp_parse_mail_args pre p s g
    else (smtp_reply ("503 5.5.4 Unsupported option " ++ tok);; ret (-1)) p s g.
Proof.
  intros Htok. unfold smtp_parse_mail_args at 1.
  cbn [smtp_parse_mail_args_loop].
  rewrite (strrchr_app pre " " tok Htok), drop_app, take_app.
  assert (String.length pre < String.length (pre ++ String " " tok))%nat as Hlt
    by (rewrite length_app; simpl; lia).
  destruct (strncasecmp _ _ _ =? 0).
  { apply smtp_parse_mail_args_fuel; lia. }
  destruct (strcasecmp _ "BODY=7BIT" =? 0).
  { unfold bind, modify. apply smtp_parse_mail_args_fuel; lia. }
  destruct (strcasecmp _ "BODY=8BITMIME" =? 0); cbn [negb]; [reflexivity|].
  apply smtp_parse_mail_args_fuel; lia.
Qed.

(** C1.  On [MAIL FROM] parameters, [smtp_parse_mail_args] does the
    opposite of what the specification says for the last two cases: the
    token [BODY=8BITMIME] is answered with [503 5.5.4 Unsupported option
    BODY=8BITMIME] and ends the command with -1, whereas a token it does
    not know, such as [FOO=BAR], is skipped without reply and the loop goes
    on with what precedes it. *)
Theorem smtp_parse_mail_args_8bitmime_rejected pre p s g :
  smtp_parse_mail_args (pre ++ " BODY=8BITMIME") p s g
  = Ok (-1)
       (set_iobuf
          (iobuf_xfqueue "503 5.5.4 Unsupported option BODY=8BITMIME" (iobuf s)) s)
       g
  /\ smtp_parse_mail_args (pre ++ " FOO=BAR") p s g
     = smtp_parse_mail_args pre p s g.
Proof.
  split.
  - now rewrite (smtp_parse_mail_args_round pre "BODY=8BITMIME").
  - now rewrite (smtp_parse_mail_args_round pre "FOO=BAR").
Qed.

(** The first two cases of the loop are as the specification has them: a
    token that begins with [AUTH=] is skipped, and [BODY=7BIT] clears
    [F_8BITMIME]. *)
Lemma smtp_parse_mail_args_auth_and_7bit pre x p s g :
  strrchr x " " = None ->
  smtp_parse_mail_args (pre ++ " AUTH=" ++ x) p s g = smtp_parse_mail_args pre p s g
  /\ smtp_parse_mail_args (pre ++ " BODY=7BIT") p s g
     = smtp_parse_mail_args pre p
         (set_flags (Z.land (flags s) (Z.lnot F_8BITMIME)) s) g.
Proof.
  intros Hx. split.
  - change (pre ++ " AUTH=" ++ x)%string
      with (pre ++ String " " ("AUTH=" ++ x))%string.
    rewrite smtp_parse_mail_args_round.
    + replace (strncasecmp ("AUTH=" ++ x) "AUTH=" 5) with 0 by reflexivity.
      reflexivity.
    + change (strrchr (String "A" (String "U" (String "T" (String "H" (String "=" x)))))
                " " = None).
      cbn [strrchr]. now rewrite Hx.
  - now rewrite (smtp_parse_mail_args_round pre "BODY=7BIT").
Qed.

(** ** Flag arithmetic *)

Lemma has_lor x a b : has x (Z.lor a b) = has x a || has x b.
Proof.
  unfold has. rewrite Z.land_lor_distr_r.
  destruct (Z.land x a =? 0) eqn:Ea, (Z.land x b =? 0) eqn:Eb; simpl;
    rewrite ?negb_true_iff, ?negb_false_iff; try apply Z.eqb_eq; try apply Z.eqb_neq;
    rewrite ?Z.eqb_eq, ?Z.eqb_neq in *; rewrite Z.lor_eq_0_iff; tauto.
Qed.

Lemma has_land_mask x m k : has x k = false -> has (Z.land x m) k = false.
Proof.
  unfold has. rewrite !negb_false_iff, !Z.eqb_eq. intros Hx.
  rewrite <- Z.land_assoc, (Z.land_comm m k), Z.land_assoc, Hx. apply Z.land_0_l.
Qed.

Lemma has_lor_other x a k : Z.land a k = 0 -> has (Z.lor x a) k = has x k.
Proof.
  intros Ha. unfold has. now rewrite Z.land_lor_distr_l, Ha, Z.lor_0_r.
Qed.

Lemma has_lor_same x k : k <> 0 -> 0 <= k -> has (Z.lor x k) k = true.
Proof.
  intros Hk Hk0. unfold has. rewrite Z.land_lor_distr_l, Z.land_diag.
  rewrite negb_true_iff, Z.eqb_neq, Z.lor_eq_0_iff. tauto.
Qed.

(** ** What session code leaves alone *)

Lemma same_kick_refl s : same_kick s s.
Proof. unfold same_kick; tauto. Qed.

Lemma same_kick_trans s1 s2 s3 : same_kick s1 s2 -> same_kick s2 s3 -> same_kick s1 s3.
Proof. unfold same_kick. intros (?&?&?) (?&?&?). repeat split; try congruence; tauto. Qed.

Lemma steady_ret {A} (a : A) : steady (ret a).
Proof. intros p s g a' s' g' [= _ <- _]. apply same_kick_refl. Qed.

Lemma steady_bind {A B} (m : M A) (k : A -> M B) :
  steady m -> (forall a, steady (k a)) -> steady (bind m k).
Proof.
  intros Hm Hk p s g b s' g'. unfold bind.
  destruct (m p s g) as [a s1 g1|] eqn:E; [|discriminate].
  intros Hb. eapply same_kick_trans; [eapply Hm, E | eapply Hk, Hb].
Qed.

Lemma steady_get : steady get.
Proof. intros p s g a s' g' [= _ <- _]. apply same_kick_refl. Qed.

Lemma steady_getg : steady getg.
Proof. intros p s g a s' g' [= _ <- _]. apply same_kick_refl. Qed.

Lemma steady_fatalx {A} msg : steady (@fatalx A msg).
Proof. intros p s g a s' g'; discriminate. Qed.

Lemma steady_modify f : (forall s, same_kick s (f s)) -> steady (modify f).
Proof. intros Hf p s g a s' g' [= _ <- _]. apply Hf. Qed.

Lemma steady_modifyg f : steady (modifyg f).
Proof. intros p s g a s' g' [= _ <- _]. apply same_kick_refl. Qed.

Lemma steady_tree_xset t k : steady (tree_xset t k).
Proof.
  intros p s g a s' g'. unfold tree_xset.
  destruct (wait g t !! k); [discriminate|]. intros [= _ <- _]. apply same_kick_refl.
Qed.

Lemma steady_smtp_reply buf : steady (smtp_reply buf).
Proof.
  unfold smtp_reply. destruct (_ <=? _); [apply steady_fatalx|].
  destruct (_ <? _); [apply steady_fatalx|].
  apply steady_modify. intros s. unfold same_kick; cbn; tauto.
Qed.

Create HintDb steady discriminated.

#[local] Hint Resolve steady_ret steady_get steady_getg steady_fatalx steady_modifyg
  steady_tree_xset steady_smtp_reply same_kick_refl : steady.

(** Splits a computation along its binds and branches. *)
Ltac steady_step :=
  match goal with
  | |- steady (bind _ _) => apply steady_bind; [|intros ?]
  | |- steady (if ?b then _ else _) => destruct b
  | |- steady (match ?x with _ => _ end) => destruct x
  | |- steady (let '(_, _) := ?x in _) => destruct x
  | |- steady (modify _) =>
      apply steady_modify; intros ?; try (unfold same_kick; cbn; tauto)
  | |- steady _ => solve [auto with steady]
  end.

Ltac steady_tac := repeat steady_step.

Lemma steady_imsg_compose_event m : steady (imsg_compose_event m).
Proof. apply steady_modifyg. Qed.

Lemma steady_stat_increment k n : steady (stat_increment k n).
Proof. apply steady_modifyg. Qed.

Lemma steady_io_reload : steady io_reload.
Proof. apply steady_ret. Qed.

#[local] Hint Resolve steady_imsg_compose_event steady_stat_increment steady_io_reload
  : steady.

Lemma steady_smtp_enter_state st : steady (smtp_enter_state st).
Proof. unfold smtp_enter_state. steady_tac; apply same_kick_refl. Qed.

#[local] Hint Resolve steady_smtp_enter_state : steady.

Lemma steady_smtp_parse_mail_args_loop fuel args :
  steady (smtp_parse_mail_args_loop fuel args).
Proof.
  revert args; induction fuel as [|fuel IH]; intros args;
    cbn [smtp_parse_mail_args_loop]; [auto with steady|].
  steady_tac; auto.
  unfold same_kick; cbn. repeat split; auto using has_land_mask.
Qed.

Lemma steady_smtp_authenticate : steady smtp_authenticate.
Proof. unfold smtp_authenticate. steady_tac; unfold same_kick; cbn; tauto. Qed.

Lemma steady_smtp_auth_abort : steady smtp_auth_abort.
Proof. unfold smtp_auth_abort. steady_tac. Qed.

#[local] Hint Resolve steady_smtp_parse_mail_args_loop steady_smtp_authenticate
  steady_smtp_auth_abort : steady.

Section Steady.

Context (H : smtpd_h) (env : smtpd).

Lemma steady_smtp_auth_plain_decode arg : steady (smtp_auth_plain_decode H arg).
Proof. unfold smtp_auth_plain_decode. steady_tac; unfold same_kick; cbn; tauto. Qed.

Lemma steady_smtp_rfc4954_auth_plain arg : steady (smtp_rfc4954_auth_plain H arg).
Proof.
  unfold smtp_rfc4954_auth_plain.
  steady_tac; auto using steady_smtp_auth_plain_decode.
Qed.

Lemma steady_smtp_rfc4954_auth_login arg : steady (smtp_rfc4954_auth_login H arg).
Proof. unfold smtp_rfc4954_auth_login. steady_tac; unfold same_kick; cbn; tauto. Qed.

Lemma same_kick_set_helo c args s : same_kick s (set_helo H c args s).
Proof.
  unfold same_kick, set_helo. destruct c; cbn; repeat split; intros Hk;
    rewrite ?has_lor_other by reflexivity; now apply has_land_mask.
Qed.

Lemma steady_smtp_dispatch c args : steady (smtp_dispatch H c args).
Proof.
  unfold smtp_dispatch, cmd_helo, cmd_starttls, cmd_auth, cmd_mail_from, cmd_rcpt_to,
    cmd_rset, cmd_data, cmd_help, smtp_parse_mail_args.
  destruct c as [[]|]; steady_tac;
    auto using same_kick_set_helo, steady_smtp_rfc4954_auth_plain,
      steady_smtp_rfc4954_auth_login;
    unfold same_kick; cbn; tauto.
Qed.

End Steady.

(** ** The kick counter *)

Section Kick.

Context (H : smtpd_h) (env : smtpd).

Lemma smtp_command_kick line p s g :
  SMTP_KICKTHRESHOLD <= wrap (kickcount s + 1) ->
  smtp_command H line p s g
  = Ok tt (set_flags (Z.lor (flags s) F_KICK) (set_kickcount (wrap (kickcount s + 1)) s))
       (stat_add "smtp.kick" 1 g).
Proof.
  intros Hk. unfold smtp_command, bind, modify, get. cbn [kickcount set_kickcount].
  apply Z.leb_le in Hk. now rewrite Hk.
Qed.

Lemma smtp_command_steady line p s g s' g' :
  wrap (kickcount s + 1) < SMTP_KICKTHRESHOLD ->
  smtp_command H line p s g = Ok tt s' g' ->
  same_kick (set_kickcount (wrap (kickcount s + 1)) s) s'.
Proof.
  intros Hk. unfold smtp_command, bind at 1 2, modify at 1, get at 1.
  cbn [kickcount set_kickcount].
  apply Z.leb_gt in Hk. rewrite Hk.
  set (s1 := set_kickcount _ s).
  assert (forall m : M unit, steady m -> m p s1 g = Ok tt s' g' -> same_kick s1 s')
    as Hrun by (intros m Hm E; exact (Hm _ _ _ _ _ _ E)).
  destruct (state s1); try (apply Hrun;
    first [ apply steady_smtp_rfc4954_auth_plain
          | apply steady_smtp_rfc4954_auth_login
          | destruct (smtp_split line) as [verb args]; apply steady_bind;
            [ apply steady_modify; intros ?; unfold same_kick; cbn; tauto
            | intros ?; apply steady_smtp_dispatch ] ]).
Qed.

Lemma smtp_command_noop p s g :
  state s = S_HELO -> wrap (kickcount s + 1) < SMTP_KICKTHRESHOLD ->
  smtp_command H "NOOP" p s g
  = Ok tt (set_iobuf (iobuf_xfqueue "250 2.0.0 Ok" (iobuf s))
             (set_cmd "NOOP" (set_kickcount (wrap (kickcount s + 1)) s))) g.
Proof.
  intros Hst Hk. unfold smtp_command, bind, modify, get. cbn [kickcount set_kickcount].
  apply Z.leb_gt in Hk. rewrite Hk. cbn [state set_kickcount]. rewrite Hst.
  reflexivity.
Qed.

End Kick.

(** Field projections through the setters. *)
Ltac proj :=
  cbn [s_id iobuf io listener ss hostname flags phase state auth evp cmd kickcount
       mailcount rcptcount destcount ofile datalen s_dstatus
       set_iobuf set_io set_hostname set_flags set_phase set_state set_auth set_evp
       set_cmd set_kickcount set_mailcount set_rcptcount set_destcount set_ofile
       set_datalen set_s_dstatus io_set_read io_set_write io_start_tls
       ib_in ib_out iobuf_xfqueue iobuf_normalize io_mode io_ssl fst snd] in *.

Section Noop.
Context (H : smtpd_h) (env : smtpd).

Lemma wrap_small z : 0 <= z < 2 ^ 64 -> wrap z = z.
Proof. intros Hz. unfold wrap. now apply Z.mod_small. Qed.

(** [smtp_io] on a buffer that holds exactly one command line. *)
Lemma smtp_io_datain_command p s g line len ib :
  iobuf_getline (iobuf s) = Some (line, len, ib) ->
  ib_in ib = EmptyString -> len < SMTP_LINE_MAX -> state s <> S_BODY ->
  smtp_io_datain H env p s g
  = let s0 := io_set_write (set_iobuf (iobuf_normalize ib)
                 (set_cmd (fst (strlcpy (cstr line) SMTP_LINE_MAX)) (set_iobuf ib s))) in
    match smtp_command H (cmd s0) p s0 g with
    | Ok _ s' g' =>
        if has (flags s') F_KICK then smtp_free H s' "kick" g' else Live s' g'
    | Fatal msg => Aborted msg
    end.
Proof.
  intros Hget Hin Hlen Hst.
  assert (smtp_io_nextline H env p s g
          = Done (let s0 := io_set_write (set_iobuf (iobuf_normalize ib)
                     (set_cmd (fst (strlcpy (cstr line) SMTP_LINE_MAX)) (set_iobuf ib s))) in
                  match smtp_command H (cmd s0) p s0 g with
                  | Ok _ s' g' =>
                      if has (flags s') F_KICK then smtp_free H s' "kick" g' else Live s' g'
                  | Fatal msg => Aborted msg
                  end)) as Hstep.
  { unfold smtp_io_nextline. rewrite Hget.
    apply Z.ltb_lt in Hlen. rewrite Z.leb_antisym, Hlen. cbn [negb].
    unfold smtp_io_line. proj.
    rewrite (bool_decide_eq_false_2 _ Hst). cbn [andb].
    unfold iobuf_len. rewrite Hin. cbn [strlen String.length Z.of_nat Z.eqb negb].
    destruct (smtp_command _ _ _ _ _) as [[] s' g'|]; [|reflexivity].
    now destruct (has _ _). }
  unfold smtp_io_datain.
  destruct (String.length _); cbn [smtp_io_datain_loop]; now rewrite Hstep.
Qed.

(** One round of [noops] below the threshold. *)
Lemma noops_round p s g :
  state s = S_HELO -> ib_in (iobuf s) = EmptyString ->
  has (flags s) F_KICK = false ->
  wrap (kickcount s + 1) < SMTP_KICKTHRESHOLD ->
  exists s2,
    (forall n, noops H env (S n) p s g = noops H env n p s2 g)
    /\ state s2 = S_HELO /\ ib_in (iobuf s2) = EmptyString
    /\ flags s2 = flags s
    /\ kickcount s2 = wrap (kickcount s + 1)
    /\ ib_out (iobuf s2) = ib_out (iobuf s) ++ [("250 2.0.0 Ok" ++ CRLF)%string].
Proof.
  intros Hst Hin Hfl Hk.
  eexists. split; [intros n|].
  - cbn [noops].
    rewrite (smtp_io_datain_command p (client_sends "NOOP" s) g "NOOP" 4
               {| ib_in := EmptyString; ib_out := ib_out (iobuf s) |}) at 1.
    + cbn zeta. unfold client_sends. proj.
      change (fst (strlcpy (cstr "NOOP") SMTP_LINE_MAX)) with "NOOP".
      rewrite smtp_command_noop by (proj; auto). proj. rewrite Hfl.
      unfold smtp_io. proj. rewrite Hst. reflexivity.
    + unfold client_sends. proj. rewrite Hin. reflexivity.
    + reflexivity.
    + reflexivity.
    + unfold client_sends. proj. congruence.
  - proj. auto.
Qed.
End Noop.
(** The progress events put the counter back to zero: the filter's
    approval of HELO/EHLO, the parent's approval of AUTH, the queue's commit
    of a message, and the end of the TLS handshake. *)
Lemma progress_resets_kickcount (H : smtpd_h) (env : smtpd) p s g s' g' :
  (forall r, mfa_status r = MFA_OK H ->
     on_mfa_helo H env r p s g = Ok tt s' g' -> kickcount s' = 0)
  /\ (forall a, auth_success a <> 0 ->
        on_parent_authenticate a p s g = Ok tt s' g' -> kickcount s' = 0)
  /\ (forall q, q_success q <> 0 ->
        on_queue_commit_message H q p s g = Ok tt s' g' -> kickcount s' = 0)
  /\ (smtp_io_tlsready H env p s g = Ok tt s' g' -> kickcount s' = 0).
Proof.
  assert (forall buf p0 s0 g0 s1 g1,
            smtp_reply buf p0 s0 g0 = Ok tt s1 g1 -> kickcount s1 = kickcount s0)
    as Hlast.
  { intros buf p0 s0 g0 s1 g1. unfold smtp_reply.
    destruct (_ <=? _); [discriminate|]. destruct (_ <? _); [discriminate|].
    unfold modify. intros [= <- _]. reflexivity. }
  split; [|split; [|split]].
  - intros r Hok. unfold on_mfa_helo. rewrite Hok, Z.eqb_refl. cbn [negb].
    unfold bind at 1, get at 1. unfold bind at 1.
    destruct (smtp_reply _ p s g) as [[] s1 g1|]; [|discriminate].
    unfold bind at 1.
    match goal with
    | |- match ?m p s1 g1 with _ => _ end = _ -> _ =>
        destruct (m p s1 g1) as [[] s2 g2|]; [|discriminate]
    end.
    unfold bind, modify, io_reload, ret. intros [= <- _]. reflexivity.
  - intros a Hok. unfold on_parent_authenticate.
    apply Z.eqb_neq in Hok. rewrite Hok. cbn [negb].
    unfold bind at 1, bind at 1, modify at 1, bind at 1, modify at 1.
    destruct (smtp_reply _ p _ g) as [[] s1 g1|] eqn:E; [|discriminate].
    apply Hlast in E. unfold io_reload, ret. intros [= <- _]. exact E.
  - intros q Hok. unfold on_queue_commit_message.
    apply Z.eqb_neq in Hok. rewrite Hok.
    unfold bind at 1, get at 1, bind at 1.
    destruct (smtp_reply _ p s g) as [[] s1 g1|]; [|discriminate].
    unfold bind, modify, smtp_enter_state, io_reload, ret.
    intros [= <- _]. reflexivity.
  - unfold smtp_io_tlsready, bind at 1 2 3, modify at 1 2, get at 1.
    cbn [listener set_kickcount set_flags].
    destruct (has _ _).
    + unfold bind at 1, stat_increment, modifyg at 1, bind at 1.
      destruct (smtp_reply _ p _ _) as [[] s1 g1|] eqn:E; [|discriminate].
      apply Hlast in E. unfold modify. intros [= <- _]. exact E.
    + unfold stat_increment, modifyg. intros [= <- _]. reflexivity.
Qed.

(** An accepted recipient takes one off the counter, whether the filter
    accepts it ([IMSG_MFA_RCPT]) or the queue commits its envelopes
    ([IMSG_QUEUE_COMMIT_ENVELOPES]); nothing is put back to zero. *)
Lemma rcpt_decrements_kickcount (H : smtpd_h) p s g s' g' :
  (forall r, mfa_status r = MFA_OK H ->
     on_mfa_rcpt H r p s g = Ok tt s' g' -> kickcount s' = wrap (kickcount s - 1))
  /\ (forall q, on_queue_commit_envelopes q p s g = Ok tt s' g' ->
        kickcount s' = wrap (kickcount s - 1)).
Proof.
  assert (forall buf p0 s0 g0 s1 g1,
            smtp_reply buf p0 s0 g0 = Ok tt s1 g1 -> kickcount s1 = kickcount s0)
    as Hlast.
  { intros buf p0 s0 g0 s1 g1. unfold smtp_reply.
    destruct (_ <=? _); [discriminate|]. destruct (_ <? _); [discriminate|].
    unfold modify. intros [= <- _]. reflexivity. }
  split.
  - intros r Hok. unfold on_mfa_rcpt. rewrite Hok, Z.eqb_refl. cbn [negb].
    unfold bind at 1, get at 1. unfold bind at 1 2 3, modify at 1 2.
    destruct (smtp_reply _ p _ g) as [[] s1 g1|] eqn:E; [|discriminate].
    apply Hlast in E. unfold io_reload, ret. intros [= <- _]. exact E.
  - intros q. unfold on_queue_commit_envelopes.
    unfold bind at 1 2 3, modify at 1 2.
    destruct (smtp_reply _ p _ g) as [[] s1 g1|] eqn:E; [|discriminate].
    apply Hlast in E. unfold io_reload, ret. intros [= <- _]. exact E.
Qed.

Section Threshold.
Context (H : smtpd_h) (env : smtpd).

Lemma stat_add_same k n g :
  stats (stat_add k n g) !! k = Some (default 0 (stats g !! k) + n).
Proof. unfold stat_add. cbn. apply lookup_insert_eq. Qed.

Lemma stat_add_other k k' n g : k <> k' -> stats (stat_add k n g) !! k' = stats g !! k'.
Proof. intros Hk. unfold stat_add. cbn. now apply lookup_insert_ne. Qed.

Lemma stat_add_wait k n g : wait (stat_add k n g) = wait g.
Proof. reflexivity. Qed.

(** [smtp_free] touches the statistics of TLS sessions only. *)
Lemma smtp_free_kick_stat s reason g :
  exists g', smtp_free H s reason g = Freed reason g'
             /\ stats g' !! "smtp.kick" = stats g !! "smtp.kick".
Proof.
  unfold smtp_free. eexists; split; [reflexivity|].
  destruct (_ && has _ (F_STARTTLS H)), (_ && has _ (F_SMTPS H)), (ofile s),
    (evp_id (evp s) =? 0);
    rewrite ?stat_add_other by discriminate; reflexivity.
Qed.

Lemma noops_below p n : forall s g,
  state s = S_HELO -> ib_in (iobuf s) = EmptyString ->
  has (flags s) F_KICK = false ->
  0 <= kickcount s -> kickcount s + Z.of_nat n < SMTP_KICKTHRESHOLD ->
  exists sn,
    noops H env n p s g = Live sn g
    /\ state sn = S_HELO /\ ib_in (iobuf sn) = EmptyString
    /\ flags sn = flags s
    /\ kickcount sn = kickcount s + Z.of_nat n
    /\ ib_out (iobuf sn)
       = ib_out (iobuf s) ++ repeat ("250 2.0.0 Ok" ++ CRLF)%string n.
Proof.
  induction n as [|n IH]; intros s g Hst Hin Hfl Hk0 Hk.
  - exists s. cbn [noops repeat Z.of_nat]. rewrite app_nil_r, Z.add_0_r.
    repeat split; auto.
  - unfold SMTP_KICKTHRESHOLD in *.
    assert (wrap (kickcount s + 1) = kickcount s + 1) as Hw
      by (apply wrap_small; lia).
    destruct (noops_round H env p s g Hst Hin Hfl) as (s2 & Hn & Hst2 & Hin2 & Hfl2 & Hk2 & Ho2).
    { rewrite Hw. unfold SMTP_KICKTHRESHOLD. lia. }
    rewrite Hw in Hk2.
    destruct (IH s2 g Hst2 Hin2) as (sn & Hsn & ? & ? & ? & Hkn & Hon);
      [congruence | lia | lia |].
    exists sn. rewrite Hn, Hsn. repeat split; auto; try congruence; try lia.
    rewrite Hon, Ho2, <- app_assoc. reflexivity.
Qed.

(** C8 as the code has it.  Every line handed to [smtp_command], a
    command or a SASL line alike, adds one to [kickcount]; [F_KICK] is
    raised by exactly the line whose increment brings the counter to
    [SMTP_KICKTHRESHOLD] (50), together with [smtp.kick], and [smtp_io] then
    frees the session with reason [kick]; fifty [NOOP]s in a row from a
    counter of zero end that way, the first forty-nine being answered
    [250 2.0.0 Ok].  The counter is put back to zero by the filter's
    approval of HELO/EHLO, the parent's approval of AUTH, the queue's
    commit of a message and the end of the TLS handshake.  An accepted
    recipient does not put it back to zero: it takes one off, which makes
    up for the increment of the [RCPT TO] line and no more. *)
Theorem kick_exactly_at_threshold line p s g :
  has (flags s) F_KICK = false ->
  (forall s' g', smtp_command H line p s g = Ok tt s' g' ->
     kickcount s' = wrap (kickcount s + 1)
     /\ (has (flags s') F_KICK = true <-> SMTP_KICKTHRESHOLD <= wrap (kickcount s + 1)))
  /\ (0 <= kickcount s < SMTP_KICKTHRESHOLD ->
      (SMTP_KICKTHRESHOLD <= wrap (kickcount s + 1)
       <-> kickcount s + 1 = SMTP_KICKTHRESHOLD))
  /\ (forall len ib,
        iobuf_getline (iobuf s) = Some (line, len, ib) ->
        ib_in ib = EmptyString -> len < SMTP_LINE_MAX -> state s <> S_BODY ->
        if SMTP_KICKTHRESHOLD <=? wrap (kickcount s + 1) then
          exists g', smtp_io H env IO_DATAIN p s g = Freed "kick" g'
                     /\ stats g' !! "smtp.kick"
                        = Some (default 0 (stats g !! "smtp.kick") + 1)
        else forall reason g', smtp_io H env IO_DATAIN p s g <> Freed reason g')
  /\ (state s = S_HELO -> ib_in (iobuf s) = EmptyString -> kickcount s = 0 ->
      (exists s49, noops H env 49 p s g = Live s49 g
                   /\ kickcount s49 = 49
                   /\ ib_out (iobuf s49)
                      = ib_out (iobuf s) ++ repeat ("250 2.0.0 Ok" ++ CRLF)%string 49)
      /\ exists g', noops H env 50 p s g = Freed "kick" g'
                    /\ stats g' !! "smtp.kick"
                       = Some (default 0 (stats g !! "smtp.kick") + 1))
  /\ (forall s' g',
        (forall r, mfa_status r = MFA_OK H ->
           on_mfa_helo H env r p s g = Ok tt s' g' -> kickcount s' = 0)
        /\ (forall a, auth_success a <> 0 ->
              on_parent_authenticate a p s g = Ok tt s' g' -> kickcount s' = 0)
        /\ (forall q, q_success q <> 0 ->
              on_queue_commit_message H q p s g = Ok tt s' g' -> kickcount s' = 0)
        /\ (smtp_io_tlsready H env p s g = Ok tt s' g' -> kickcount s' = 0)
        /\ (forall r, mfa_status r = MFA_OK H ->
              on_mfa_rcpt H r p s g = Ok tt s' g' ->
              kickcount s' = wrap (kickcount s - 1))
        /\ (forall q, on_queue_commit_envelopes q p s g = Ok tt s' g' ->
              kickcount s' = wrap (kickcount s - 1))).
Proof.
  intros Hfl. split; [|split; [|split; [|split]]];
    [ | | | |
      intros s' g';
      destruct (progress_resets_kickcount H env p s g s' g') as (P1 & P2 & P3 & P4);
      destruct (rcpt_decrements_kickcount H p s g s' g') as (R1 & R2);
      repeat split; assumption ].
  - intros s' g' Hrun.
    destruct (Z_lt_le_dec (wrap (kickcount s + 1)) SMTP_KICKTHRESHOLD) as [Hlt|Hge].
    + destruct (smtp_command_steady H line p s g s' g' Hlt Hrun) as (_ & Hk & Hf).
      split; [exact Hk|]. split; [|lia].
      intros Ht. rewrite (Hf Hfl) in Ht. discriminate.
    + rewrite (smtp_command_kick H line p s g Hge) in Hrun.
      injection Hrun as <- _. split; [reflexivity|]. split; [auto|]. intros _.
      cbn [flags set_flags]. apply has_lor_same; unfold F_KICK; lia.
  - unfold SMTP_KICKTHRESHOLD. intros Hk. rewrite wrap_small by lia. lia.
  - intros len ib Hget Hin Hlen Hst.
    change (smtp_io H env IO_DATAIN p s g) with (smtp_io_datain H env p s g).
    rewrite (smtp_io_datain_command H env p s g line len ib Hget Hin Hlen Hst).
    cbn zeta. set (s0 := io_set_write _).
    assert (kickcount s0 = kickcount s) as Hk0 by reflexivity.
    assert (has (flags s0) F_KICK = false) as Hfl0 by exact Hfl.
    destruct (SMTP_KICKTHRESHOLD <=? wrap (kickcount s + 1)) eqn:Hk.
    + apply Z.leb_le in Hk. rewrite <- Hk0 in Hk.
      rewrite (smtp_command_kick H _ p s0 g Hk).
      cbn [flags set_flags]. rewrite has_lor_same by (unfold F_KICK; lia).
      destruct (smtp_free_kick_stat (set_flags (Z.lor (flags s0) F_KICK)
                   (set_kickcount (wrap (kickcount s0 + 1)) s0)) "kick"
                  (stat_add "smtp.kick" 1 g)) as (g' & -> & Hs).
      exists g'. split; [reflexivity|]. now rewrite Hs, stat_add_same.
    + apply Z.leb_gt in Hk. rewrite <- Hk0 in Hk. intros reason g'.
      destruct (smtp_command H (cmd s0) p s0 g) as [[] s' g1|] eqn:E; [|discriminate].
      destruct (smtp_command_steady H _ p s0 g s' g1 Hk E) as (_ & _ & Hf).
      rewrite (Hf Hfl0). discriminate.
  - intros Hst Hin Hzero.
    destruct (noops_below p 49 s g Hst Hin Hfl) as (s49 & Hn & Hst9 & Hin9 & Hf & Hk & Ho);
      [lia | unfold SMTP_KICKTHRESHOLD; lia |].
    split.
    { exists s49. rewrite Hn, Hk, Ho, Hzero. auto. }
    change 50%nat with (49 + 1)%nat.
    assert (forall a b s g, noops H env (a + b) p s g
              = match noops H env a p s g with
                | Live s' g' => noops H env b p s' g'
                | o => o
                end) as Hsplit.
    { induction a as [|a IHa]; intros b s1 g1; [reflexivity|].
      cbn [noops Nat.add].
      destruct (smtp_io H env IO_DATAIN p _ g1); try reflexivity.
      destruct (smtp_io H env IO_LOWAT p _ _); try reflexivity. apply IHa. }
    rewrite Hsplit, Hn. cbn [noops].
    change (smtp_io H env IO_DATAIN) with (smtp_io_datain H env).
    rewrite (smtp_io_datain_command H env p (client_sends "NOOP" s49) g "NOOP" 4
               {| ib_in := EmptyString; ib_out := ib_out (iobuf s49) |});
      [ | unfold client_sends; cbn [iobuf set_iobuf ib_in ib_out]; now rewrite Hin9
        | reflexivity | reflexivity
        | unfold client_sends; cbn [state set_iobuf]; congruence ].
    cbn zeta. set (s0 := io_set_write _).
    assert (SMTP_KICKTHRESHOLD <= wrap (kickcount s0 + 1)) as Hge.
    { change (kickcount s0) with (kickcount s49). rewrite Hk, Hzero. now vm_compute. }
    rewrite (smtp_command_kick H _ p s0 g Hge).
    cbn [flags set_flags]. rewrite has_lor_same by (unfold F_KICK; lia).
    destruct (smtp_free_kick_stat (set_flags (Z.lor (flags s0) F_KICK)
                 (set_kickcount (wrap (kickcount s0 + 1)) s0)) "kick"
                (stat_add "smtp.kick" 1 g)) as (g' & -> & Hs).
    exists g'. split; [reflexivity|]. now rewrite Hs, stat_add_same.
Qed.

End Threshold.

(** ** The framer *)

Lemma strchr_split s c i :
  strchr s c = Some i ->
  s = (take i s ++ String c (drop (S i) s))%string /\ strchr (take i s) c = None.
Proof.
  revert i; induction s as [|a s IH]; simpl; intros i; [discriminate|].
  destruct (Ascii.eqb a c) eqn:E.
  - intros [= <-]. apply Ascii.eqb_eq in E. subst a. simpl. auto.
  - destruct (strchr s c) as [j|]; [|discriminate]. intros [= <-].
    destruct (IH j eq_refl) as [Hs Hn]. split.
    + change (String a s = String a (take j s ++ String c (drop (S j) s))).
      now rewrite <- Hs.
    + cbn [take strchr]. now rewrite E, Hn.
Qed.

Lemma length_take n s : (n <= String.length s)%nat -> String.length (take n s) = n.
Proof.
  revert s; induction n as [|n IH]; intros [|a s]; simpl; intros Hn; try lia.
  rewrite IH; lia.
Qed.

Lemma take_S_drop n s :
  (n < String.length s)%nat ->
  take (S n) s = (take n s ++ String (head (drop n s)) EmptyString)%string.
Proof.
  revert s; induction n as [|n IH]; intros [|a s]; simpl String.length; intros Hn;
    try lia.
  - now destruct s.
  - change (String a (take (S n) s)
            = String a (take n s ++ String (head (drop n s)) EmptyString)).
    rewrite <- IH by lia. reflexivity.
Qed.

Lemma strchr_take_none n s c : strchr s c = None -> strchr (take n s) c = None.
Proof.
  revert s; induction n as [|n IH]; intros [|a s]; simpl; auto.
  destruct (Ascii.eqb a c); [discriminate|].
  destruct (strchr s c) eqn:E; [discriminate|]. intros _. now rewrite IH.
Qed.

Lemma take_take n m s : (n <= m)%nat -> take n (take m s) = take n s.
Proof.
  revert m s; induction n as [|n IH]; intros [|m] [|a s] Hn; try reflexivity; try lia.
  change (String a (take n (take m s)) = String a (take n s)).
  rewrite IH by lia. reflexivity.
Qed.

Lemma app_assoc_string (a b c : string) : ((a ++ b) ++ c = a ++ (b ++ c))%string.
Proof.
  induction a as [|x a IH]; [reflexivity|].
  change (String x ((a ++ b) ++ c) = String x (a ++ (b ++ c)))%string.
  now rewrite IH.
Qed.

(** What [iobuf_getline] returns: the bytes before the first LF, less a CR
    that ends them, with their number; the buffer keeps what follows the
    LF. *)
Lemma iobuf_getline_spec ib line len ib' :
  iobuf_getline ib = Some (line, len, ib') ->
  len = strlen line /\ strchr line LF = None /\ ib_out ib' = ib_out ib
  /\ (ib_in ib = (line ++ String LF (ib_in ib'))%string
      \/ ib_in ib = (line ++ String CR (String LF (ib_in ib')))%string).
Proof.
  unfold iobuf_getline. destruct (strchr (ib_in ib) LF) as [i|] eqn:Hi; [|discriminate].
  destruct (strchr_split _ _ _ Hi) as [Hs Hn]. pose proof (strchr_lt _ _ _ Hi) as Hlt.
  intros [= <- <- <-]. cbn [ib_in ib_out].
  destruct i as [|j].
  - unfold strlen. rewrite length_take by lia. repeat split; auto.
  - destruct (Ascii.eqb (head (drop j (ib_in ib))) CR) eqn:E.
    + apply Ascii.eqb_eq in E. unfold strlen. rewrite length_take by lia.
      split; [reflexivity|]. split; [|split; [reflexivity|right]].
      * rewrite <- (take_take j (S j)) by lia. now apply strchr_take_none.
      * rewrite Hs at 1. rewrite (take_S_drop j) by lia. rewrite E.
        apply app_assoc_string.
    + unfold strlen. rewrite length_take by lia. repeat split; auto.
Qed.

(** ** smtp_io, one line at a time *)

Section Lines.

Context (H : smtpd_h) (env : smtpd).

Lemma run_refuse reply p s g :
  4 <= strlen reply < SMTP_LINE_MAX ->
  run (bind (smtp_reply reply)
         (fun _ => bind (smtp_enter_state S_QUIT) (fun _ => modify io_set_write))) p s g
  = Live (refused reply s) g.
Proof.
  intros [Hlo Hhi]. unfold run, bind, smtp_reply.
  apply Z.ltb_lt in Hhi. rewrite Z.leb_antisym, Hhi. cbn [negb].
  assert ((strlen reply <? 4) = false) as -> by (apply Z.ltb_ge; lia).
  reflexivity.
Qed.


(** C3 as the code has it.  After a line has been taken off the buffer, in
    [S_BODY] the lone dot is treated like a command line: with bytes left
    in the buffer the session answers [500 5.0.0 Pipelining not supported]
    and goes to [S_QUIT], and only with an empty buffer does the end of the
    body proceed.  Bytes left after a body line that is not the lone dot
    are never refused. *)
Theorem pipelining_after_final_dot line p s g :
  (ib_in (iobuf s) <> EmptyString ->
     (state s = S_BODY -> strcmp (cstr line) "." = 0 ->
        smtp_io_line H env line p s g
        = Done (Live (refused "500 5.0.0 Pipelining not supported" s) g))
     /\ (state s <> S_BODY ->
           smtp_io_line H env line p s g
           = Done (Live (refused "500 5.0.0 Pipelining not supported" s) g)))
  /\ (ib_in (iobuf s) = EmptyString -> state s = S_BODY ->
        strcmp (cstr line) "." = 0 ->
        smtp_io_line H env line p s g = Done (run (smtp_end_of_body H) p s g))
  /\ (state s = S_BODY -> strcmp (cstr line) "." <> 0 ->
        match smtp_body_line H env line p s g with
        | Ok _ s' g' => smtp_io_line H env line p s g = Next s' g'
        | Fatal msg => smtp_io_line H env line p s g = Done (Aborted msg)
        end).
Proof.
  assert (forall r : string, r <> EmptyString -> negb (strlen r =? 0) = true) as Hne.
  { intros [|a r] Hr; [congruence|]. unfold strlen. cbn [String.length].
    rewrite negb_true_iff. apply Z.eqb_neq. lia. }
  split; [|split].
  - intros Hres. split.
    + intros Hst Hdot. unfold smtp_io_line. rewrite Hst, Hdot.
      cbn [Z.eqb negb andb bool_decide]. rewrite andb_false_r.
      unfold iobuf_len. rewrite (Hne _ Hres). unfold pipelining_not_supported.
      now rewrite run_refuse.
    + intros Hst. unfold smtp_io_line. rewrite (bool_decide_eq_false_2 _ Hst).
      cbn [andb]. unfold iobuf_len. rewrite (Hne _ Hres).
      unfold pipelining_not_supported. now rewrite run_refuse.
  - intros Hres Hst Hdot. unfold smtp_io_line. rewrite Hst, Hdot.
    cbn [Z.eqb negb andb]. rewrite andb_false_r.
    unfold iobuf_len. rewrite Hres. reflexivity.
  - intros Hst Hdot. unfold smtp_io_line. rewrite Hst.
    apply Z.eqb_neq in Hdot. rewrite Hdot.
    now destruct (smtp_body_line H env line p s g) as [[] ? ?|].
Qed.

End Lines.

(** ** The body ingester *)

Section Body.

Context (H : smtpd_h) (env : smtpd).

Lemma length_map f s : String.length (CStr.map f s) = String.length s.
Proof. induction s as [|a s IH]; simpl; [reflexivity | now rewrite IH]. Qed.

(** For a line other than the lone dot, what the code strips is what
    [dot_unstuff] strips. *)
Lemma strip_is_dot_unstuff l :
  l <> "."%string ->
  (if Ascii.eqb (head l) "." then drop 1 l else l) = dot_unstuff l.
Proof.
  intros Hl. destruct l as [|a [|b r]]; cbn [head drop dot_unstuff].
  - reflexivity.
  - destruct (Ascii.eqb a ".") eqn:E.
    + apply Ascii.eqb_eq in E. subst a. congruence.
    + destruct a as [[] [] [] [] [] [] [] []]; reflexivity.
  - destruct (Ascii.eqb a ".") eqn:E.
    + apply Ascii.eqb_eq in E. subst a. reflexivity.
    + destruct a as [[] [] [] [] [] [] [] []]; try reflexivity. discriminate.
Qed.

Lemma cstr_dot line : strcmp (cstr line) "." = 0 <-> cstr line = "."%string.
Proof. apply strcmp_eq; [apply strchr_cstr | reflexivity]. Qed.

Lemma dstatus_failed s :
  has (s_dstatus s) (DS_TEMPFAILURE H) = true \/ has (s_dstatus s) (DS_PERMFAILURE H) = true ->
  has (s_dstatus s) (Z.lor (DS_PERMFAILURE H) (DS_TEMPFAILURE H)) = true.
Proof. rewrite has_lor. intros [->| ->]; [apply orb_true_r | reflexivity]. Qed.

Lemma set_iobuf_ofile ib f s :
  set_ofile f (set_iobuf ib s) = set_iobuf ib (set_ofile f s).
Proof. reflexivity. Qed.

(** What [smtp_end_body] leaves once both ends of the body have been
    seen, with [d] the delivery status after the spool file is closed. *)
Lemma smtp_end_body_cases p s g a s' g' f :
  has (flags s) F_SMTP_MESSAGE_END = true -> has (flags s) F_MFA_MESSAGE_END = true ->
  ofile s = Some f ->
  smtp_end_body H p s g = Ok a s' g' ->
  let d := if f_err f then Z.lor (s_dstatus s) (DS_TEMPFAILURE H) else s_dstatus s in
  s_dstatus s' = d /\ ofile s' = None /\ phase s' = PHASE_SETUP
  /\ datalen s' = ftell f /\ spool g' = spool g ++ [f]
  /\ ((has d (DS_PERMFAILURE H) = true /\ state s' = S_HELO
       /\ ib_out (iobuf s')
          = ib_out (iobuf s) ++ [("554 5.0.0 Transaction failed" ++ CRLF)%string]
       /\ sent g' = sent g)
      \/ (has d (DS_PERMFAILURE H) = false /\ has d (DS_TEMPFAILURE H) = true
          /\ state s' = S_QUIT
          /\ ib_out (iobuf s')
             = ib_out (iobuf s) ++ [("421 4.0.0 Temporary failure" ++ CRLF)%string]
          /\ sent g' = sent g)
      \/ (has d (DS_PERMFAILURE H) = false /\ has d (DS_TEMPFAILURE H) = false
          /\ state s' = state s /\ ib_out (iobuf s') = ib_out (iobuf s)
          /\ sent g' = sent g ++ [Q_QUEUE_COMMIT_MESSAGE (s_id s) (evp_id (evp s))]
          /\ wait g' wait_queue_commit !! s_id s = Some p)).
Proof.
  intros H1 H2 Hf. unfold smtp_end_body, bind at 1, get at 1.
  rewrite H1, H2. cbn [andb negb]. rewrite Hf.
  unfold bind at 1, modify at 1. unfold bind at 1, modify at 1.
  unfold bind at 1, safe_fclose.
  intros Hrun.
  set (d := if f_err f then Z.lor (s_dstatus s) (DS_TEMPFAILURE H) else s_dstatus s).
  assert (exists s1,
            s_dstatus s1 = d /\ ofile s1 = Some f /\ phase s1 = PHASE_SETUP
            /\ datalen s1 = ftell f /\ state s1 = state s /\ iobuf s1 = iobuf s
            /\ s_id s1 = s_id s /\ evp s1 = evp s
            /\ (bind (modifyg (fun g => set_spool (spool g ++ [f]) g))
                  (fun _ => bind (modify (set_ofile None))
                     (fun _ => bind get (fun s =>
                        if has (s_dstatus s) (DS_PERMFAILURE H) then
                          bind (smtp_reply "554 5.0.0 Transaction failed")
                            (fun _ => smtp_enter_state S_HELO)
                        else if has (s_dstatus s) (DS_TEMPFAILURE H) then
                          bind (smtp_reply "421 4.0.0 Temporary failure")
                            (fun _ => bind (smtp_enter_state S_QUIT)
                               (fun _ => stat_increment "smtp.tempfail" 1))
                        else
                          bind (imsg_compose_event
                                  (Q_QUEUE_COMMIT_MESSAGE (s_id s) (evp_id (evp s))))
                            (fun _ => tree_xset wait_queue_commit (s_id s))))))
                 p s1 g = Ok a s' g') as (s1 & Hd & Hf1 & Hph & Hdl & Hst & Hib & Hid & Hevp & Hrest).
  { subst d. destruct (f_err f); cbn [negb] in Hrun.
    - unfold or_dstatus in Hrun. unfold modify at 1 in Hrun. cbv beta iota in Hrun.
      exists (set_s_dstatus
                (Z.lor (s_dstatus (set_datalen (ftell f) (set_phase PHASE_SETUP s)))
                   (DS_TEMPFAILURE H))
                (set_datalen (ftell f) (set_phase PHASE_SETUP s))).
      repeat (split; [first [reflexivity | exact Hf]|]). exact Hrun.
    - unfold ret in Hrun. cbv beta iota in Hrun.
      exists (set_datalen (ftell f) (set_phase PHASE_SETUP s)).
      repeat (split; [first [reflexivity | exact Hf]|]). exact Hrun. }
  clear Hrun. revert Hrest.
  unfold bind at 1, modifyg at 1. unfold bind at 1, modify at 1. unfold bind at 1, get at 1.
  cbn [s_dstatus set_ofile s_id evp]. rewrite Hd, Hid, Hevp.
  destruct (has d (DS_PERMFAILURE H)) eqn:Hperm.
  { unfold bind, smtp_reply, smtp_enter_state, modify, ret.
    cbn [strlen String.length Z.of_nat Z.leb Z.ltb Z.compare SMTP_LINE_MAX Pos.of_succ_nat
         Pos.succ Pos.compare Pos.compare_cont].
    intros [= _ <- <-]. cbn. rewrite Hib. repeat split; auto. }
  destruct (has d (DS_TEMPFAILURE H)) eqn:Htemp.
  { unfold bind, smtp_reply, smtp_enter_state, modify, ret, stat_increment, modifyg.
    cbn [strlen String.length Z.of_nat Z.leb Z.ltb Z.compare SMTP_LINE_MAX Pos.of_succ_nat
         Pos.succ Pos.compare Pos.compare_cont].
    intros [= _ <- <-]. cbn. rewrite Hib. repeat split; auto.
    right. left. repeat split; auto. }
  unfold bind, imsg_compose_event, modifyg, tree_xset. cbn [wait set_sent set_spool].
  destruct (wait g wait_queue_commit !! s_id s) eqn:Hw; [discriminate|].
  intros [= _ <- <-]. cbn. rewrite Hib. repeat split; auto.
  right. right. repeat split; auto.
  unfold upd_tree. destruct (decide (wait_queue_commit = wait_queue_commit)); [|congruence].
  apply lookup_insert_eq.
Qed.

(** With a spool file open and no commit pending under the session's id,
    [smtp_end_body] returns. *)
Lemma smtp_end_body_returns p s g f :
  ofile s = Some f -> wait g wait_queue_commit !! s_id s = None ->
  exists s' g', smtp_end_body H p s g = Ok tt s' g'.
Proof.
  intros Hf Hw. unfold smtp_end_body, bind at 1, get at 1.
  destruct (negb _); [eexists; eexists; reflexivity|].
  rewrite Hf. unfold bind at 1, modify at 1. unfold bind at 1, modify at 1.
  unfold bind at 1.
  assert (exists s1, s_id s1 = s_id s
            /\ (if safe_fclose f then ret tt else or_dstatus (DS_TEMPFAILURE H)) p
                 (set_datalen (ftell f) (set_phase PHASE_SETUP s)) g = Ok tt s1 g)
    as (s1 & Hid & ->).
  { destruct (safe_fclose f); eexists; (split; [|reflexivity]); reflexivity. }
  unfold bind at 1, modifyg at 1. unfold bind at 1, modify at 1.
  unfold bind at 1, get at 1. cbn [s_dstatus set_ofile s_id evp].
  destruct (has (s_dstatus s1) (DS_PERMFAILURE H)).
  { eexists; eexists; reflexivity. }
  destruct (has (s_dstatus s1) (DS_TEMPFAILURE H)).
  { eexists; eexists; reflexivity. }
  unfold bind, imsg_compose_event, modifyg, tree_xset. cbn [wait set_sent set_spool].
  rewrite Hid, Hw. eexists; eexists; reflexivity.
Qed.

(** [smtp_end_body] leaves the session flags as they are. *)
Lemma smtp_end_body_flags p s g a s' g' :
  smtp_end_body H p s g = Ok a s' g' -> flags s' = flags s.
Proof.
  unfold smtp_end_body, bind at 1, get at 1.
  destruct (negb _); [intros E; inversion E; reflexivity|].
  unfold bind at 1, modify at 1.
  destruct (ofile s) as [f|]; [|discriminate].
  cbv beta iota delta [bind modify modifyg ret or_dstatus get smtp_reply
    smtp_enter_state stat_increment imsg_compose_event tree_xset].
  repeat match goal with
         | |- context [if ?c then _ else _] => destruct c
         | |- context [match ?x with Some _ => _ | None => _ end] => destruct x
         end;
    try discriminate; intros E; inversion E; reflexivity.
Qed.

Lemma mask7_clear c : mask7 c = clear_high_bit c.
Proof. destruct c as [[] [] [] [] [] [] [] []]; reflexivity. Qed.

Lemma map_mask7_clear l : CStr.map mask7 l = CStr.map clear_high_bit l.
Proof. induction l as [|c l IH]; cbn [CStr.map]; [reflexivity|]. now rewrite mask7_clear, IH. Qed.

(** Clearing the high bit gives NUL for NUL and for the byte 0x80 only. *)
Lemma strchr_clear_high_bit l :
  strchr l NUL = None -> strchr l (chr 128) = None ->
  strchr (CStr.map clear_high_bit l) NUL = None.
Proof.
  induction l as [|c l IH]; [reflexivity|]. cbn [strchr CStr.map].
  destruct (Ascii.eqb c NUL) eqn:E0; [discriminate|].
  destruct (Ascii.eqb c (chr 128)) eqn:E1; [discriminate|].
  destruct (strchr l NUL); [discriminate|]. destruct (strchr l (chr 128)); [discriminate|].
  intros _ _. rewrite IH by reflexivity.
  destruct c as [[] [] [] [] [] [] [] []]; first [reflexivity | discriminate].
Qed.

Lemma dot_unstuff_cases l :
  dot_unstuff l = l \/ exists r, l = String "." r /\ dot_unstuff l = r.
Proof.
  destruct l as [|a [|b r]]; [left; reflexivity| |].
  - left. destruct a as [[] [] [] [] [] [] [] []]; reflexivity.
  - destruct (Ascii.eqb a ".") eqn:E.
    + apply Ascii.eqb_eq in E. subst a. right. eexists. split; reflexivity.
    + left. destruct a as [[] [] [] [] [] [] [] []]; try reflexivity. discriminate E.
Qed.

Lemma strchr_dot_unstuff l c : strchr l c = None -> strchr (dot_unstuff l) c = None.
Proof.
  intros Hn. destruct (dot_unstuff_cases l) as [->|(r & -> & ->)]; [exact Hn|].
  cbn [strchr] in Hn. destruct (Ascii.eqb "." c); [discriminate|].
  destruct (strchr r c); [discriminate | reflexivity].
Qed.

(** C9 as the code has it.  With [l] what the code reads of a body line
    in [S_BODY].  The lone dot with nothing after it in the buffer ends the
    body: [F_SMTP_MESSAGE_END] is set, [smtp_io] is left with the session
    alive, and nothing is written for that line (the spool file is as it
    was, still open, or closed as it was when the filter's end has been
    seen too).  Any other line that is stored (no failure pending, within
    the message size, the write succeeds) reaches the spool as
    [dot_unstuff l] followed by LF, each byte with its high bit cleared
    unless [F_8BITMIME] is set, and [smtp_io] goes on with the next line
    when the filter does not take data lines.  A line with a byte 0x80
    under a cleared [F_8BITMIME] is left out. *)
Theorem dot_stuffing_law line p s g :
  let l := cstr line in
  (state s = S_BODY -> l = "."%string -> ib_in (iobuf s) = EmptyString ->
   forall f, ofile s = Some f ->
   wait g wait_queue_commit !! s_id s = None ->
   exists s' g',
     smtp_io_line H env line p s g = Done (Live s' g')
     /\ has (flags s') F_SMTP_MESSAGE_END = true
     /\ ((ofile s' = Some f /\ spool g' = spool g)
         \/ (ofile s' = None /\ spool g' = spool g ++ [f])))
  /\ (l <> "."%string ->
      has (s_dstatus s) (Z.lor (DS_PERMFAILURE H) (DS_TEMPFAILURE H)) = false ->
      forall f, ofile s = Some f ->
      strlen (dot_unstuff l) + 1 <= SIZE_MAX - ftell f ->
      ftell f + strlen (dot_unstuff l) + 1 <= sc_maxsize env ->
      strlen (dot_unstuff l) + 1 <= f_room f ->
      (has (flags s) F_8BITMIME = false -> strchr (dot_unstuff l) (chr 128) = None) ->
      let stored :=
        if has (flags s) F_8BITMIME then dot_unstuff l
        else CStr.map clear_high_bit (dot_unstuff l) in
      let s' :=
        set_ofile (Some {| f_data := f_data f ++ stored ++ NL;
                           f_room := f_room f - (strlen (dot_unstuff l) + 1);
                           f_err := f_err f |}) s in
      smtp_queue_data H env line p s g = Ok tt s' g
      /\ (state s = S_BODY -> has (filtermask env) (HOOK_DATALINE H) = false ->
            smtp_io_line H env line p s g = Next s' g)).
Proof.
  intros l. split.
  - intros Hst Hl Hin f Hf Hw. apply cstr_dot in Hl. unfold smtp_io_line.
    rewrite Hst, Hl. cbn [Z.eqb negb andb]. rewrite andb_false_r.
    unfold iobuf_len. rewrite Hin. change (negb (strlen EmptyString =? 0)) with false.
    cbv iota. rewrite bool_decide_eq_true_2 by reflexivity.
    unfold run, smtp_end_of_body, bind at 1 2 3, modify at 1 2 3.
    set (s1 := io_set_write _).
    assert (ofile s1 = Some f) as Hf1 by exact Hf.
    assert (has (flags s1) F_SMTP_MESSAGE_END = true) as H1.
    { subst s1. cbn [flags io_set_write set_io set_iobuf set_flags].
      apply has_lor_same; unfold F_SMTP_MESSAGE_END; lia. }
    destruct (smtp_end_body_returns p s1 g f Hf1 Hw) as (s' & g' & E).
    rewrite E. exists s', g'. split; [reflexivity|].
    assert (has (flags s') F_SMTP_MESSAGE_END = true) as H1'.
    { now rewrite (smtp_end_body_flags p s1 g tt s' g' E). }
    split; [exact H1'|].
    destruct (has (flags s1) F_MFA_MESSAGE_END) eqn:H2.
    + destruct (smtp_end_body_cases p s1 g tt s' g' f H1 H2 Hf1 E)
        as (_ & Hof & _ & _ & Hsp & _).
      right; split; assumption.
    + revert E. unfold smtp_end_body, bind at 1, get at 1. rewrite H1, H2. cbn [andb negb].
      intros [= <- <-]. left. split; [exact Hf1 | reflexivity].
  - intros Hl Hds f Hf Hsz Hmax Hroom H80 stored s'.
    assert (strchr stored NUL = None) as Hnul.
    { subst stored. destruct (has (flags s) F_8BITMIME).
      - apply strchr_dot_unstuff, strchr_cstr.
      - apply strchr_clear_high_bit; [apply strchr_dot_unstuff, strchr_cstr | now apply H80]. }
    assert (smtp_queue_data H env line p s g = Ok tt s' g) as Hq.
    { unfold smtp_queue_data, bind, get. rewrite Hds, Hf.
      fold l. rewrite (strip_is_dot_unstuff l Hl).
      assert ((SIZE_MAX - ftell f <? strlen (dot_unstuff l) + 1)
              || (sc_maxsize env <? ftell f + strlen (dot_unstuff l) + 1) = false) as ->.
      { apply orb_false_iff. split; apply Z.ltb_ge; lia. }
      rewrite map_mask7_clear. fold stored. rewrite (cstr_id stored Hnul).
      assert (strlen (stored ++ NL) = strlen (dot_unstuff l) + 1) as Hlen.
      { unfold strlen. rewrite length_app. cbn [NL String.length].
        subst stored. destruct (has (flags s) F_8BITMIME); rewrite ?length_map; lia. }
      unfold fprintf. rewrite Hlen.
      apply Z.leb_le in Hroom. rewrite Hroom.
      unfold modify. rewrite Z.eqb_refl. reflexivity. }
    split; [exact Hq|]. intros Hst Hhook.
    assert ((strcmp (cstr line) "." =? 0) = false) as Hdot.
    { apply Z.eqb_neq. intros E. apply cstr_dot in E. contradiction. }
    unfold smtp_io_line. rewrite Hst, Hdot. cbn [negb andb bool_decide].
    rewrite bool_decide_eq_true_2 by reflexivity. cbn [andb].
    unfold smtp_body_line. now rewrite Hhook, Hq.
Qed.

(** C10.  A body line that arrives when [s_dstatus] already has the
    temporary or the permanent failure bit is dropped by [smtp_queue_data]
    before anything else is looked at: the session, its spool file, flags,
    counters and replies, and the globals are what they were; [smtp_io]
    goes back to [nextline] with nothing but the line taken off the
    buffer. *)
Theorem failed_body_line_discarded line p s g :
  has (s_dstatus s) (DS_TEMPFAILURE H) = true
  \/ has (s_dstatus s) (DS_PERMFAILURE H) = true ->
  smtp_queue_data H env line p s g = Ok tt s g
  /\ (forall len s0,
        iobuf_getline (iobuf s0) = Some (line, len, iobuf s) ->
        s = set_iobuf (iobuf s) s0 ->
        len < SMTP_LINE_MAX -> state s = S_BODY -> cstr line <> "."%string ->
        has (filtermask env) (HOOK_DATALINE H) = false ->
        smtp_io_nextline H env p s0 g = Next s g).
Proof.
  intros Hds. apply dstatus_failed in Hds.
  assert (smtp_queue_data H env line p s g = Ok tt s g) as Hq.
  { unfold smtp_queue_data, bind, get. now rewrite Hds. }
  split; [exact Hq|].
  intros len s0 Hget Hs Hlen Hst Hl Hhook.
  unfold smtp_io_nextline. rewrite Hget, <- Hs.
  apply Z.leb_gt in Hlen. rewrite Hlen.
  unfold smtp_io_line. rewrite Hst.
  assert ((strcmp (cstr line) "." =? 0) = false) as ->.
  { apply Z.eqb_neq. intros E. apply cstr_dot in E. contradiction. }
  rewrite bool_decide_eq_true_2 by reflexivity. cbn [negb andb].
  unfold smtp_body_line. now rewrite Hhook, Hq.
Qed.

End Body.

(** ** Commands out of phase *)

Section Phase.

Context (H : smtpd_h) (env : smtpd).

(** C6 as the code has it.  A command issued outside its phase gets the
    rejection of its [case] and nothing else happens: the session differs
    only by the counted line ([kickcount]), the verb left in [cmd] and the
    queued reply, and the globals are untouched.  [RSET] belongs to the
    transaction phase, so in [PHASE_INIT] it is refused like the others. *)
Theorem out_of_phase_rejected line p s g verb args c :
  state s <> S_AUTH_INIT -> state s <> S_AUTH_USERNAME -> state s <> S_AUTH_PASSWORD ->
  wrap (kickcount s + 1) < SMTP_KICKTHRESHOLD ->
  smtp_split line = (verb, args) ->
  smtp_lookup commands verb = Some c ->
  (out_of_phase c (phase s) = true ->
     smtp_command H line p s g
     = Ok tt (set_iobuf (iobuf_xfqueue (out_of_phase_reply c) (iobuf s))
                (set_cmd verb (set_kickcount (wrap (kickcount s + 1)) s))) g)
  /\ (c = CMD_RSET -> phase s = PHASE_INIT ->
        smtp_command H line p s g
        = Ok tt (set_iobuf (iobuf_xfqueue "XXX Command not allowed at this point."
                              (iobuf s))
                   (set_cmd verb (set_kickcount (wrap (kickcount s + 1)) s))) g).
Proof.
  intros Hs1 Hs2 Hs3 Hk Hsplit Hlook.
  assert (out_of_phase c (phase s) = true ->
          smtp_command H line p s g
          = Ok tt (set_iobuf (iobuf_xfqueue (out_of_phase_reply c) (iobuf s))
                     (set_cmd verb (set_kickcount (wrap (kickcount s + 1)) s))) g) as Hgen.
  { intros Hout. unfold smtp_command, bind at 1 2, modify at 1, get at 1.
    cbn [kickcount set_kickcount]. apply Z.leb_gt in Hk. rewrite Hk.
    cbn [state set_kickcount].
    destruct (state s) eqn:Hst; try congruence;
      rewrite Hsplit; unfold bind, modify; rewrite Hlook;
      destruct c; cbn [out_of_phase] in Hout; try discriminate;
      cbn [smtp_dispatch]; unfold cmd_helo, cmd_starttls, cmd_auth, cmd_mail_from,
        cmd_rcpt_to, cmd_rset, cmd_data, bind, get;
      cbn [phase set_cmd set_kickcount]; rewrite Hout; reflexivity. }
  split; [exact Hgen|].
  intros -> Hph. apply Hgen. cbn [out_of_phase]. now rewrite Hph.
Qed.

End Phase.

(** ** Recipients *)

Section Rcpt.

Context (H : smtpd_h) (env : smtpd).

Lemma smtp_reply_ok buf p s g :
  4 <= strlen buf < SMTP_LINE_MAX ->
  smtp_reply buf p s g = Ok tt (set_iobuf (iobuf_xfqueue buf (iobuf s)) s) g.
Proof.
  intros [Hlo Hhi]. unfold smtp_reply.
  apply Z.ltb_lt in Hhi. rewrite Z.leb_antisym, Hhi. cbn [negb].
  assert ((strlen buf <? 4) = false) as -> by (apply Z.ltb_ge; lia).
  reflexivity.
Qed.

Lemma recipient_ok_length code :
  4 <= strlen (Fmt.d code ++ " 2.0.0 Recipient ok") < SMTP_LINE_MAX.
Proof.
  unfold strlen. rewrite length_app. pose proof (d_length code).
  cbn [String.length]. unfold SMTP_LINE_MAX. lia.
Qed.

(** C2 as the code has it.  With the session registered in
    [wait_mfa_rcpt]: the filter's accepting answer already takes it out of
    the tree, counts the recipient ([rcptcount] up, [kickcount] down, as
    [size_t]) and queues [<code> 2.0.0 Recipient ok]; the queue's
    [IMSG_QUEUE_COMMIT_ENVELOPES] does the same with [250 2.0.0 Recipient
    ok]; an [IMSG_QUEUE_SUBMIT_ENVELOPE] leaves the entry and the replies
    alone and raises [destcount] on success or sets [DS_TEMPFAILURE]. *)
Theorem recipient_ok_paths P p s k :
  heap P !! p = Some s ->
  wait (glob P) wait_mfa_rcpt !! k = Some p ->
  (forall r, mfa_reqid r = k -> mfa_status r = MFA_OK H ->
     smtp_session_imsg H env (IMSG_MFA_RCPT r) P
     = Running
         {| heap := <[p := recipient_counted
                             (Fmt.d (mfa_code r) ++ " 2.0.0 Recipient ok") s]> (heap P);
            glob := snd (tree_pop wait_mfa_rcpt k (glob P)) |})
  /\ (forall q, q_reqid q = k ->
        smtp_session_imsg H env (IMSG_QUEUE_COMMIT_ENVELOPES q) P
        = Running
            {| heap := <[p := recipient_counted "250 2.0.0 Recipient ok" s]> (heap P);
               glob := snd (tree_pop wait_mfa_rcpt k (glob P)) |})
  /\ (forall q, q_reqid q = k ->
        smtp_session_imsg H env (IMSG_QUEUE_SUBMIT_ENVELOPE q) P
        = Running
            {| heap := <[p := if q_success q =? 0
                              then set_s_dstatus
                                     (Z.lor (s_dstatus s) (DS_TEMPFAILURE H)) s
                              else set_destcount (wrap (destcount s + 1)) s]> (heap P);
               glob := glob P |}).
Proof.
  intros Hheap Hwait. split; [|split].
  - intros r <- Hok. cbn [smtp_session_imsg]. unfold with_xpop, tree_pop.
    rewrite Hwait. unfold resume. rewrite Hheap.
    unfold run, on_mfa_rcpt, bind at 1 2, get at 1.
    rewrite Hok, Z.eqb_refl. cbn [negb]. unfold bind, modify.
    rewrite smtp_reply_ok by apply recipient_ok_length. reflexivity.
  - intros q <-. cbn [smtp_session_imsg]. unfold with_xpop, tree_pop.
    rewrite Hwait. unfold resume. rewrite Hheap. reflexivity.
  - intros q <-. cbn [smtp_session_imsg]. unfold with_xget, tree_get.
    rewrite Hwait. unfold resume. rewrite Hheap.
    unfold run, on_queue_submit_envelope.
    now destruct (q_success q =? 0).
Qed.

End Rcpt.

(** ** Disposal and the trees *)

Section Disposal.

Context (H : smtpd_h) (env : smtpd).

(** [smtp_free] pops the session's id from [wait_mfa_data] and leaves the
    other nine trees as they are. *)
Lemma smtp_free_trees s reason g :
  exists g',
    smtp_free H s reason g = Freed reason g'
    /\ wait g' wait_mfa_data !! s_id s = None
    /\ (forall t, t <> wait_mfa_data -> wait g' t = wait g t).
Proof.
  unfold smtp_free. eexists. split; [reflexivity|].
  set (g1 := snd (tree_pop wait_mfa_data (s_id s) g)).
  assert (wait g1 wait_mfa_data !! s_id s = None
          /\ forall t, t <> wait_mfa_data -> wait g1 t = wait g t) as [H1 H2].
  { subst g1. unfold tree_pop, upd_tree. cbn. split.
    - destruct (decide (wait_mfa_data = wait_mfa_data)); [|congruence].
      apply lookup_delete_eq.
    - intros t Ht. now destruct (decide (t = wait_mfa_data)). }
  clearbody g1.
  destruct (_ && has _ (F_STARTTLS H)), (_ && has _ (F_SMTPS H)), (ofile s),
    (evp_id (evp s) =? 0); cbn; auto.
Qed.

(** A body line leaves the id, the flags and the trees alone. *)
Lemma smtp_body_line_trees line p s g s' g' :
  smtp_body_line H env line p s g = Ok tt s' g' ->
  s_id s' = s_id s /\ flags s' = flags s /\ wait g' = wait g.
Proof.
  unfold smtp_body_line. destruct (has (filtermask env) _).
  - unfold bind, get. destruct (_ <=? _); [discriminate|].
    intros [= <- <-]. auto.
  - unfold smtp_queue_data, bind, get. destruct (has (s_dstatus s) _).
    { intros [= <- <-]. auto. }
    destruct (ofile s) as [f|]; [|discriminate].
    destruct (_ || _).
    { intros [= <- <-]. auto. }
    destruct (fprintf f _) as [f' n]. unfold modify.
    destruct (n =? _); intros [= <- <-]; auto.
Qed.

Lemma run_not_freed m p s g reason g' : run m p s g <> Freed reason g'.
Proof. unfold run. now destruct (m p s g). Qed.

Lemma smtp_io_nextline_trees p s g :
  has (flags s) F_KICK = false ->
  match smtp_io_nextline H env p s g with
  | Next s' g' =>
      s_id s' = s_id s /\ has (flags s') F_KICK = false /\ wait g' = wait g
  | Done (Freed reason g') =>
      wait g' wait_mfa_data !! s_id s = None
      /\ (forall t, t <> wait_mfa_data -> wait g' t = wait g t)
  | Done _ => True
  end.
Proof.
  intros Hfl. unfold smtp_io_nextline.
  destruct (iobuf_getline (iobuf s)) as [[[line len] ib]|].
  2:{ destruct (_ <=? _); [|exact I].
      destruct (run line_too_long p s g) eqn:E; auto.
      now apply run_not_freed in E. }
  destruct (_ <=? _).
  { destruct (run line_too_long p _ g) eqn:E; auto. now apply run_not_freed in E. }
  unfold smtp_io_line. set (s0 := set_iobuf ib s).
  destruct (_ && _).
  { destruct (smtp_body_line H env line p s0 g) as [[] s' g'|] eqn:E; [|exact I].
    destruct (smtp_body_line_trees _ _ _ _ _ _ E) as (Hid & Hf & Hw).
    rewrite Hid, Hf. auto. }
  destruct (negb _).
  { destruct (run pipelining_not_supported p s0 g) eqn:E; auto.
    now apply run_not_freed in E. }
  destruct (bool_decide _).
  { destruct (run (smtp_end_of_body H) p s0 g) eqn:E; auto.
    now apply run_not_freed in E. }
  set (s1 := io_set_write _).
  destruct (smtp_command H (cmd s1) p s1 g) as [[] s' g'|] eqn:E; [|exact I].
  destruct (has (flags s') F_KICK) eqn:Hk; [|exact I].
  destruct (Z_lt_le_dec (wrap (kickcount s1 + 1)) SMTP_KICKTHRESHOLD) as [Hlt|Hge].
  - destruct (smtp_command_steady H _ p s1 g s' g' Hlt E) as (_ & _ & Hf).
    rewrite (Hf Hfl) in Hk. discriminate.
  - destruct (smtp_free_trees s' "kick" g') as (g2 & -> & Hd & Ho).
    rewrite (smtp_command_kick H _ p s1 g Hge) in E. injection E as <- <-.
    split; [exact Hd|]. intros t Ht. now rewrite (Ho t Ht).
Qed.

Lemma smtp_io_datain_trees fuel p : forall s g reason g',
  has (flags s) F_KICK = false ->
  smtp_io_datain_loop H env fuel p s g = Freed reason g' ->
  wait g' wait_mfa_data !! s_id s = None
  /\ (forall t, t <> wait_mfa_data -> wait g' t = wait g t).
Proof.
  induction fuel as [|fuel IH]; intros s g reason g' Hfl;
    cbn [smtp_io_datain_loop]; pose proof (smtp_io_nextline_trees p s g Hfl) as Hn;
    destruct (smtp_io_nextline H env p s g) as [s1 g1|o].
  - discriminate.
  - intros ->. exact Hn.
  - destruct Hn as (Hid & Hf & Hw). intros E.
    destruct (IH _ _ _ _ Hf E) as [Hd Ho]. rewrite Hid, Hw in *. auto.
  - intros ->. exact Hn.
Qed.

(** X22.  Disposal is [smtp_free], which pops the session's id from
    [wait_mfa_data] and from no other tree.  Whatever event frees a session
    -- a drained [QUIT] or refusal, a timeout, a disconnect, an I/O error,
    a kick, the filter's rejection at connect -- afterwards [wait_mfa_data]
    has no entry under the id and each of the other nine trees is what it
    was when the handler began; so no tree has the id afterwards exactly
    when none of those nine had it before. *)
Theorem disposal_pops_wait_mfa_data_only p s g reason g' :
  (exists evt, has (flags s) F_KICK = false
               /\ smtp_io H env evt p s g = Freed reason g')
  \/ (exists r, on_mfa_connect H env r p s g = Freed reason g') ->
  wait g' wait_mfa_data !! s_id s = None
  /\ (forall t, t <> wait_mfa_data -> wait g' t = wait g t)
  /\ ((forall t, wait g' t !! s_id s = None)
      <-> (forall t, t <> wait_mfa_data -> wait g t !! s_id s = None)).
Proof.
  intros Hev.
  assert (wait g' wait_mfa_data !! s_id s = None
          /\ forall t, t <> wait_mfa_data -> wait g' t = wait g t) as [Hd Ho].
  { destruct Hev as [(evt & Hfl & E)|(r & E)].
    - destruct evt; cbn [smtp_io] in E.
      + now apply run_not_freed in E.
      + exact (smtp_io_datain_trees _ p s g reason g' Hfl E).
      + destruct (bool_decide (state s = S_QUIT)).
        * destruct (smtp_free_trees s "done" g) as (g1 & E1 & ?). rewrite E1 in E.
          injection E as _ <-. auto.
        * destruct (bool_decide _); discriminate.
      + destruct (smtp_free_trees s "timeout" g) as (g1 & E1 & ?). rewrite E1 in E.
        injection E as _ <-. auto.
      + destruct (smtp_free_trees s "disconnected" g) as (g1 & E1 & ?).
        rewrite E1 in E. injection E as _ <-. auto.
      + destruct (smtp_free_trees s "IO error" g) as (g1 & E1 & ?). rewrite E1 in E.
        injection E as _ <-. auto.
      + discriminate.
    - unfold on_mfa_connect in E. destruct (negb _).
      + destruct (smtp_free_trees s "rejected by filter" g) as (g1 & E1 & ?).
        rewrite E1 in E. injection E as _ <-. auto.
      + destruct (has _ _); [discriminate|]. now apply run_not_freed in E. }
  split; [exact Hd|]. split; [exact Ho|]. split.
  - intros Hall t Ht. rewrite <- (Ho t Ht). apply Hall.
  - intros Hnine t. destruct (decide (t = wait_mfa_data)) as [->|Ht]; [exact Hd|].
    rewrite (Ho t Ht). now apply Hnine.
Qed.

End Disposal.

(** ** SASL PLAIN *)

Section Plain.

Context (H : smtpd_h) (env : smtpd).

Lemma take_all n s : (String.length s <= n)%nat -> take n s = s.
Proof.
  revert s; induction n as [|n IH]; intros [|a s]; cbn [String.length take];
    intros Hn; try reflexivity; try lia.
  rewrite IH by lia. reflexivity.
Qed.

Lemma strlcpy_fits src size : strlen src < size -> strlcpy src size = (src, strlen src).
Proof.
  intros Hs. unfold strlcpy. rewrite take_all; [reflexivity|]. unfold strlen in Hs. lia.
Qed.







End Plain.

(** ** The loop of [IO_DATAIN] ends *)

Section Datain.

Context (H : smtpd_h) (env : smtpd).

Lemma smtp_body_line_iobuf line p s g s' g' :
  smtp_body_line H env line p s g = Ok tt s' g' -> iobuf s' = iobuf s.
Proof.
  unfold smtp_body_line. destruct (has (filtermask env) _).
  - unfold bind, get. destruct (_ <=? _); [discriminate|].
    intros [= <- <-]. reflexivity.
  - unfold smtp_queue_data, bind, get. destruct (has (s_dstatus s) _).
    { intros [= <- <-]. reflexivity. }
    destruct (ofile s) as [f|]; [|discriminate].
    destruct (_ || _).
    { intros [= <- <-]. reflexivity. }
    destruct (fprintf f _) as [f' n]. unfold modify.
    destruct (n =? _); intros [= <- <-]; reflexivity.
Qed.

(** A jump back to [nextline] has shortened the buffer. *)
Lemma smtp_io_nextline_shorter p s g s' g' :
  smtp_io_nextline H env p s g = Next s' g' ->
  (String.length (ib_in (iobuf s')) < String.length (ib_in (iobuf s)))%nat.
Proof.
  unfold smtp_io_nextline.
  destruct (iobuf_getline (iobuf s)) as [[[line len] ib]|] eqn:Hget.
  2:{ destruct (_ <=? _); discriminate. }
  destruct (_ <=? _); [discriminate|].
  unfold smtp_io_line.
  destruct (iobuf_getline_spec _ _ _ _ Hget) as (_ & _ & _ & Hin).
  destruct (_ && _).
  - destruct (smtp_body_line H env line p _ g) as [[] s1 g1|] eqn:E; [|discriminate].
    intros [= <- <-]. rewrite (smtp_body_line_iobuf _ _ _ _ _ _ E).
    cbn [iobuf set_iobuf].
    destruct Hin as [-> | ->]; rewrite length_app; cbn [String.length]; lia.
  - destruct (negb _); [discriminate|]. destruct (bool_decide _); [discriminate|].
    destruct (smtp_command _ _ _ _ _) as [[] s1 g1|]; [|discriminate].
    destruct (has _ _); discriminate.
Qed.

(** The loop does not depend on its fuel once there is as much of it as
    there are bytes in the buffer. *)
Lemma smtp_io_datain_fuel fuel p : forall fuel' s g,
  (String.length (ib_in (iobuf s)) <= fuel)%nat ->
  (String.length (ib_in (iobuf s)) <= fuel')%nat ->
  smtp_io_datain_loop H env fuel p s g = smtp_io_datain_loop H env fuel' p s g.
Proof.
  induction fuel as [|fuel IH]; intros fuel' s g Hf Hf'.
  - destruct fuel'; cbn [smtp_io_datain_loop];
      destruct (smtp_io_nextline H env p s g) as [s1 g1|o] eqn:E; try reflexivity;
      apply smtp_io_nextline_shorter in E; lia.
  - destruct fuel' as [|fuel']; cbn [smtp_io_datain_loop];
      destruct (smtp_io_nextline H env p s g) as [s1 g1|o] eqn:E; try reflexivity;
      apply smtp_io_nextline_shorter in E; [lia|].
    apply IH; lia.
Qed.

End Datain.

(** * The statements at concrete inputs *)

Section Concrete.

Import Sample Cases.

(** ** MAIL FROM parameters *)

(** An argument that does not end in [>] is refused before
    [smtp_parse_mail_args] is reached, whatever [email_to_mailaddr] does. *)
Lemma smtp_mailaddr_wants_bracket_last H m args :
  Ascii.eqb (last args) ">" = false -> smtp_mailaddr H m args = (0, m, args).
Proof. intros E. unfold smtp_mailaddr. now rewrite E, orb_true_r. Qed.

Example mail_from_with_parameter :
  last_reply 1 (play (helloed plain ++ line "MAIL FROM:<a@b> BODY=8BITMIME" 1) boot)
  = ("553 5.1.7 Sender address syntax error" ++ CRLF)%string.
Proof. vm_compute. reflexivity. Qed.

Example mail_from_parameter_inside_brackets :
  last_reply 1 (play (helloed plain ++ line "MAIL FROM:<x BODY=8BITMIME@d>" 1) boot)
  = ("503 5.5.4 Unsupported option BODY=8BITMIME" ++ CRLF)%string.
Proof. vm_compute. reflexivity. Qed.

(** ** Scenarios of the specification *)

Example plain_submission :
  replies 1 (play (in_body plain "MAIL FROM:<a@b>"
                   ++ [Recv ("Hi" ++ CRLF ++ "." ++ CRLF) 1; Io IO_DATAIN 1;
                       Imsg (IMSG_QUEUE_COMMIT_MESSAGE (queue 7 1 0)); Io IO_LOWAT 1]
                   ++ line "QUIT" 1) boot)
  = List.map (fun r => (r ++ CRLF)%string)
      [ "220 mx.example ESMTP OpenSMTPD";
        "250-mx.example Hello mx.example. [192.0.2.1], pleased to meet you";
        "250-8BITMIME"; "250-ENHANCEDSTATUSCODES"; "250-SIZE 1000000"; "250 HELP";
        "250 Ok"; "250 2.0.0 Recipient ok";
        ("354 Enter mail, end with " ++ DQUOTE ++ "." ++ DQUOTE ++ " on a lineby itself")%string;
        "250 2.0.0 00000abc Message accepted for delivery"; "221 2.0.0 Bye" ].
Proof. vm_compute. reflexivity. Qed.

(** With [F_8BITMIME] clear the byte 0x80 is masked to NUL: of the line
    [a], 0x80, [b] the spool gets [a] and LF only, and the length test sets
    [DS_TEMPFAILURE]. *)
Example high_bit_byte_cuts_line :
  smtp_queue_data h env (String "a" (String (chr 128) "b")) 1 receiving_7bit g0
  = Ok tt
      (set_s_dstatus (DS_TEMPFAILURE h)
         (set_ofile
            (Some {| f_data := ("a" ++ NL)%string; f_room := 1000000 - 2;
                     f_err := false |}) receiving_7bit)) g0.
Proof. vm_compute. reflexivity. Qed.

Example dot_stuffing_scenario :
  smtp_io h env IO_DATAIN 1
    (client_sends ".foo" (client_sends "..x" receiving)) g0
  = Live (set_ofile
            (Some {| f_data := (".x" ++ NL ++ "foo" ++ NL)%string;
                     f_room := 1000000 - 7; f_err := false |}) receiving) g0.
Proof. vm_compute. reflexivity. Qed.

(** ** C2: the reply to RCPT TO *)

(** The filter accepts the recipient with code 250: the session answers
    [250 2.0.0 Recipient ok] at once, counts the recipient and leaves
    [wait_mfa_rcpt], although no [IMSG_QUEUE_COMMIT_ENVELOPES] has come. *)
Lemma recipient_ok_on_filter_accept :
  last_reply 1 (play rcpt_asked boot) = ("250 Ok" ++ CRLF)%string
  /\ option_map rcptcount (session_at 1 (play rcpt_asked boot)) = Some 0
  /\ last_reply 1 (play (rcpt_asked ++ [Imsg (IMSG_MFA_RCPT (mfa 7 0 250))]) boot)
     = ("250 2.0.0 Recipient ok" ++ CRLF)%string
  /\ option_map rcptcount
       (session_at 1 (play (rcpt_asked ++ [Imsg (IMSG_MFA_RCPT (mfa 7 0 250))]) boot))
     = Some 1
  /\ waiting wait_mfa_rcpt 7
       (play (rcpt_asked ++ [Imsg (IMSG_MFA_RCPT (mfa 7 0 250))]) boot) = None.
Proof. vm_compute. repeat split; reflexivity. Qed.

Lemma recipient_ok_paths_witness :
  heap rcpt_proc !! 1 = Some rcpt_session
  /\ wait (glob rcpt_proc) wait_mfa_rcpt !! 7 = Some 1
  /\ smtp_session_imsg h env (IMSG_QUEUE_COMMIT_ENVELOPES (queue 7 1 0)) rcpt_proc
     = Running
         {| heap := <[1 := recipient_counted "250 2.0.0 Recipient ok" rcpt_session]>
                      (heap rcpt_proc);
            glob := snd (tree_pop wait_mfa_rcpt 7 (glob rcpt_proc)) |}.
Proof.
  assert (heap rcpt_proc !! 1 = Some rcpt_session) as Hh by (vm_compute; reflexivity).
  assert (wait (glob rcpt_proc) wait_mfa_rcpt !! 7 = Some 1) as Hw
    by (vm_compute; reflexivity).
  split; [exact Hh|]. split; [exact Hw|].
  destruct (recipient_ok_paths h env rcpt_proc 1 rcpt_session 7 Hh Hw) as (_ & Hc & _).
  apply Hc. reflexivity.
Defined.

(** ** C3: bytes after the final dot *)

(** The client sends [Hi], the final dot and [QUIT] in one segment: the
    answer is the pipelining refusal and the session goes to [S_QUIT];
    the body is not ended (no [F_SMTP_MESSAGE_END], the spool file still
    open). *)
Lemma final_dot_with_residue_refused :
  last_reply 1 (play dot_then_quit boot)
  = ("500 5.0.0 Pipelining not supported" ++ CRLF)%string
  /\ option_map state (session_at 1 (play dot_then_quit boot)) = Some S_QUIT
  /\ option_map (fun s => has (flags s) F_SMTP_MESSAGE_END)
       (session_at 1 (play dot_then_quit boot)) = Some false
  /\ option_map (fun s => bool_decide (ofile s = None))
       (session_at 1 (play dot_then_quit boot)) = Some false.
Proof. vm_compute. repeat split; reflexivity. Qed.

Lemma pipelining_after_final_dot_witness :
  ib_in (iobuf receiving_more) <> EmptyString
  /\ state receiving_more = S_BODY
  /\ strcmp (cstr ".") "." = 0
  /\ smtp_io_line h env "." 1 receiving_more g0
     = Done (Live (refused "500 5.0.0 Pipelining not supported" receiving_more) g0).
Proof.
  assert (ib_in (iobuf receiving_more) <> EmptyString) as Hne by discriminate.
  split; [exact Hne|]. split; [reflexivity|]. split; [reflexivity|].
  destruct (pipelining_after_final_dot h env "." 1 receiving_more g0) as (Hp & _).
  destruct (Hp Hne) as (Hb & _). apply Hb; reflexivity.
Defined.

(** ** C4: an empty authcid *)



(** ** C5: a session freed while the queue commits its message *)

(** C5.  A run at the end of which disposal leaves the session's id in a
    registry.  The filter takes the data lines.  A first message is
    received and committed; nothing clears [F_SMTP_MESSAGE_END] and
    [F_MFA_MESSAGE_END] when a message ends (only a new HELO or EHLO resets
    the flags), so both are still set in the body of the second message.  There the filter's final dot arrives while the client is
    still sending: [smtp_end_body] goes ahead, asks the queue to commit and
    puts the session in [wait_queue_commit], with the read side armed.  The
    client then disconnects (or the timeout fires): [smtp_free] pops
    [wait_mfa_data] only, the session is gone, and [wait_queue_commit]
    still maps its id to the dead pointer, which the queue's answer then
    follows.  Every event of the run can happen when its turn comes. *)
Theorem disconnect_leaves_wait_queue_commit :
  can_happen filtering (second_body ++ [Io IO_DISCONNECTED 1]) = true
  /\ can_happen filtering (second_body ++ [Io IO_TIMEOUT 1]) = true
  /\ option_map (fun s => has (flags s) F_SMTP_MESSAGE_END)
       (session_at 1 (driven filtering first_message)) = Some true
  /\ option_map s_id (session_at 1 (driven filtering second_body)) = Some 7
  /\ option_map state (session_at 1 (driven filtering second_body)) = Some S_BODY
  /\ reading_at 1 (driven filtering second_body) = Some true
  /\ waiting wait_queue_commit 7 (driven filtering second_body) = Some 1
  /\ session_at 1 (driven filtering (second_body ++ [Io IO_DISCONNECTED 1])) = None
  /\ waiting wait_queue_commit 7 (driven filtering (second_body ++ [Io IO_DISCONNECTED 1]))
     = Some 1
  /\ session_at 1 (driven filtering (second_body ++ [Io IO_TIMEOUT 1])) = None
  /\ waiting wait_queue_commit 7 (driven filtering (second_body ++ [Io IO_TIMEOUT 1]))
     = Some 1
  /\ driven filtering
       (second_body ++ [Io IO_DISCONNECTED 1;
                        Imsg (IMSG_QUEUE_COMMIT_MESSAGE (queue 7 1 0))])
     = Crashed "session pointer is dangling".
Proof. vm_compute. repeat split; reflexivity. Qed.

(** ** X22: a session freed in the middle of a body *)

Lemma disposal_pops_wait_mfa_data_only_witness :
  wait (glob body_proc) wait_mfa_data !! s_id body_session = Some 1
  /\ has (flags body_session) F_KICK = false
  /\ exists g',
       smtp_io h env IO_TIMEOUT 1 body_session (glob body_proc) = Freed "timeout" g'
       /\ wait g' wait_mfa_data !! s_id body_session = None
       /\ forall t, t <> wait_mfa_data -> wait g' t = wait (glob body_proc) t.
Proof.
  assert (has (flags body_session) F_KICK = false) as Hk by (vm_compute; reflexivity).
  split; [vm_compute; reflexivity|]. split; [exact Hk|].
  assert (exists g', smtp_io h env IO_TIMEOUT 1 body_session (glob body_proc)
                     = Freed "timeout" g') as (g' & E)
    by (eexists; reflexivity).
  exists g'. split; [exact E|].
  assert ((exists evt, has (flags body_session) F_KICK = false
                       /\ smtp_io h env evt 1 body_session (glob body_proc)
                          = Freed "timeout" g')
          \/ (exists r, on_mfa_connect h env r 1 body_session (glob body_proc)
                        = Freed "timeout" g')) as Hev.
  { left. exists IO_TIMEOUT. split; [exact Hk | exact E]. }
  destruct (disposal_pops_wait_mfa_data_only h env 1 body_session (glob body_proc)
              "timeout" g' Hev) as (Hd & Ho & _).
  split; [exact Hd | exact Ho].
Defined.

(** ** C6: RSET before HELO *)

(** Right after the greeting (phase INIT), [RSET] is answered with the
    out-of-phase rejection. *)
Lemma rset_in_init_refused :
  option_map phase (session_at 1 (play (greeted plain) boot)) = Some PHASE_INIT
  /\ last_reply 1 (play (greeted plain ++ line "RSET" 1) boot)
     = ("XXX Command not allowed at this point." ++ CRLF)%string.
Proof. vm_compute. split; reflexivity. Qed.

Lemma out_of_phase_rejected_witness :
  state idle <> S_AUTH_INIT /\ state idle <> S_AUTH_USERNAME
  /\ state idle <> S_AUTH_PASSWORD
  /\ wrap (kickcount idle + 1) < SMTP_KICKTHRESHOLD
  /\ smtp_split "RSET" = ("RSET"%string, None)
  /\ smtp_lookup commands "RSET" = Some CMD_RSET
  /\ smtp_command h "RSET" 1 idle g0
     = Ok tt (set_iobuf (iobuf_xfqueue "XXX Command not allowed at this point."
                           (iobuf idle))
                (set_cmd "RSET" (set_kickcount (wrap (kickcount idle + 1)) idle))) g0.
Proof.
  assert (state idle <> S_AUTH_INIT) as H1 by discriminate.
  assert (state idle <> S_AUTH_USERNAME) as H2 by discriminate.
  assert (state idle <> S_AUTH_PASSWORD) as H3 by discriminate.
  assert (wrap (kickcount idle + 1) < SMTP_KICKTHRESHOLD) as H4 by reflexivity.
  repeat (split; [first [assumption | reflexivity]|]).
  destruct (out_of_phase_rejected h "RSET" 1 idle g0 "RSET" None CMD_RSET
              H1 H2 H3 H4 eq_refl eq_refl) as (_ & Hr).
  apply Hr; reflexivity.
Defined.

(** ** C7, C8, C9, C10 at concrete inputs *)


(** The session is kicked by the second command after an accepted
    recipient.  After MAIL FROM the counter is 1; forty-seven NOOPs and
    RCPT TO bring it to 49; the queue commits the recipient, which is
    answered [250 2.0.0 Recipient ok] and counted, and the counter is 48,
    not 0; one NOOP later it is 49, and the next NOOP frees the session
    with [smtp.kick] counted. *)
Lemma kick_two_commands_after_rcpt :
  option_map kickcount (session_at 1 (play (mailed plain "MAIL FROM:<a@b>") boot)) = Some 1
  /\ last_reply 1 (play rcpt_after_noops boot)
     = ("250 2.0.0 Recipient ok" ++ CRLF)%string
  /\ option_map rcptcount (session_at 1 (play rcpt_after_noops boot)) = Some 1
  /\ option_map kickcount (session_at 1 (play rcpt_after_noops boot)) = Some 48
  /\ option_map kickcount
       (session_at 1 (play (rcpt_after_noops ++ noop_rounds 1) boot)) = Some 49
  /\ session_at 1 (play (rcpt_after_noops ++ noop_rounds 1 ++ line "NOOP" 1) boot) = None
  /\ option_map (fun g => stats g !! "smtp.kick")
       (globals_of (play (rcpt_after_noops ++ noop_rounds 1 ++ line "NOOP" 1) boot))
     = Some (Some 1).
Proof. vm_compute. repeat split; reflexivity. Qed.

Lemma kick_exactly_at_threshold_witness :
  has (flags idle) F_KICK = false
  /\ (exists g', noops h env 50 1 idle g0 = Freed "kick" g'
                 /\ stats g' !! "smtp.kick"
                    = Some (default 0 (stats g0 !! "smtp.kick") + 1))
  /\ exists s',
       on_queue_commit_envelopes (queue 7 1 0) 1 (set_kickcount 49 idle) g0 = Ok tt s' g0
       /\ kickcount s' = 48.
Proof.
  split; [reflexivity|]. split.
  - destruct (kick_exactly_at_threshold h env "NOOP" 1 idle g0 eq_refl)
      as (_ & _ & _ & Hn & _).
    apply Hn; reflexivity.
  - assert (exists s', on_queue_commit_envelopes (queue 7 1 0) 1 (set_kickcount 49 idle) g0
                       = Ok tt s' g0) as (s' & E) by (eexists; reflexivity).
    exists s'. split; [exact E|].
    destruct (kick_exactly_at_threshold h env "NOOP" 1 (set_kickcount 49 idle) g0 eq_refl)
      as (_ & _ & _ & _ & Hp).
    destruct (Hp s' g0) as (_ & _ & _ & _ & _ & Hq).
    exact (Hq (queue 7 1 0) E).
Defined.

(** Three lines in [S_BODY] that the law as claimed gets wrong.  The lone
    dot with the next command behind it does not end the body: the session
    is refused and [F_SMTP_MESSAGE_END] stays clear.  After a short write
    (of [Hello]: four bytes fit after the header) the line [..x] is handled
    in [S_BODY] and nothing of it reaches the spool.  And a line that would take the message past
    the size limit sets [DS_PERMFAILURE] and is not written. *)
Lemma body_lines_not_stored :
  (option_map state (session_at 1 (play (in_body plain "MAIL FROM:<a@b>") boot))
   = Some S_BODY
   /\ last_reply 1 (play dot_then_noop boot)
      = ("500 5.0.0 Pipelining not supported" ++ CRLF)%string
   /\ option_map (fun s => has (flags s) F_SMTP_MESSAGE_END)
        (session_at 1 (play dot_then_noop boot)) = Some false)
  /\ (option_map state (session_at 1 (play body_on_short_spool boot)) = Some S_BODY
      /\ option_map strlen (spooled_at 1 (play body_on_short_spool boot)) = Some 127
      /\ option_map state (session_at 1 (play (body_on_short_spool ++ line "..x" 1) boot))
         = Some S_BODY
      /\ spooled_at 1 (play (body_on_short_spool ++ line "..x" 1) boot)
         = spooled_at 1 (play body_on_short_spool boot))
  /\ (state receiving = S_BODY
      /\ smtp_io_line h tight "..x" 1 receiving g0
         = Next (set_s_dstatus (DS_PERMFAILURE h) receiving) g0
      /\ ofile (set_s_dstatus (DS_PERMFAILURE h) receiving) = ofile receiving).
Proof. vm_compute. repeat split; reflexivity. Qed.

Lemma dot_stuffing_law_witness :
  (exists s' g',
     smtp_io_line h env "." 1 receiving g0 = Done (Live s' g')
     /\ has (flags s') F_SMTP_MESSAGE_END = true
     /\ ((ofile s' = Some blank /\ spool g' = spool g0)
         \/ (ofile s' = None /\ spool g' = spool g0 ++ [blank])))
  /\ cstr stuffed_8bit_line <> "."%string
  /\ smtp_io_line h env stuffed_8bit_line 1 receiving_7bit g0
     = Next (set_ofile
               (Some {| f_data := ("ix" ++ NL)%string; f_room := 1000000 - 3;
                        f_err := false |}) receiving_7bit) g0.
Proof.
  assert (cstr stuffed_8bit_line <> "."%string) as Hl by discriminate.
  split; [|split; [exact Hl|]].
  - destruct (dot_stuffing_law h env "." 1 receiving g0) as (Hd & _).
    exact (Hd eq_refl eq_refl eq_refl blank eq_refl eq_refl).
  - destruct (dot_stuffing_law h env stuffed_8bit_line 1 receiving_7bit g0) as (_ & Hd).
    assert (strlen (dot_unstuff (cstr stuffed_8bit_line)) + 1 <= SIZE_MAX - ftell blank)
      as H1 by (vm_compute; discriminate).
    assert (ftell blank + strlen (dot_unstuff (cstr stuffed_8bit_line)) + 1
            <= sc_maxsize env) as H2 by (vm_compute; discriminate).
    assert (strlen (dot_unstuff (cstr stuffed_8bit_line)) + 1 <= f_room blank) as H3
      by (vm_compute; discriminate).
    destruct (Hd Hl eq_refl blank eq_refl H1 H2 H3 (fun _ => eq_refl)) as (_ & Hio).
    apply Hio; reflexivity.
Defined.

Lemma failed_body_line_discarded_witness :
  has (s_dstatus receiving_failed) (DS_TEMPFAILURE h) = true
  /\ smtp_queue_data h env "Hi" 1 receiving_failed g0 = Ok tt receiving_failed g0.
Proof.
  split; [reflexivity|].
  apply (failed_body_line_discarded h env "Hi" 1 receiving_failed g0).
  left. reflexivity.
Defined.

End Concrete.

(** * Further properties of the session engine *)

(** ** Footprints *)

(** A body line changes neither the listener, nor the flags, nor the
    state. *)
Lemma smtp_body_line_frame H env line p s g a s' g' :
  smtp_body_line H env line p s g = Ok a s' g' ->
  listener s' = listener s /\ flags s' = flags s /\ state s' = state s.
Proof.
  unfold smtp_body_line. destruct (has (filtermask env) _).
  - unfold bind, get. destruct (_ <=? _); [discriminate|].
    intros [= _ <- _]. auto.
  - unfold smtp_queue_data, bind, get. destruct (has (s_dstatus s) _).
    { intros [= _ <- _]. auto. }
    destruct (ofile s) as [f|]; [|discriminate].
    destruct (_ || _).
    { intros [= _ <- _]. auto. }
    destruct (fprintf f _) as [f' n]. unfold modify.
    destruct (n =? _); intros [= _ <- _]; auto.
Qed.

(** A body line leaves the envelope as it is. *)
Lemma smtp_body_line_evp H env line p s g a s' g' :
  smtp_body_line H env line p s g = Ok a s' g' -> evp s' = evp s.
Proof.
  unfold smtp_body_line. destruct (has (filtermask env) _).
  - unfold bind, get. destruct (_ <=? _); [discriminate|].
    intros [= _ <- _]. reflexivity.
  - unfold smtp_queue_data, bind, get. destruct (has (s_dstatus s) _).
    { intros [= _ <- _]. reflexivity. }
    destruct (ofile s) as [f|]; [|discriminate].
    destruct (_ || _).
    { intros [= _ <- _]. reflexivity. }
    destruct (fprintf f _) as [f' n]. unfold modify.
    destruct (n =? _); intros [= _ <- _]; reflexivity.
Qed.

Section Footprint.

Context (P : Z -> imsg_out -> Prop) (S : smtp_state -> Prop) (F : Z -> Z -> Prop).

Hypothesis F_refl : forall x, F x x.
Hypothesis F_trans : forall x y z, F x y -> F y z -> F x z.

Lemma tidy_session_refl s : tidy_session S F s s.
Proof.
  unfold tidy_session. repeat split; auto.
  exists []. split; [now rewrite app_nil_r | constructor].
Qed.

Lemma tidy_session_trans s1 s2 s3 :
  tidy_session S F s1 s2 -> tidy_session S F s2 s3 -> tidy_session S F s1 s3.
Proof.
  intros (Hid & Hl & Hst & Hf & Hin & (r & Hr & Hrl) & Hio)
         (Hid' & Hl' & Hst' & Hf' & Hin' & (r' & Hr' & Hrl') & Hio').
  unfold tidy_session. repeat split; try congruence.
  - destruct Hst' as [Hst'|Hst']; [|now right].
    destruct Hst as [Hst|Hst]; [left; congruence | right; now rewrite Hst'].
  - eauto.
  - exists (r ++ r'). split; [now rewrite Hr', Hr, app_assoc | now apply Forall_app].
  - destruct Hio' as [Hio'|Hio']; [now left|].
    destruct Hio as [Hio|Hio]; [left; now rewrite Hio' | right; congruence].
Qed.

Lemma tidy_globals_refl id g : tidy_globals P id g g.
Proof.
  split; [reflexivity|]. exists []. split; [now rewrite app_nil_r | constructor].
Qed.

Lemma tidy_globals_trans id g1 g2 g3 :
  tidy_globals P id g1 g2 -> tidy_globals P id g2 g3 -> tidy_globals P id g1 g3.
Proof.
  intros (Hw & l & Hl & HP) (Hw' & l' & Hl' & HP'). split.
  - intros t k Hk. now rewrite Hw', Hw.
  - exists (l ++ l'). split; [now rewrite Hl', Hl, app_assoc | now apply Forall_app].
Qed.

Lemma tidy_refl s g : tidy P S F s g s g.
Proof. split; [apply tidy_session_refl | apply tidy_globals_refl]. Qed.

Lemma tidy_trans s1 g1 s2 g2 s3 g3 :
  tidy P S F s1 g1 s2 g2 -> tidy P S F s2 g2 s3 g3 -> tidy P S F s1 g1 s3 g3.
Proof.
  intros [Hs Hg] [Hs' Hg']. split; [eapply tidy_session_trans; eauto|].
  destruct Hs as (Hid & _). rewrite Hid in Hg'. eapply tidy_globals_trans; eauto.
Qed.

Lemma kept_ret id {A} (a : A) : kept P S F id (ret a).
Proof. intros p s g a' s' g' _ [= _ <- <-]. apply tidy_refl. Qed.

Lemma kept_get id : kept P S F id get.
Proof. intros p s g a' s' g' _ [= _ <- <-]. apply tidy_refl. Qed.

Lemma kept_getg id : kept P S F id getg.
Proof. intros p s g a' s' g' _ [= _ <- <-]. apply tidy_refl. Qed.

Lemma kept_fatalx id {A} msg : kept P S F id (@fatalx A msg).
Proof. intros p s g a' s' g' _; discriminate. Qed.

Lemma kept_bind id {A B} (m : M A) (k : A -> M B) :
  kept P S F id m -> (forall a, kept P S F id (k a)) -> kept P S F id (bind m k).
Proof.
  intros Hm Hk p s g b s' g' Hid. unfold bind.
  destruct (m p s g) as [a s1 g1|] eqn:E; [|discriminate].
  intros Hb. pose proof (Hm _ _ _ _ _ _ Hid E) as H1.
  eapply tidy_trans; [exact H1|]. eapply Hk; [|exact Hb].
  destruct H1 as ((Hid1 & _) & _). congruence.
Qed.

(** The continuation of [get] runs on the session it has been given. *)
Lemma kept_bind_get id {B} (k : smtp_session -> M B) :
  (forall s0, s_id s0 = id -> forall p g b s' g',
     k s0 p s0 g = Ok b s' g' -> tidy P S F s0 g s' g') ->
  kept P S F id (bind get k).
Proof. intros Hk p s g b s' g' Hid. unfold bind, get. apply Hk, Hid. Qed.

Lemma kept_modify id f :
  (forall s, tidy_session S F s (f s)) -> kept P S F id (modify f).
Proof.
  intros Hf p s g a s' g' _ [= _ <- <-]. split; [apply Hf | apply tidy_globals_refl].
Qed.

Lemma kept_tree_xset id t : kept P S F id (tree_xset t id).
Proof.
  intros p s g a s' g' Hid. unfold tree_xset.
  destruct (wait g t !! id); [discriminate|]. intros [= _ <- <-].
  split; [apply tidy_session_refl|]. split.
  - intros t' k Hk. cbn. unfold upd_tree. destruct (decide (t' = t)) as [->|]; [|reflexivity].
    apply lookup_insert_ne. congruence.
  - exists []. split; [now rewrite app_nil_r | constructor].
Qed.

Lemma kept_send id m : P id m -> kept P S F id (imsg_compose_event m).
Proof.
  intros Hm p s g a s' g' Hid [= _ <- <-]. split; [apply tidy_session_refl|]. split.
  - reflexivity.
  - exists [m]. split; [reflexivity|]. rewrite Hid. now constructor.
Qed.

Lemma kept_stat_increment id key n : kept P S F id (stat_increment key n).
Proof.
  intros p s g a s' g' _ [= _ <- <-]. split; [apply tidy_session_refl|]. split.
  - reflexivity.
  - exists []. split; [now rewrite app_nil_r | constructor].
Qed.

Lemma kept_spool id f : kept P S F id (modifyg (fun g => set_spool (spool g ++ [f]) g)).
Proof.
  intros p s g a s' g' _ [= _ <- <-]. split; [apply tidy_session_refl|]. split.
  - reflexivity.
  - exists []. split; [now rewrite app_nil_r | constructor].
Qed.

Lemma kept_io_reload id : kept P S F id io_reload.
Proof. apply kept_ret. Qed.

Lemma kept_smtp_reply id buf : kept P S F id (smtp_reply buf).
Proof.
  intros p s g a s' g' _. unfold smtp_reply.
  destruct (SMTP_LINE_MAX <=? strlen buf) eqn:Hhi; [discriminate|].
  destruct (strlen buf <? 4) eqn:Hlo; [discriminate|].
  intros [= _ <- <-]. split; [|apply tidy_globals_refl].
  unfold tidy_session. cbn. repeat split; auto.
  exists [(buf ++ CRLF)%string]. split; [reflexivity|].
  constructor; [|constructor]. exists buf. split; [reflexivity|].
  apply Z.leb_gt in Hhi. apply Z.ltb_ge in Hlo. lia.
Qed.


Lemma kept_bind_get' id {B} (k : smtp_session -> M B) :
  (forall s0, s_id s0 = id -> kept P S F id (k s0)) -> kept P S F id (bind get k).
Proof. intros Hk. apply kept_bind_get. intros s0 Hid p g b s' g'. now apply Hk. Qed.

(** What the code may send, enter and change. *)
Hypothesis P_connect : forall id e, P id (Q_MFA_CONNECT id e).
Hypothesis P_helo : forall id e, P id (Q_MFA_HELO id e).
Hypothesis P_mail : forall id e, P id (Q_MFA_MAIL id e).
Hypothesis P_rcpt : forall id e, P id (Q_MFA_RCPT id e).
Hypothesis P_rset : forall id e, P id (Q_MFA_RSET id e).
Hypothesis P_dataline : forall id b, P id (Q_MFA_DATALINE id b).
Hypothesis P_create : forall id e, P id (Q_QUEUE_CREATE_MESSAGE id e).
Hypothesis P_file : forall id e, P id (Q_QUEUE_MESSAGE_FILE id e).
Hypothesis P_commit : forall id e, P id (Q_QUEUE_COMMIT_MESSAGE id e).
Hypothesis P_auth : forall id a, auth_id a = id -> P id (Q_PARENT_AUTHENTICATE a).

Hypothesis S_connected : S S_CONNECTED.
Hypothesis S_tls : S S_TLS.
Hypothesis S_helo : S S_HELO.
Hypothesis S_auth_init : S S_AUTH_INIT.
Hypothesis S_auth_username : S S_AUTH_USERNAME.
Hypothesis S_auth_password : S S_AUTH_PASSWORD.
Hypothesis S_body : S S_BODY.
Hypothesis S_quit : S S_QUIT.

Hypothesis F_helo : forall x, F x (Z.land x (Z.lor F_SECURE F_AUTHENTICATED)).
Hypothesis F_ehlo : forall x, F x (Z.lor x F_EHLO).
Hypothesis F_8bit : forall x, F x (Z.lor x F_8BITMIME).
Hypothesis F_7bit : forall x, F x (Z.land x (Z.lnot F_8BITMIME)).
Hypothesis F_kick : forall x, F x (Z.lor x F_KICK).
Hypothesis F_smtp_end : forall x, F x (Z.lor x F_SMTP_MESSAGE_END).
Hypothesis F_mfa_end : forall x, F x (Z.lor x F_MFA_MESSAGE_END).
Hypothesis F_secure : forall x, F x (Z.lor x F_SECURE).
Hypothesis F_auth : forall x, F x (Z.lor x F_AUTHENTICATED).

(** A setter stays within the session's footprint. *)
Ltac session_leaf :=
  intros; unfold tidy_session, set_hostnames;
  cbn [s_id iobuf io listener ss hostname flags phase state auth evp cmd kickcount
       mailcount rcptcount destcount ofile datalen s_dstatus
       set_iobuf set_io set_hostname set_flags set_phase set_state set_auth set_evp
       set_cmd set_kickcount set_mailcount set_rcptcount set_destcount set_ofile
       set_datalen set_s_dstatus set_auth_user set_auth_pass set_auth_id
       io_set_read io_set_write io_start_tls
       ib_in ib_out iobuf_xfqueue iobuf_normalize io_mode io_ssl];
  repeat match goal with |- _ /\ _ => split end;
  try first [ reflexivity
            | solve [auto]
            | left; reflexivity
            | right; reflexivity
            | right; solve [auto]
            | exists []; split; [symmetry; apply app_nil_r | constructor] ].

Lemma tidy_set_helo H c args s : tidy_session S F s (set_helo H c args s).
Proof.
  unfold set_helo. destruct c; session_leaf.
  eapply F_trans; [apply F_helo|]. eapply F_trans; [apply F_ehlo | apply F_8bit].
Qed.

(** Functions whose footprint is known already. *)
Ltac kept_known := fail.

(** Splits a computation along its binds and branches. *)
Ltac kept_step :=
  match goal with
  | |- kept _ _ _ _ (bind get _) =>
      apply kept_bind_get';
      let s := fresh "s" in let Hid := fresh "Hid" in
      intros s Hid; cbv beta; rewrite ?Hid
  | |- kept _ _ _ _ (bind _ _) => apply kept_bind; [|intros ?]
  | |- kept _ _ _ _ (if ?b then _ else _) => destruct b
  | |- kept _ _ _ _ (match ?x with _ => _ end) => destruct x
  | |- kept _ _ _ _ (modify (set_helo _ _ _)) => apply kept_modify; apply tidy_set_helo
  | |- kept _ _ _ _ (modify _) => apply kept_modify; session_leaf
  | |- kept _ _ _ _ (imsg_compose_event _) => apply kept_send; solve [auto]
  | |- kept _ _ _ _ (ret _) => apply kept_ret
  | |- kept _ _ _ _ (fatalx _) => apply kept_fatalx
  | |- kept _ _ _ _ (smtp_reply _) => apply kept_smtp_reply
  | |- kept _ _ _ _ (tree_xset _ _) => apply kept_tree_xset
  | |- kept _ _ _ _ (stat_increment _ _) => apply kept_stat_increment
  | |- kept _ _ _ _ io_reload => apply kept_io_reload
  | |- kept _ _ _ _ get => apply kept_get
  | |- kept _ _ _ _ getg => apply kept_getg
  | |- kept _ _ _ _ _ => kept_known
  end.

Ltac kept_tac := repeat kept_step.

Lemma kept_smtp_enter_state id st :
  st <> S_CONNECTED -> S st -> kept P S F id (smtp_enter_state st).
Proof.
  intros Hc Hst. unfold smtp_enter_state. apply kept_bind.
  - apply kept_modify. session_leaf.
  - intros _. destruct st; try apply kept_ret. congruence.
Qed.

Lemma kept_smtp_enter_connected id : kept P S F id (smtp_enter_state S_CONNECTED).
Proof. unfold smtp_enter_state. kept_tac. Qed.

Lemma kept_or_dstatus id bit : kept P S F id (or_dstatus bit).
Proof. unfold or_dstatus. kept_tac. Qed.

Ltac kept_known ::=
  first [ apply kept_smtp_enter_state; [discriminate | solve [auto]]
        | apply kept_or_dstatus ].

Lemma kept_smtp_queue_data id H env line : kept P S F id (smtp_queue_data H env line).
Proof. unfold smtp_queue_data. kept_tac. Qed.

Lemma kept_smtp_end_body id H : kept P S F id (smtp_end_body H).
Proof. unfold smtp_end_body. kept_tac; apply kept_spool. Qed.

Lemma kept_smtp_parse_mail_args_loop id fuel args :
  kept P S F id (smtp_parse_mail_args_loop fuel args).
Proof.
  revert args; induction fuel as [|fuel IH]; intros args;
    cbn [smtp_parse_mail_args_loop]; kept_tac; apply IH.
Qed.

(** The credentials that leave carry the session's id. *)
Lemma kept_smtp_authenticate id : kept P S F id smtp_authenticate.
Proof.
  intros p s g a s' g' Hid. unfold smtp_authenticate, bind, modify, get,
    imsg_compose_event, modifyg, tree_xset.
  cbn [s_id set_auth_id set_auth_pass set_auth wait set_sent].
  destruct (wait g wait_parent_auth !! s_id s) eqn:Hw; [discriminate|].
  intros [= _ <- <-]. split; [session_leaf|]. split.
  - intros t k Hk. cbn. unfold upd_tree.
    destruct (decide (t = wait_parent_auth)) as [->|]; [|reflexivity].
    apply lookup_insert_ne. congruence.
  - eexists. split; [reflexivity|]. constructor; [|constructor].
    apply P_auth. reflexivity.
Qed.

Lemma kept_smtp_auth_abort id : kept P S F id smtp_auth_abort.
Proof. unfold smtp_auth_abort. kept_tac. Qed.

Ltac kept_known ::=
  first [ apply kept_smtp_enter_state; [discriminate | solve [auto]]
        | apply kept_or_dstatus
        | apply kept_smtp_queue_data
        | apply kept_smtp_end_body
        | apply kept_smtp_parse_mail_args_loop
        | apply kept_smtp_authenticate
        | apply kept_smtp_auth_abort ].

Lemma kept_smtp_auth_plain_decode id H arg :
  kept P S F id (smtp_auth_plain_decode H arg).
Proof. unfold smtp_auth_plain_decode. kept_tac. Qed.

Lemma kept_smtp_rfc4954_auth_plain id H arg :
  kept P S F id (smtp_rfc4954_auth_plain H arg).
Proof.
  unfold smtp_rfc4954_auth_plain. kept_tac; apply kept_smtp_auth_plain_decode.
Qed.

Lemma kept_smtp_rfc4954_auth_login id H arg :
  kept P S F id (smtp_rfc4954_auth_login H arg).
Proof. unfold smtp_rfc4954_auth_login. kept_tac. Qed.

Lemma kept_cmd_helo id H c args : kept P S F id (cmd_helo H c args).
Proof.
  unfold cmd_helo. kept_tac.
Qed.

Lemma kept_cmd_starttls id args : kept P S F id (cmd_starttls args).
Proof. unfold cmd_starttls. kept_tac. Qed.

Lemma kept_cmd_auth id H args : kept P S F id (cmd_auth H args).
Proof.
  unfold cmd_auth. kept_tac;
    first [apply kept_smtp_rfc4954_auth_plain | apply kept_smtp_rfc4954_auth_login].
Qed.

Lemma kept_cmd_mail_from id H args : kept P S F id (cmd_mail_from H args).
Proof. unfold cmd_mail_from, smtp_parse_mail_args. kept_tac. Qed.

Lemma kept_cmd_rcpt_to id H args : kept P S F id (cmd_rcpt_to H args).
Proof. unfold cmd_rcpt_to. kept_tac. Qed.

Lemma kept_cmd_rset id : kept P S F id cmd_rset.
Proof. unfold cmd_rset. kept_tac. Qed.

Lemma kept_cmd_data id : kept P S F id cmd_data.
Proof. unfold cmd_data. kept_tac. Qed.

Lemma kept_cmd_help id : kept P S F id cmd_help.
Proof. unfold cmd_help. kept_tac. Qed.

Lemma kept_smtp_dispatch id H c args : kept P S F id (smtp_dispatch H c args).
Proof.
  destruct c as [[]|]; cbn [smtp_dispatch];
    first [ apply kept_cmd_helo | apply kept_cmd_starttls | apply kept_cmd_auth
          | apply kept_cmd_mail_from | apply kept_cmd_rcpt_to | apply kept_cmd_rset
          | apply kept_cmd_data | apply kept_cmd_help | kept_tac ].
Qed.

Lemma kept_smtp_command id H line : kept P S F id (smtp_command H line).
Proof.
  unfold smtp_command. kept_tac;
    first [ apply kept_smtp_rfc4954_auth_plain | apply kept_smtp_rfc4954_auth_login
          | apply kept_smtp_dispatch ].
Qed.



Ltac kept_known ::=
  first [ apply kept_smtp_enter_state; [discriminate | solve [auto]]
        | apply kept_smtp_enter_connected
        | apply kept_or_dstatus
        | apply kept_smtp_queue_data
        | apply kept_smtp_end_body
        | apply kept_smtp_command
        | apply kept_spool ].

Lemma kept_line_too_long id : kept P S F id line_too_long.
Proof. unfold line_too_long. kept_tac. Qed.

Lemma kept_pipelining_not_supported id : kept P S F id pipelining_not_supported.
Proof. unfold pipelining_not_supported. kept_tac. Qed.

Lemma kept_smtp_body_line id H env line : kept P S F id (smtp_body_line H env line).
Proof. unfold smtp_body_line. kept_tac. Qed.

Lemma kept_smtp_end_of_body id H : kept P S F id (smtp_end_of_body H).
Proof. unfold smtp_end_of_body. kept_tac. Qed.

Lemma kept_smtp_io_tlsready id H env : kept P S F id (smtp_io_tlsready H env).
Proof. unfold smtp_io_tlsready. kept_tac. Qed.

Lemma kept_on_dns_ptr id H dns : kept P S F id (on_dns_ptr H dns).
Proof. unfold on_dns_ptr. kept_tac. Qed.

Lemma kept_on_mfa_helo id H env r : kept P S F id (on_mfa_helo H env r).
Proof. unfold on_mfa_helo. kept_tac. Qed.

Lemma kept_on_mfa_mail id H r : kept P S F id (on_mfa_mail H r).
Proof. unfold on_mfa_mail. kept_tac. Qed.

Lemma kept_on_mfa_rcpt id H r : kept P S F id (on_mfa_rcpt H r).
Proof. unfold on_mfa_rcpt. kept_tac. Qed.

Lemma kept_on_mfa_dataline_end id H : kept P S F id (on_mfa_dataline_end H).
Proof. unfold on_mfa_dataline_end. kept_tac. Qed.

Lemma kept_on_queue_create_message id q : kept P S F id (on_queue_create_message q).
Proof. unfold on_queue_create_message. kept_tac. Qed.

Lemma kept_on_queue_message_file id H env q fd :
  kept P S F id (on_queue_message_file H env q fd).
Proof. unfold on_queue_message_file. kept_tac. Qed.

Lemma kept_on_queue_submit_envelope id H q : kept P S F id (on_queue_submit_envelope H q).
Proof. unfold on_queue_submit_envelope. kept_tac. Qed.

Lemma kept_on_queue_commit_envelopes id q : kept P S F id (on_queue_commit_envelopes q).
Proof. unfold on_queue_commit_envelopes. kept_tac. Qed.

Lemma kept_on_queue_commit_message id H q : kept P S F id (on_queue_commit_message H q).
Proof. unfold on_queue_commit_message. kept_tac. Qed.

Lemma kept_on_parent_authenticate id a : kept P S F id (on_parent_authenticate a).
Proof. unfold on_parent_authenticate. kept_tac. Qed.


(** *** From session code to whole events *)

Hypothesis P_remove : forall id msgid, P id (Q_QUEUE_REMOVE_MESSAGE msgid).

Lemma loose_of_tidy s s' : tidy_session S F s s' -> loose_session S F s s'.
Proof.
  intros (Hid & Hl & Hst & Hf & Hin & Hr & _). unfold loose_session.
  repeat split; auto. exists EmptyString. now rewrite Hin.
Qed.

Lemma loose_session_refl s : loose_session S F s s.
Proof. apply loose_of_tidy, tidy_session_refl; auto. Qed.

Lemma loose_session_trans s1 s2 s3 :
  loose_session S F s1 s2 -> loose_session S F s2 s3 -> loose_session S F s1 s3.
Proof.
  intros (Hid & Hl & Hst & Hf & (pre & Hin) & (r & Hr & Hrl))
         (Hid' & Hl' & Hst' & Hf' & (pre' & Hin') & (r' & Hr' & Hrl')).
  unfold loose_session. repeat split; try congruence.
  - destruct Hst' as [Hst'|Hst']; [|now right].
    destruct Hst as [Hst|Hst]; [left; congruence | right; now rewrite Hst'].
  - eauto.
  - exists (pre ++ pre')%string. now rewrite Hin, Hin', app_assoc_string.
  - exists (r ++ r'). split; [now rewrite Hr', Hr, app_assoc | now apply Forall_app].
Qed.

Lemma tidy_event_step s g s1 g1 o :
  loose_session S F s s1 -> tidy_globals P (s_id s) g g1 ->
  tidy_event P S F s1 g1 o -> tidy_event P S F s g o.
Proof.
  intros Hs Hg. pose proof Hs as (Hid & _). destruct o as [s' g'|reason g'|msg]; cbn.
  - intros [Hs' Hg']. rewrite Hid in Hg'. split.
    + eapply loose_session_trans; eauto.
    + eapply tidy_globals_trans; eauto.
  - rewrite Hid. intros Hg'. eapply tidy_globals_trans; eauto.
  - auto.
Qed.

Lemma tidy_event_run (m : M unit) p s g :
  kept P S F (s_id s) m -> tidy_event P S F s g (run m p s g).
Proof.
  intros Hm. unfold run. destruct (m p s g) as [[] s' g'|] eqn:E; cbn; [|exact I].
  destruct (Hm _ _ _ _ _ _ eq_refl E) as [Hs Hg]. split; [now apply loose_of_tidy | exact Hg].
Qed.

(** [smtp_free] pops the session's own id and may ask for the removal of
    its message. *)
Lemma smtp_free_tidy_if H s reason g :
  (evp_id (evp s) <> 0 ->
   P (s_id s) (Q_QUEUE_REMOVE_MESSAGE (evpid_to_msgid H (evp_id (evp s))))) ->
  exists g', smtp_free H s reason g = Freed reason g' /\ tidy_globals P (s_id s) g g'.
Proof.
  intros Hrm. unfold smtp_free. eexists. split; [reflexivity|].
  set (g1 := snd (tree_pop wait_mfa_data (s_id s) g)).
  assert (tidy_globals P (s_id s) g g1) as H1.
  { subst g1. split.
    - intros t k Hk. cbn. unfold upd_tree.
      destruct (decide (t = wait_mfa_data)) as [->|]; [|reflexivity].
      apply lookup_delete_ne. congruence.
    - exists []. split; [now rewrite app_nil_r | constructor]. }
  clearbody g1. eapply tidy_globals_trans; [exact H1|]. clear H1. split.
  - intros t k _.
    destruct (_ && has _ (F_STARTTLS H)), (_ && has _ (F_SMTPS H)), (ofile s),
      (evp_id (evp s) =? 0); reflexivity.
  - destruct (evp_id (evp s) =? 0) eqn:Hz.
    + exists []. split; [|constructor]. rewrite app_nil_r.
      destruct (_ && has _ (F_STARTTLS H)), (_ && has _ (F_SMTPS H)), (ofile s);
        reflexivity.
    + apply Z.eqb_neq in Hz.
      eexists [_]. split; [|constructor; [exact (Hrm Hz) | constructor]].
      destruct (_ && has _ (F_STARTTLS H)), (_ && has _ (F_SMTPS H)), (ofile s);
        reflexivity.
Qed.

Lemma tidy_event_free_if H s reason g :
  (evp_id (evp s) <> 0 ->
   P (s_id s) (Q_QUEUE_REMOVE_MESSAGE (evpid_to_msgid H (evp_id (evp s))))) ->
  tidy_event P S F s g (smtp_free H s reason g).
Proof.
  intros Hrm. destruct (smtp_free_tidy_if H s reason g Hrm) as (g' & -> & Hg). exact Hg.
Qed.

Lemma tidy_event_free H s reason g : tidy_event P S F s g (smtp_free H s reason g).
Proof. apply tidy_event_free_if. intros _. apply P_remove. Qed.

(** Taking a line off the buffer consumes input from its front. *)
Lemma loose_getline s line len ib :
  iobuf_getline (iobuf s) = Some (line, len, ib) -> loose_session S F s (set_iobuf ib s).
Proof.
  intros Hget. destruct (iobuf_getline_spec _ _ _ _ Hget) as (_ & _ & Ho & Hin).
  unfold loose_session. cbn [s_id listener state flags iobuf set_iobuf].
  repeat split; auto.
  - destruct Hin as [Hin|Hin]; rewrite Hin.
    + exists (line ++ String LF EmptyString)%string. now rewrite app_assoc_string.
    + exists (line ++ String CR (String LF EmptyString))%string.
      now rewrite app_assoc_string.
  - exists []. split; [now rewrite app_nil_r, Ho | constructor].
Qed.

(** The loop of [IO_DATAIN], for sessions of a kind [C] that depends on
    the listener, the flags and the state only, given the footprint of
    [smtp_command] on such sessions. *)
Section Datain.

Context (H : smtpd_h) (env : smtpd) (C : smtp_session -> Prop).

Hypothesis C_frame : forall s1 s2,
  listener s2 = listener s1 -> flags s2 = flags s1 -> state s2 = state s1 ->
  evp s2 = evp s1 -> C s1 -> C s2.

Hypothesis command_kept : forall line p s g a s' g',
  C s -> smtp_command H line p s g = Ok a s' g' -> tidy P S F s g s' g'.

(** A session that a command leaves marked for the kick may ask for the
    removal of the message it holds. *)
Hypothesis command_remove : forall line p s g a s' g',
  C s -> smtp_command H line p s g = Ok a s' g' -> evp_id (evp s') <> 0 ->
  P (s_id s') (Q_QUEUE_REMOVE_MESSAGE (evpid_to_msgid H (evp_id (evp s')))).

Lemma smtp_io_line_tidy_if line p s g :
  C s ->
  match smtp_io_line H env line p s g with
  | Next s' g' => C s' /\ tidy P S F s g s' g'
  | Done o => tidy_event P S F s g o
  end.
Proof.
  intros HC. unfold smtp_io_line. destruct (_ && _).
  { destruct (smtp_body_line H env line p s g) as [[] s' g'|] eqn:E; [|exact I].
    split; [|exact (kept_smtp_body_line _ H env line _ _ _ _ _ _ eq_refl E)].
    destruct (smtp_body_line_frame _ _ _ _ _ _ _ _ _ E) as (Hl & Hf & Hst).
    pose proof (smtp_body_line_evp _ _ _ _ _ _ _ _ _ E) as He.
    now apply (C_frame s s'). }
  destruct (negb _).
  { apply tidy_event_run, kept_pipelining_not_supported. }
  destruct (bool_decide _).
  { apply tidy_event_run, kept_smtp_end_of_body. }
  set (s1 := io_set_write _).
  assert (tidy_session S F s s1) as Hs1 by (subst s1; session_leaf).
  assert (C s1) as HC1 by (apply (C_frame s s1); auto).
  pose proof Hs1 as (Hid1 & _).
  destruct (smtp_command H (cmd s1) p s1 g) as [[] s' g'|] eqn:E; [|exact I].
  pose proof (command_kept _ _ _ _ _ _ _ HC1 E) as [Hs' Hg'].
  rewrite Hid1 in Hg'.
  destruct (has (flags s') F_KICK).
  - destruct (smtp_free_tidy_if H s' "kick" g' (command_remove _ _ _ _ _ _ _ HC1 E))
      as (g2 & -> & Hg2). cbn.
    destruct Hs' as (Hid' & _). rewrite Hid', Hid1 in Hg2.
    eapply tidy_globals_trans; eauto.
  - cbn. split; [|exact Hg'].
    apply loose_of_tidy. eapply tidy_session_trans; eauto.
Qed.

Lemma smtp_io_nextline_tidy_if p s g :
  C s ->
  match smtp_io_nextline H env p s g with
  | Next s' g' => C s' /\ loose_session S F s s' /\ tidy_globals P (s_id s) g g'
  | Done o => tidy_event P S F s g o
  end.
Proof.
  intros HC. unfold smtp_io_nextline.
  destruct (iobuf_getline (iobuf s)) as [[[line len] ib]|] eqn:Hget.
  2:{ destruct (_ <=? _).
      - apply tidy_event_run, kept_line_too_long.
      - cbn. split; [|apply tidy_globals_refl]. apply loose_of_tidy. session_leaf. }
  pose proof (loose_getline _ _ _ _ Hget) as Hl.
  destruct (_ <=? _).
  { eapply tidy_event_step; [exact Hl | apply tidy_globals_refl |].
    apply tidy_event_run, kept_line_too_long. }
  assert (C (set_iobuf ib s)) as HC0 by (apply (C_frame s); auto).
  pose proof (smtp_io_line_tidy_if line p (set_iobuf ib s) g HC0) as Hline.
  destruct (smtp_io_line H env line p (set_iobuf ib s) g) as [s' g'|o].
  - destruct Hline as (HC' & Hs' & Hg'). split; [exact HC'|]. split; [|exact Hg'].
    eapply loose_session_trans; [exact Hl | now apply loose_of_tidy].
  - eapply tidy_event_step; [exact Hl | apply tidy_globals_refl | exact Hline].
Qed.

Lemma smtp_io_datain_loop_tidy_if fuel p : forall s g,
  C s -> tidy_event P S F s g (smtp_io_datain_loop H env fuel p s g).
Proof.
  induction fuel as [|fuel IH]; intros s g HC; cbn [smtp_io_datain_loop];
    pose proof (smtp_io_nextline_tidy_if p s g HC) as Hn;
    destruct (smtp_io_nextline H env p s g) as [s1 g1|o]; auto.
  - destruct Hn as (_ & Hs & Hg). split; assumption.
  - destruct Hn as (HC1 & Hs & Hg). eapply tidy_event_step; eauto.
Qed.

End Datain.

(** The same for every session. *)
Lemma smtp_io_datain_tidy H env p s g :
  tidy_event P S F s g (smtp_io H env IO_DATAIN p s g).
Proof.
  apply (smtp_io_datain_loop_tidy_if H env (fun _ => True)); auto.
  intros line p0 s0 g0 a s' g' _ E.
  exact (kept_smtp_command _ H line _ _ _ _ _ _ eq_refl E).
Qed.

(** The events that take no input and end no handshake, for a session
    that may ask for the removal of the message it holds. *)
Lemma smtp_io_idle_tidy_if H env evt p s g :
  (evp_id (evp s) <> 0 ->
   P (s_id s) (Q_QUEUE_REMOVE_MESSAGE (evpid_to_msgid H (evp_id (evp s))))) ->
  evt <> IO_TLSREADY -> evt <> IO_DATAIN ->
  tidy_event P S F s g (smtp_io H env evt p s g).
Proof.
  intros Hrm Hevt Hevt'.
  destruct evt; cbn [smtp_io]; try (apply tidy_event_free_if; exact Hrm); try exact I;
    try congruence.
  destruct (bool_decide (state s = S_QUIT)); [apply tidy_event_free_if; exact Hrm|].
  destruct (bool_decide _); cbn; (split; [|apply tidy_globals_refl]);
    unfold loose_session; cbn; repeat split; auto;
    first [ exists EmptyString; reflexivity
          | exists []; split; [now rewrite app_nil_r | constructor] ].
Qed.

Lemma smtp_io_idle_tidy H env evt p s g :
  evt <> IO_TLSREADY -> evt <> IO_DATAIN ->
  tidy_event P S F s g (smtp_io H env evt p s g).
Proof. apply smtp_io_idle_tidy_if. intros _. apply P_remove. Qed.

(** An I/O event other than the end of the TLS handshake. *)
Lemma smtp_io_tidy H env evt p s g :
  evt <> IO_TLSREADY -> tidy_event P S F s g (smtp_io H env evt p s g).
Proof.
  intros Hevt. destruct evt; try (apply smtp_io_idle_tidy; discriminate).
  - congruence.
  - apply smtp_io_datain_tidy.
Qed.

Lemma smtp_io_tlsready_tidy H env p s g :
  tidy_event P S F s g (smtp_io H env IO_TLSREADY p s g).
Proof. cbn [smtp_io]. apply tidy_event_run, kept_smtp_io_tlsready. Qed.

Lemma on_mfa_connect_tidy_if H env r p s g :
  (evp_id (evp s) <> 0 ->
   P (s_id s) (Q_QUEUE_REMOVE_MESSAGE (evpid_to_msgid H (evp_id (evp s))))) ->
  tidy_event P S F s g (on_mfa_connect H env r p s g).
Proof.
  intros Hrm.
  unfold on_mfa_connect. destruct (negb _); [apply tidy_event_free_if; exact Hrm|].
  destruct (has _ _).
  - cbn. split; [|apply tidy_globals_refl].
    unfold loose_session; cbn; repeat split; auto;
      first [ exists EmptyString; reflexivity
            | exists []; split; [now rewrite app_nil_r | constructor] ].
  - apply tidy_event_run. kept_tac.
Qed.

Lemma on_mfa_connect_tidy H env r p s g :
  tidy_event P S F s g (on_mfa_connect H env r p s g).
Proof. apply on_mfa_connect_tidy_if. intros _. apply P_remove. Qed.

(** *** From events to the process *)

Lemma resume_tidy key p P0 g1 body P' :
  (forall s, heap P0 !! p = Some s -> tidy_event P S F s g1 (body p s g1)) ->
  (forall t k, k <> key -> wait g1 t !! k = wait (glob P0) t !! k) ->
  sent g1 = sent (glob P0) ->
  resume p P0 g1 body = Running P' -> tidy_proc P S F key P0 P'.
Proof.
  intros Hbody Hw Hs. unfold resume.
  destruct (heap P0 !! p) as [s|] eqn:Hp; [|discriminate].
  specialize (Hbody s eq_refl). destruct (body p s g1) as [s' g'|reason g'|msg]; cbn in *;
    [| |discriminate]; intros [= <-]; split.
  - intros q s1. cbn. destruct (decide (q = p)) as [->|Hq].
    + rewrite lookup_insert_eq. intros [= <-]. exists s. tauto.
    + rewrite lookup_insert_ne by congruence. intros Hq1. exists s1.
      split; [exact Hq1 | apply loose_session_refl].
  - right. exists p, s. split; [exact Hp|]. destruct Hbody as (_ & Hg & l & Hl & HP).
    cbn. split; [intros q Hq; now apply lookup_insert_ne|].
    split; [|exists l; split; [congruence | exact HP]].
    intros t k Hk Hks. now rewrite Hg, Hw.
  - intros q s1. cbn. destruct (decide (q = p)) as [->|Hq].
    + rewrite lookup_delete_eq. discriminate.
    + rewrite lookup_delete_ne by congruence. intros Hq1. exists s1.
      split; [exact Hq1 | apply loose_session_refl].
  - right. exists p, s. split; [exact Hp|]. destruct Hbody as (Hg & l & Hl & HP).
    cbn. split; [intros q Hq; now apply lookup_delete_ne|].
    split; [|exists l; split; [congruence | exact HP]].
    intros t k Hk Hks. now rewrite Hg, Hw.
Qed.

Lemma with_xpop_tidy t key P0 body P' :
  (forall p s g, tidy_event P S F s g (body p s g)) ->
  with_xpop t key P0 body = Running P' -> tidy_proc P S F key P0 P'.
Proof.
  intros Hbody. unfold with_xpop, tree_pop.
  destruct (wait (glob P0) t !! key) as [p|]; [|discriminate].
  apply resume_tidy; auto.
  intros t' k Hk. cbn. unfold upd_tree. destruct (decide (t' = t)) as [->|]; [|reflexivity].
  apply lookup_delete_ne. congruence.
Qed.

Lemma with_xget_tidy t key P0 body P' :
  (forall p s g, tidy_event P S F s g (body p s g)) ->
  with_xget t key P0 body = Running P' -> tidy_proc P S F key P0 P'.
Proof.
  intros Hbody. unfold with_xget, tree_get.
  destruct (wait (glob P0) t !! key) as [p|]; [|discriminate].
  apply resume_tidy; auto.
Qed.

(** A reply other than the parent's verdict on credentials. *)
Lemma smtp_session_imsg_tidy H env m P0 P' :
  (forall a, m <> IMSG_PARENT_AUTHENTICATE a) ->
  smtp_session_imsg H env m P0 = Running P' -> tidy_proc P S F (imsg_key m) P0 P'.
Proof.
  intros Hm. destruct m; cbn [smtp_session_imsg imsg_key];
    try (apply with_xpop_tidy || apply with_xget_tidy); intros;
    try (apply tidy_event_run);
    try first [ apply kept_on_dns_ptr | apply kept_on_mfa_helo | apply kept_on_mfa_mail
              | apply kept_on_mfa_rcpt | apply kept_on_queue_create_message
              | apply kept_on_queue_message_file | apply kept_on_queue_submit_envelope
              | apply kept_on_queue_commit_envelopes | apply kept_on_queue_commit_message
              | apply on_mfa_connect_tidy ].
  - revert H0. destruct (strcmp (mfa_u_buffer r) "." =? 0).
    + unfold tree_pop. destruct (wait (glob P0) wait_mfa_data !! mfa_reqid r) as [p|].
      * apply resume_tidy.
        -- intros s _. apply tidy_event_run, kept_on_mfa_dataline_end.
        -- intros t' k Hk. cbn. unfold upd_tree.
           destruct (decide (t' = wait_mfa_data)) as [->|]; [|reflexivity].
           apply lookup_delete_ne. congruence.
        -- reflexivity.
      * intros [= <-]. split; [|now left]. intros q s1 Hq. exists s1.
        split; [exact Hq | apply loose_session_refl].
    + unfold tree_get. destruct (wait (glob P0) wait_mfa_data !! mfa_reqid r) as [p|].
      * apply resume_tidy; auto.
        intros s _. apply tidy_event_run, kept_smtp_queue_data.
      * intros [= <-]. split; [|now left]. intros q s1 Hq. exists s1.
        split; [exact Hq | apply loose_session_refl].
  - exfalso. eapply Hm. reflexivity.
  - discriminate.
Qed.

Lemma smtp_session_imsg_auth_tidy H env a P0 P' :
  smtp_session_imsg H env (IMSG_PARENT_AUTHENTICATE a) P0 = Running P' ->
  tidy_proc P S F (auth_id a) P0 P'.
Proof.
  cbn [smtp_session_imsg]. apply with_xpop_tidy. intros.
  apply tidy_event_run, kept_on_parent_authenticate.
Qed.

End Footprint.

(** ** Each session keeps to itself *)

(** *** Commands give a session no other message *)

Lemma same_msg_refl s : same_msg s s.
Proof. now left. Qed.

Lemma same_msg_trans s1 s2 s3 : same_msg s1 s2 -> same_msg s2 s3 -> same_msg s1 s3.
Proof. unfold same_msg. intros [E1|E1] [E2|E2]; rewrite ?E2, ?E1; auto. Qed.

Lemma calm_ret {A} (a : A) : calm (ret a).
Proof. intros p s g a' s' g' [= _ <- _]. apply same_msg_refl. Qed.

Lemma calm_bind {A B} (m : M A) (k : A -> M B) :
  calm m -> (forall a, calm (k a)) -> calm (bind m k).
Proof.
  intros Hm Hk p s g b s' g'. unfold bind.
  destruct (m p s g) as [a s1 g1|] eqn:E; [|discriminate].
  intros Hb. eapply same_msg_trans; [eapply Hm, E | eapply Hk, Hb].
Qed.

Lemma calm_get : calm get.
Proof. intros p s g a s' g' [= _ <- _]. apply same_msg_refl. Qed.

Lemma calm_getg : calm getg.
Proof. intros p s g a s' g' [= _ <- _]. apply same_msg_refl. Qed.

Lemma calm_fatalx {A} msg : calm (@fatalx A msg).
Proof. intros p s g a s' g'; discriminate. Qed.

Lemma calm_modify f : (forall s, same_msg s (f s)) -> calm (modify f).
Proof. intros Hf p s g a s' g' [= _ <- _]. apply Hf. Qed.

Lemma calm_modifyg f : calm (modifyg f).
Proof. intros p s g a s' g' [= _ <- _]. apply same_msg_refl. Qed.

Lemma calm_tree_xset t k : calm (tree_xset t k).
Proof.
  intros p s g a s' g'. unfold tree_xset.
  destruct (wait g t !! k); [discriminate|]. intros [= _ <- _]. apply same_msg_refl.
Qed.

(** Splits a computation along its binds and branches; what is left are
    the updates of the session. *)
Ltac calm_step :=
  match goal with
  | |- calm (bind _ _) => apply calm_bind; [|intros ?]
  | |- calm (ret _) => apply calm_ret
  | |- calm get => apply calm_get
  | |- calm getg => apply calm_getg
  | |- calm (fatalx _) => apply calm_fatalx
  | |- calm (modifyg _) => apply calm_modifyg
  | |- calm (tree_xset _ _) => apply calm_tree_xset
  | |- calm (if ?b then _ else _) => destruct b
  | |- calm (match ?x with _ => _ end) => destruct x
  | |- calm (let '(_, _) := ?x in _) => destruct x
  | |- calm (modify _) =>
      apply calm_modify; intros ?; unfold same_msg; cbn; auto
  end.

Ltac calm_tac := repeat calm_step.

Lemma calm_smtp_parse_mail_args_loop fuel args : calm (smtp_parse_mail_args_loop fuel args).
Proof.
  revert args; induction fuel as [|fuel IH]; intros args;
    cbn [smtp_parse_mail_args_loop]; [apply calm_ret|].
  unfold smtp_reply. calm_tac; auto.
Qed.

(** A command leaves the session with the message it held, or with none
    ([RSET]). *)
Lemma calm_smtp_command H line : calm (smtp_command H line).
Proof.
  unfold smtp_command, smtp_rfc4954_auth_plain, smtp_rfc4954_auth_login,
    smtp_auth_plain_decode, smtp_authenticate, smtp_auth_abort, stat_increment.
  apply calm_bind; [calm_tac|]. intros _. apply calm_bind; [calm_tac|]. intros s.
  destruct (_ <=? _); [calm_tac|].
  destruct (state s);
    try (destruct (smtp_split line) as [verb args]; apply calm_bind; [calm_tac|];
         intros _; destruct (smtp_lookup commands verb) as [[]|]; cbn [smtp_dispatch]);
    unfold cmd_helo, cmd_starttls, cmd_auth, cmd_mail_from, cmd_rcpt_to, cmd_rset,
      cmd_data, cmd_help, smtp_parse_mail_args, smtp_rfc4954_auth_plain,
      smtp_rfc4954_auth_login, smtp_auth_plain_decode, smtp_authenticate,
      smtp_auth_abort, smtp_reply, smtp_enter_state, imsg_compose_event, io_reload,
      stat_increment;
    calm_tac; auto using calm_smtp_parse_mail_args_loop.
Qed.

(** *** Isolation *)

Section Isolation.

Context (H : smtpd_h) (env : smtpd).

(** Side conditions of the footprint lemmas, for the requests of the
    session [s] and no constraint on states and flags. *)
Ltac own_side :=
  first [ exact I
        | intros; exact I
        | intros; reflexivity
        | intros; discriminate
        | intros; cbn [own_request from_session]; congruence ].

Lemma smtp_io_own evt p s g :
  tidy_event (fun id m => id = s_id s -> own_request H s m) (fun _ => True)
    (fun _ _ => True) s g (smtp_io H env evt p s g).
Proof.
  assert (evp_id (evp s) <> 0 ->
          s_id s = s_id s ->
          own_request H s (Q_QUEUE_REMOVE_MESSAGE (evpid_to_msgid H (evp_id (evp s)))))
    as Hrm by (intros Hnz _; split; [exact Hnz | reflexivity]).
  destruct evt;
    try (apply smtp_io_idle_tidy_if; first [exact Hrm | discriminate | own_side]).
  - apply smtp_io_tlsready_tidy; own_side.
  - cbn [smtp_io]. unfold smtp_io_datain.
    eapply smtp_io_datain_loop_tidy_if with (C := same_msg s); try own_side.
    + intros s1 s2 _ _ _ He Hc. unfold same_msg in *. now rewrite He.
    + intros line p0 s0 g0 a s' g' _ E.
      eapply (kept_smtp_command _ _ _); [..| reflexivity | exact E]; own_side.
    + intros line p0 s0 g0 a s' g' Hc E Hnz _.
      pose proof (calm_smtp_command H line _ _ _ _ _ _ E) as Hc'.
      destruct (same_msg_trans _ _ _ Hc Hc') as [He|He]; [|contradiction].
      cbn [own_request]. rewrite <- He. auto.
    + apply same_msg_refl.
Qed.

(** X1.  Whatever the I/O event, [smtp_io] keeps the session's id, leaves
    every tree entry under another key as it is, and composes only
    requests that are the session's own: requests that carry its id, and
    the removal of the message it holds when the handler begins, if it
    holds one.  This holds for the globals a freed session leaves behind
    as well. *)
Theorem smtp_io_own_entries evt p s g :
  match smtp_io H env evt p s g with
  | Live s' g' =>
      s_id s' = s_id s
      /\ (forall t k, k <> s_id s -> wait g' t !! k = wait g t !! k)
      /\ exists l, sent g' = sent g ++ l /\ Forall (own_request H s) l
  | Freed _ g' =>
      (forall t k, k <> s_id s -> wait g' t !! k = wait g t !! k)
      /\ exists l, sent g' = sent g ++ l /\ Forall (own_request H s) l
  | Aborted _ => True
  end.
Proof.
  assert (forall l, Forall (fun m => s_id s = s_id s -> own_request H s m) l ->
                    Forall (own_request H s) l) as Hown.
  { intros l Hl. eapply Forall_impl; [exact Hl|]. cbn. auto. }
  pose proof (smtp_io_own evt p s g) as Ht.
  destruct (smtp_io H env evt p s g) as [s' g'|reason g'|msg]; cbn in Ht.
  - destruct Ht as ((Hid & _) & Hw & l & Hs & Hl). eauto 6.
  - destruct Ht as (Hw & l & Hs & Hl). eauto.
  - exact I.
Qed.

(** Every session that is live after a reply was live before, and has
    stayed within its footprint. *)
Lemma smtp_session_imsg_own m P0 P' :
  smtp_session_imsg H env m P0 = Running P' ->
  tidy_proc from_session (fun _ => True) (fun _ _ => True) (imsg_key m) P0 P'.
Proof.
  intros Hrun. destruct m;
    first [ eapply (smtp_session_imsg_auth_tidy from_session (fun _ => True)
                      (fun _ _ => True)); [.. | exact Hrun]; own_side
          | eapply (smtp_session_imsg_tidy from_session (fun _ => True)
                      (fun _ _ => True)); [.. | exact Hrun]; own_side ].
Qed.

(** Resuming the session [s] at [p] with a handler that keeps to its
    footprint. *)
Lemma resume_own key p P0 g1 body P' s :
  heap P0 !! p = Some s ->
  tidy_event (fun id m => id = s_id s -> own_request H s m) (fun _ => True)
    (fun _ _ => True) s g1 (body p s g1) ->
  (forall t k, k <> key -> wait g1 t !! k = wait (glob P0) t !! k) ->
  sent g1 = sent (glob P0) ->
  resume p P0 g1 body = Running P' ->
  (forall q, q <> p -> heap P' !! q = heap P0 !! q)
  /\ (forall s', heap P' !! p = Some s' -> s_id s' = s_id s)
  /\ (forall t k, k <> key -> k <> s_id s ->
        wait (glob P') t !! k = wait (glob P0) t !! k)
  /\ exists l, sent (glob P') = sent (glob P0) ++ l /\ Forall (own_request H s) l.
Proof.
  intros Hp Hbody Hw Hs. unfold resume. rewrite Hp.
  assert (forall l, Forall (fun m => s_id s = s_id s -> own_request H s m) l ->
                    Forall (own_request H s) l) as Hown.
  { intros l Hl. eapply Forall_impl; [exact Hl|]. cbn. auto. }
  destruct (body p s g1) as [s' g'|reason g'|msg]; cbn in *; [| |discriminate];
    intros [= <-]; cbn.
  - destruct Hbody as ((Hid & _) & Hg & l & Hl & HP). repeat split.
    + intros q Hq. now apply lookup_insert_ne.
    + intros s1. rewrite lookup_insert_eq. now intros [= <-].
    + intros t k Hk Hks. now rewrite Hg, Hw.
    + exists l. split; [congruence | auto].
  - destruct Hbody as (Hg & l & Hl & HP). repeat split.
    + intros q Hq. now apply lookup_delete_ne.
    + intros s1. rewrite lookup_delete_eq. discriminate.
    + intros t k Hk Hks. now rewrite Hg, Hw.
    + exists l. split; [congruence | auto].
Qed.

(** The handlers of the replies keep to the footprint of the session they
    resume. *)
Ltac own_handler :=
  first [ apply on_mfa_connect_tidy_if
        | apply tidy_event_run;
          first [ apply kept_on_dns_ptr | apply kept_on_mfa_helo | apply kept_on_mfa_mail
                | apply kept_on_mfa_rcpt | apply kept_on_mfa_dataline_end
                | apply kept_smtp_queue_data
                | apply kept_on_queue_create_message | apply kept_on_queue_message_file
                | apply kept_on_queue_submit_envelope
                | apply kept_on_queue_commit_envelopes
                | apply kept_on_queue_commit_message
                | apply kept_on_parent_authenticate ] ];
  first [ exact I
        | intros; exact I
        | intros; reflexivity
        | intros; discriminate
        | intros; cbn [own_request from_session]; congruence
        | intros; split; [assumption | reflexivity] ].

Lemma with_xpop_own t key P0 body P' :
  (forall p s g,
     tidy_event (fun id m => id = s_id s -> own_request H s m) (fun _ => True)
       (fun _ _ => True) s g (body p s g)) ->
  with_xpop t key P0 body = Running P' ->
  exists p s,
    wait (glob P0) t !! key = Some p /\ heap P0 !! p = Some s
    /\ (forall q, q <> p -> heap P' !! q = heap P0 !! q)
    /\ (forall s', heap P' !! p = Some s' -> s_id s' = s_id s)
    /\ (forall t k, k <> key -> k <> s_id s ->
          wait (glob P') t !! k = wait (glob P0) t !! k)
    /\ exists l, sent (glob P') = sent (glob P0) ++ l /\ Forall (own_request H s) l.
Proof.
  intros Hbody. unfold with_xpop, tree_pop.
  destruct (wait (glob P0) t !! key) as [p|] eqn:Hk; [|discriminate].
  destruct (heap P0 !! p) as [s|] eqn:Hp; [|unfold resume; rewrite Hp; discriminate].
  intros Hrun. exists p, s. split; [reflexivity|]. split; [exact Hp|].
  match type of Hrun with
  | resume _ _ ?g1 _ = _ =>
      apply (resume_own key p P0 g1 body P' s Hp (Hbody _ _ _)); [| reflexivity | exact Hrun]
  end.
  intros t' k Hne. cbn. unfold upd_tree. destruct (decide (t' = t)) as [->|]; [|reflexivity].
  apply lookup_delete_ne. congruence.
Qed.

Lemma with_xget_own t key P0 body P' :
  (forall p s g,
     tidy_event (fun id m => id = s_id s -> own_request H s m) (fun _ => True)
       (fun _ _ => True) s g (body p s g)) ->
  with_xget t key P0 body = Running P' ->
  exists p s,
    wait (glob P0) t !! key = Some p /\ heap P0 !! p = Some s
    /\ (forall q, q <> p -> heap P' !! q = heap P0 !! q)
    /\ (forall s', heap P' !! p = Some s' -> s_id s' = s_id s)
    /\ (forall t k, k <> key -> k <> s_id s ->
          wait (glob P') t !! k = wait (glob P0) t !! k)
    /\ exists l, sent (glob P') = sent (glob P0) ++ l /\ Forall (own_request H s) l.
Proof.
  intros Hbody. unfold with_xget, tree_get.
  destruct (wait (glob P0) t !! key) as [p|] eqn:Hk; [|discriminate].
  destruct (heap P0 !! p) as [s|] eqn:Hp; [|unfold resume; rewrite Hp; discriminate].
  intros Hrun. exists p, s. split; [reflexivity|]. split; [exact Hp|].
  match type of Hrun with
  | resume _ _ ?g1 _ = _ =>
      apply (resume_own key p P0 g1 body P' s Hp (Hbody _ _ _)); [| reflexivity | exact Hrun]
  end.
  auto.
Qed.

(** X2.  A reply from another process resumes at most one session: the
    one whose pointer the tree of that kind of reply holds under the
    reply's request id.  The other sessions are as they were; the resumed
    session keeps its id; tree entries change only under the request id and
    under that session's id; and the requests composed are that session's
    own: they carry its id, or ask for the removal of the message it holds
    when the reply arrives. *)
Theorem smtp_session_imsg_own_entries m P0 P' :
  smtp_session_imsg H env m P0 = Running P' ->
  P' = P0
  \/ exists t p s,
       imsg_tree m = Some t
       /\ wait (glob P0) t !! imsg_key m = Some p
       /\ heap P0 !! p = Some s
       /\ (forall q, q <> p -> heap P' !! q = heap P0 !! q)
       /\ (forall s', heap P' !! p = Some s' -> s_id s' = s_id s)
       /\ (forall t' k, k <> imsg_key m -> k <> s_id s ->
             wait (glob P') t' !! k = wait (glob P0) t' !! k)
       /\ exists l, sent (glob P') = sent (glob P0) ++ l
                    /\ Forall (own_request H s) l.
Proof.
  assert (forall t body,
            (forall p s g,
               tidy_event (fun id m => id = s_id s -> own_request H s m) (fun _ => True)
                 (fun _ _ => True) s g (body p s g)) ->
            imsg_tree m = Some t ->
            (with_xpop t (imsg_key m) P0 body = Running P'
             \/ with_xget t (imsg_key m) P0 body = Running P') ->
            exists t p s,
              imsg_tree m = Some t
              /\ wait (glob P0) t !! imsg_key m = Some p
              /\ heap P0 !! p = Some s
              /\ (forall q, q <> p -> heap P' !! q = heap P0 !! q)
              /\ (forall s', heap P' !! p = Some s' -> s_id s' = s_id s)
              /\ (forall t' k, k <> imsg_key m -> k <> s_id s ->
                    wait (glob P') t' !! k = wait (glob P0) t' !! k)
              /\ exists l, sent (glob P') = sent (glob P0) ++ l
                           /\ Forall (own_request H s) l) as Hgo.
  { intros t body Hbody Ht [Hrun|Hrun];
      [ destruct (with_xpop_own t _ P0 body P' Hbody Hrun) as (p & s & Hk & Hrest)
      | destruct (with_xget_own t _ P0 body P' Hbody Hrun) as (p & s & Hk & Hrest) ];
      exists t, p, s; auto. }
  destruct m; cbn [smtp_session_imsg]; intros Hrun;
    try (right; eapply Hgo; [| reflexivity | first [left; exact Hrun | right; exact Hrun]];
         intros; own_handler).
  - revert Hrun. destruct (strcmp (mfa_u_buffer r) "." =? 0).
    + destruct (tree_pop wait_mfa_data (mfa_reqid r) (glob P0)) as [[p|] g1] eqn:Hpop.
      * intros Hrun. right. eapply (Hgo wait_mfa_data (run (on_mfa_dataline_end H)));
          [intros; own_handler | reflexivity |].
        left. unfold with_xpop. cbn [imsg_key]. rewrite Hpop. exact Hrun.
      * intros [= <-]. now left.
    + destruct (tree_get wait_mfa_data (mfa_reqid r) (glob P0)) as [p|] eqn:Hget.
      * intros Hrun. right.
        eapply (Hgo wait_mfa_data (run (smtp_queue_data H env (mfa_u_buffer r))));
          [intros; own_handler | reflexivity |].
        right. unfold with_xget. cbn [imsg_key]. rewrite Hget. exact Hrun.
      * intros [= <-]. now left.
  - discriminate.
Qed.

End Isolation.

(** ** Replies and trust flags *)

Section Replies.

Context (H : smtpd_h) (env : smtpd).

(** X3.  An I/O event that leaves the session alive has only added to the
    replies queued for the peer, each a line of at least 4 and fewer than
    [SMTP_LINE_MAX] characters followed by CRLF, and has only taken input
    off the front of the buffer. *)
Theorem smtp_io_queues_lines evt p s g s' g' :
  smtp_io H env evt p s g = Live s' g' ->
  (exists r, ib_out (iobuf s') = ib_out (iobuf s) ++ r /\ Forall reply_line r)
  /\ (exists pre, ib_in (iobuf s) = (pre ++ ib_in (iobuf s'))%string).
Proof.
  intros Hrun. pose proof (smtp_io_own H env evt p s g) as Ht.
  rewrite Hrun in Ht. destruct Ht as ((_ & _ & _ & _ & Hin & Hout) & _). auto.
Qed.

(** X4.  The same for a reply from another process: every session that is
    live afterwards was live before, and its queue of replies has only
    grown by such lines. *)
Theorem smtp_session_imsg_queues_lines m P0 P' q s' :
  smtp_session_imsg H env m P0 = Running P' -> heap P' !! q = Some s' ->
  exists s, heap P0 !! q = Some s
    /\ exists r, ib_out (iobuf s') = ib_out (iobuf s) ++ r /\ Forall reply_line r.
Proof.
  intros Hrun Hq. destruct (smtp_session_imsg_own H env m P0 P' Hrun) as [Hlive _].
  destruct (Hlive q s' Hq) as (s & Hs & _ & _ & _ & _ & _ & Hout). eauto.
Qed.

End Replies.

Section Trust.

Context (H : smtpd_h) (env : smtpd).

Lemma has_land_keep x m k : Z.land m k = k -> has (Z.land x m) k = has x k.
Proof. intros Hm. unfold has. now rewrite <- Z.land_assoc, Hm. Qed.

Lemma same_trust_refl x : same_trust x x.
Proof. split; reflexivity. Qed.

Lemma same_trust_trans x y z : same_trust x y -> same_trust y z -> same_trust x z.
Proof. intros [] []. split; congruence. Qed.

(** Side conditions of the footprint lemmas for [same_trust]. *)
Ltac trust_side :=
  first [ exact I
        | intros; exact I
        | exact same_trust_refl
        | exact same_trust_trans
        | intros; discriminate
        | intros; split;
          first [ apply has_lor_other; reflexivity | apply has_land_keep; reflexivity ] ].

Lemma smtp_reply_flags buf p s g a s' g' :
  smtp_reply buf p s g = Ok a s' g' -> flags s' = flags s.
Proof.
  unfold smtp_reply. destruct (_ <=? _); [discriminate|]. destruct (_ <? _); [discriminate|].
  intros [= _ <- _]. reflexivity.
Qed.

(** X5.  [F_SECURE] is raised by the end of the TLS handshake and by no
    other I/O event; no I/O event changes [F_AUTHENTICATED]; and no I/O
    event clears either. *)
Theorem smtp_io_trust evt p s g s' g' :
  smtp_io H env evt p s g = Live s' g' ->
  has (flags s') F_AUTHENTICATED = has (flags s) F_AUTHENTICATED
  /\ (has (flags s') F_SECURE = true
      <-> has (flags s) F_SECURE = true \/ evt = IO_TLSREADY).
Proof.
  intros Hrun.
  assert (evt <> IO_TLSREADY -> same_trust (flags s) (flags s')) as Hother.
  { intros Hevt.
    pose proof (smtp_io_tidy (fun _ _ => True) (fun _ => True) same_trust) as Ht.
    specialize (Ht ltac:(trust_side) ltac:(trust_side)).
    repeat (specialize (Ht ltac:(trust_side))).
    specialize (Ht H env evt p s g Hevt). rewrite Hrun in Ht.
    destruct Ht as ((_ & _ & _ & Hf & _) & _). exact Hf. }
  destruct evt; try (destruct Hother as [Hs Ha]; [discriminate|];
                     split; [exact Ha|]; rewrite Hs; split; [tauto|];
                     intros [?|?]; [assumption | discriminate]).
  clear Hother. revert Hrun. cbn [smtp_io].
  unfold run, smtp_io_tlsready, bind, modify, get, stat_increment, modifyg.
  cbn [listener set_kickcount set_flags].
  assert (forall x, has (Z.lor x F_SECURE) F_AUTHENTICATED = has x F_AUTHENTICATED) as Ha
    by (intros x; apply has_lor_other; reflexivity).
  assert (forall x, has (Z.lor x F_SECURE) F_SECURE = true) as Hs
    by (intros x; apply has_lor_same; unfold F_SECURE; lia).
  destruct (has (l_flags (listener s)) (F_SMTPS H)).
  - destruct (smtp_reply _ p _ _) as [[] s1 g1|] eqn:E; [|discriminate].
    apply smtp_reply_flags in E. cbn [flags set_kickcount set_flags] in E.
    intros [= <- _]. cbn [flags io_set_write set_io]. rewrite E, Ha, Hs. tauto.
  - intros [= <- _]. cbn [flags set_kickcount set_flags]. rewrite Ha, Hs. tauto.
Qed.

(** X6.  A reply from another process changes [F_SECURE] in no session,
    and [F_AUTHENTICATED] only when it is the parent's verdict on
    credentials and the verdict is a success; it never clears the flag. *)
Theorem smtp_session_imsg_trust m P0 P' q s' :
  smtp_session_imsg H env m P0 = Running P' -> heap P' !! q = Some s' ->
  exists s,
    heap P0 !! q = Some s
    /\ has (flags s') F_SECURE = has (flags s) F_SECURE
    /\ (has (flags s) F_AUTHENTICATED = true -> has (flags s') F_AUTHENTICATED = true)
    /\ ((forall a, m = IMSG_PARENT_AUTHENTICATE a -> auth_success a = 0) ->
        has (flags s') F_AUTHENTICATED = has (flags s) F_AUTHENTICATED).
Proof.
  intros Hrun Hq.
  assert (forall F, (forall x, F x x) ->
            tidy_proc (fun _ _ => True) (fun _ => True) F (imsg_key m) P0 P' ->
            exists s, heap P0 !! q = Some s /\ F (flags s) (flags s')) as Hget.
  { intros F Hrefl [Hlive _]. destruct (Hlive q s' Hq) as (s & Hs & _ & _ & _ & Hf & _).
    eauto. }
  assert ((forall a, m <> IMSG_PARENT_AUTHENTICATE a) ->
          exists s, heap P0 !! q = Some s /\ same_trust (flags s) (flags s')) as Hmost.
  { intros Hm. apply Hget; [exact same_trust_refl|].
    eapply (smtp_session_imsg_tidy (fun _ _ => True) (fun _ => True) same_trust);
      [.. | exact Hm | exact Hrun]; trust_side. }
  destruct m as [| | | | | | | | | | |a|];
    try (destruct Hmost as (s & Hs & Hsec & Hauth); [discriminate|];
         exists s; rewrite Hsec, Hauth; tauto).
  clear Hmost. destruct (auth_success a =? 0) eqn:Hsucc.
  - (* the verdict is a failure *)
    destruct (Hget same_trust same_trust_refl) as (s & Hs & Hsec & Hauth).
    { revert Hrun. cbn [smtp_session_imsg imsg_key]. apply with_xpop_tidy;
        try trust_side.
      intros p0 s0 g0. apply tidy_event_run; try trust_side.
      unfold on_parent_authenticate. rewrite Hsucc. cbn [negb].
      apply kept_bind; try trust_side;
        [apply kept_smtp_reply | intros _; apply kept_io_reload]; trust_side. }
    exists s. rewrite Hsec, Hauth. tauto.
  - (* the verdict is a success *)
    set (F := fun x x' => has x' F_SECURE = has x F_SECURE
                          /\ (has x F_AUTHENTICATED = true ->
                              has x' F_AUTHENTICATED = true)).
    destruct (Hget F) as (s & Hs & Hsec & Hauth).
    { intros x. split; auto. }
    { eapply (smtp_session_imsg_auth_tidy (fun _ _ => True) (fun _ => True) F);
        [.. | exact Hrun].
      - intros x. split; auto.
      - intros x y z [] []. split; [congruence | auto].
      - intros x. split; [apply has_lor_other; reflexivity|].
        intros _. apply has_lor_same; unfold F_AUTHENTICATED; lia. }
    exists s. split; [exact Hs|]. split; [exact Hsec|]. split; [exact Hauth|].
    intros Hfail. specialize (Hfail a eq_refl). apply Z.eqb_neq in Hsucc. contradiction.
Qed.

End Trust.

(** ** Policy: when credentials and senders are passed on *)

Lemma kept_run P S F id {A} (m : M A) p s g a s' g' :
  kept P S F id m -> s_id s = id -> m p s g = Ok a s' g' -> tidy P S F s g s' g'.
Proof. intros Hm Hid E. exact (Hm _ _ _ _ _ _ Hid E). Qed.

Section Credentials.

Context (H : smtpd_h) (env : smtpd).

(** Side conditions of the footprint lemmas when no credentials may be
    sent and no SASL state entered. *)
Ltac cred_side :=
  first [ exact I | intros; exact I | intros; reflexivity | intros; discriminate ].

Ltac cred_kept lemma Hrun :=
  eapply kept_run; [eapply lemma; cred_side | reflexivity | exact Hrun].

Lemma smtp_command_closed line p s g a s' g' :
  auth_closed H s -> smtp_command H line p s g = Ok a s' g' ->
  tidy (fun _ => no_credentials) (fun st => sasl st = false) (fun _ _ => True)
    s g s' g'.
Proof.
  intros [Hadv Hst] Hrun.
  unfold smtp_command, bind at 1 2, modify at 1, get at 1 in Hrun.
  cbn [kickcount set_kickcount] in Hrun.
  set (s1 := set_kickcount _ s) in *.
  eapply tidy_trans with (s2 := s1) (g2 := g); try cred_side.
  { split; [|apply tidy_globals_refl]. subst s1. unfold tidy_session. cbn.
    repeat split; auto. exists []. split; [now rewrite app_nil_r | constructor]. }
  destruct (SMTP_KICKTHRESHOLD <=? _).
  { eapply kept_run; [|reflexivity | exact Hrun].
    apply kept_bind; try cred_side.
    - apply kept_modify. intros s0. unfold tidy_session. cbn.
      repeat split; auto. exists []. split; [now rewrite app_nil_r | constructor].
    - intros _. apply kept_stat_increment; cred_side. }
  change (state s1) with (state s) in Hrun.
  destruct (state s) eqn:Hstate; try discriminate Hst;
    destruct (smtp_split line) as [verb args];
    unfold bind at 1, modify at 1 in Hrun;
    set (s2 := set_cmd verb s1) in *;
    (eapply tidy_trans with (s2 := s2) (g2 := g); try cred_side;
     [ split; [|apply tidy_globals_refl]; subst s2; unfold tidy_session; cbn;
       repeat split; auto; exists []; split; [now rewrite app_nil_r | constructor] |]);
    (destruct (smtp_lookup commands verb) as [[]|]; cbn [smtp_dispatch] in Hrun;
     [ cred_kept kept_cmd_helo Hrun
     | cred_kept kept_cmd_helo Hrun
     | cred_kept kept_cmd_starttls Hrun
     | idtac
     | cred_kept kept_cmd_mail_from Hrun
     | cred_kept kept_cmd_rcpt_to Hrun
     | cred_kept kept_cmd_data Hrun
     | cred_kept kept_cmd_rset Hrun
     | eapply kept_run; [|reflexivity | exact Hrun];
       apply kept_bind; try cred_side;
       [ apply kept_smtp_reply; cred_side
       | intros _; apply kept_smtp_enter_state; cred_side ]
     | cred_kept kept_cmd_help Hrun
     | cred_kept kept_smtp_reply Hrun
     | cred_kept kept_smtp_reply Hrun ]).
  all: unfold cmd_auth, bind at 1, get at 1 in Hrun;
    replace (ADVERTISE_AUTH H s2) with false in Hrun by (symmetry; exact Hadv);
    cbn [negb] in Hrun;
    destruct (negb (bool_decide (phase s2 = PHASE_SETUP)));
      [cred_kept kept_smtp_reply Hrun|];
    destruct (has (flags s2) F_AUTHENTICATED); cred_kept kept_smtp_reply Hrun.
Qed.

Lemma smtp_io_closed evt p s g :
  auth_closed H s ->
  tidy_event (fun _ => no_credentials) (fun st => sasl st = false) (fun _ _ => True)
    s g (smtp_io H env evt p s g).
Proof.
  intros HC. destruct evt;
    try (apply smtp_io_idle_tidy; first [discriminate | cred_side]).
  - apply smtp_io_tlsready_tidy; cred_side.
  - cbn [smtp_io]. unfold smtp_io_datain.
    eapply smtp_io_datain_loop_tidy_if with (C := auth_closed H); try cred_side;
      [| |exact HC].
    + intros s1 s2 Hl Hf Hst _ [Hadv Hsasl]. split.
      * unfold ADVERTISE_AUTH in *. now rewrite Hl, Hf.
      * now rewrite Hst.
    + intros line p0 s0 g0 a s' g'. apply smtp_command_closed.
Qed.

(** X7.  Credentials go to the parent only when [AUTH] is on offer.  On a
    session that is not in a SASL exchange and to which [AUTH] is not
    advertised (the listener does not offer it, or the channel is not
    secured, or the session is authenticated already), no I/O event
    composes [IMSG_PARENT_AUTHENTICATE] or starts a SASL exchange, whatever
    the peer has sent. *)
Theorem credentials_need_an_offer evt p s g :
  ADVERTISE_AUTH H s = false -> sasl (state s) = false ->
  match smtp_io H env evt p s g with
  | Live s' g' =>
      sasl (state s') = false
      /\ exists l, sent g' = sent g ++ l /\ Forall no_credentials l
  | Freed _ g' => exists l, sent g' = sent g ++ l /\ Forall no_credentials l
  | Aborted _ => True
  end.
Proof.
  intros Hadv Hst. pose proof (smtp_io_closed evt p s g (conj Hadv Hst)) as Ht.
  destruct (smtp_io H env evt p s g) as [s' g'|reason g'|msg]; cbn in Ht.
  - destruct Ht as ((_ & _ & Hst' & _) & _ & Hs). split; [|exact Hs].
    destruct Hst' as [->|Hst']; assumption.
  - destruct Ht as (_ & Hs). exact Hs.
  - exact I.
Qed.

(** X8.  No reply from another process makes a session compose
    credentials or enter a SASL state. *)
Theorem smtp_session_imsg_no_credentials m P0 P' :
  smtp_session_imsg H env m P0 = Running P' ->
  (exists l, sent (glob P') = sent (glob P0) ++ l /\ Forall no_credentials l)
  /\ (forall q s', heap P' !! q = Some s' ->
        exists s, heap P0 !! q = Some s
                  /\ (sasl (state s') = true -> state s' = state s)).
Proof.
  intros Hrun.
  assert (tidy_proc (fun _ => no_credentials) (fun st => sasl st = false)
            (fun _ _ => True) (imsg_key m) P0 P') as [Hlive Hres].
  { destruct m;
      first [ eapply (smtp_session_imsg_auth_tidy (fun _ => no_credentials)
                        (fun st => sasl st = false) (fun _ _ => True));
              [.. | exact Hrun]; cred_side
            | eapply (smtp_session_imsg_tidy (fun _ => no_credentials)
                        (fun st => sasl st = false) (fun _ _ => True));
              [.. | exact Hrun]; cred_side ]. }
  split.
  - destruct Hres as [->|(p & s & _ & _ & _ & Hs)]; [|exact Hs].
    exists []. split; [now rewrite app_nil_r | constructor].
  - intros q s' Hq. destruct (Hlive q s' Hq) as (s & Hs & _ & _ & Hst & _).
    exists s. split; [exact Hs|]. intros Hsasl.
    destruct Hst as [Hst|Hst]; [exact Hst | congruence].
Qed.

End Credentials.

Section Senders.

Context (H : smtpd_h) (env : smtpd).

Ltac send_side :=
  first [ exact I | intros; exact I | intros; discriminate ].

Ltac send_kept lemma Hrun :=
  eapply kept_run; [eapply lemma; send_side | reflexivity | exact Hrun].

Lemma smtp_command_barred line p s g a s' g' :
  sender_barred H s -> smtp_command H line p s g = Ok a s' g' ->
  tidy (fun _ => no_sender) (fun _ => True) (fun _ _ => True) s g s' g'.
Proof.
  intros Hbar Hrun.
  unfold smtp_command, bind at 1 2, modify at 1, get at 1 in Hrun.
  cbn [kickcount set_kickcount] in Hrun.
  set (s1 := set_kickcount _ s) in *.
  eapply tidy_trans with (s2 := s1) (g2 := g); try send_side.
  { split; [|apply tidy_globals_refl]. subst s1. unfold tidy_session. cbn.
    repeat split; auto. exists []. split; [now rewrite app_nil_r | constructor]. }
  destruct (SMTP_KICKTHRESHOLD <=? _).
  { eapply kept_run; [|reflexivity | exact Hrun].
    apply kept_bind; try send_side.
    - apply kept_modify. intros s0. unfold tidy_session. cbn.
      repeat split; auto. exists []. split; [now rewrite app_nil_r | constructor].
    - intros _. apply kept_stat_increment; send_side. }
  change (state s1) with (state s) in Hrun.
  destruct (state s);
    try (send_kept kept_smtp_rfc4954_auth_plain Hrun);
    try (send_kept kept_smtp_rfc4954_auth_login Hrun);
    destruct (smtp_split line) as [verb args];
    unfold bind at 1, modify at 1 in Hrun;
    set (s2 := set_cmd verb s1) in *;
    (eapply tidy_trans with (s2 := s2) (g2 := g); try send_side;
     [ split; [|apply tidy_globals_refl]; subst s2; unfold tidy_session; cbn;
       repeat split; auto; exists []; split; [now rewrite app_nil_r | constructor] |]);
    (destruct (smtp_lookup commands verb) as [[]|]; cbn [smtp_dispatch] in Hrun;
     [ send_kept kept_cmd_helo Hrun
     | send_kept kept_cmd_helo Hrun
     | send_kept kept_cmd_starttls Hrun
     | send_kept kept_cmd_auth Hrun
     | idtac
     | send_kept kept_cmd_rcpt_to Hrun
     | send_kept kept_cmd_data Hrun
     | send_kept kept_cmd_rset Hrun
     | eapply kept_run; [|reflexivity | exact Hrun];
       apply kept_bind; try send_side;
       [ apply kept_smtp_reply; send_side
       | intros _; apply kept_smtp_enter_state; send_side ]
     | send_kept kept_cmd_help Hrun
     | send_kept kept_smtp_reply Hrun
     | send_kept kept_smtp_reply Hrun ]).
  all: unfold cmd_mail_from, bind at 1, get at 1 in Hrun;
    destruct (negb (bool_decide (phase s2 = PHASE_SETUP)));
      [send_kept kept_smtp_reply Hrun|];
    change (listener s2) with (listener s) in Hrun;
    change (flags s2) with (flags s) in Hrun;
    unfold sender_barred in Hbar;
    destruct (has (l_flags (listener s)) (F_STARTTLS_REQUIRE H)
              && negb (has (flags s) F_SECURE));
      [send_kept kept_smtp_reply Hrun|];
    cbn [orb] in Hbar; rewrite Hbar in Hrun; send_kept kept_smtp_reply Hrun.
Qed.

(** X9.  The listener's requirements precede the sender.  While a listener
    that requires STARTTLS has no secured channel, or one that requires
    authentication no authenticated session, no I/O event on the session
    passes a sender to the filter ([IMSG_MFA_MAIL]), whatever the peer has
    sent. *)
Theorem sender_needs_listener_policy evt p s g :
  has (l_flags (listener s)) (F_STARTTLS_REQUIRE H) && negb (has (flags s) F_SECURE)
  || has (l_flags (listener s)) (F_AUTH_REQUIRE H) && negb (has (flags s) F_AUTHENTICATED)
  = true ->
  match smtp_io H env evt p s g with
  | Live _ g' | Freed _ g' => exists l, sent g' = sent g ++ l /\ Forall no_sender l
  | Aborted _ => True
  end.
Proof.
  intros Hbar.
  assert (tidy_event (fun _ => no_sender) (fun _ => True) (fun _ _ => True) s g
            (smtp_io H env evt p s g)) as Ht.
  { destruct evt; try (apply smtp_io_idle_tidy; first [discriminate | send_side]).
    - apply smtp_io_tlsready_tidy; send_side.
    - cbn [smtp_io]. unfold smtp_io_datain.
      eapply smtp_io_datain_loop_tidy_if with (C := sender_barred H); try send_side;
        [| |exact Hbar].
      + intros s1 s2 Hl Hf _ _. unfold sender_barred. now rewrite Hl, Hf.
      + intros line p0 s0 g0 a s' g'. apply smtp_command_barred. }
  destruct (smtp_io H env evt p s g) as [s' g'|reason g'|msg]; cbn in Ht.
  - destruct Ht as (_ & _ & Hs). exact Hs.
  - destruct Ht as (_ & Hs). exact Hs.
  - exact I.
Qed.

End Senders.

(** ** Reading a command line *)

Section CaseFolding.

Implicit Types (a b s : string) (c x y : ascii).

Lemma code_inj x y : code x = code y -> x = y.
Proof.
  unfold code. intros Hxy. apply N2Z.inj in Hxy.
  now rewrite <- (ascii_N_embedding x), <- (ascii_N_embedding y), Hxy.
Qed.

Lemma code_NUL x : code x = 0 -> x = NUL.
Proof. intros Hx. apply code_inj. exact Hx. Qed.

Lemma tolower_NUL c : tolower c = NUL -> c = NUL.
Proof. destruct c as [[] [] [] [] [] [] [] []]; vm_compute; congruence. Qed.

Lemma tolower_colon c : Ascii.eqb (tolower c) ":" = Ascii.eqb c ":".
Proof. destruct c as [[] [] [] [] [] [] [] []]; reflexivity. Qed.

Lemma tolower_space c : Ascii.eqb (tolower c) " " = Ascii.eqb c " ".
Proof. destruct c as [[] [] [] [] [] [] [] []]; reflexivity. Qed.

(** [strcasecmp] against a string without NUL: equality of the lower-case
    forms of what C reads of both. *)
Lemma strcasecmp_0 a b :
  strchr b NUL = None ->
  strcasecmp a b = 0 <-> CStr.map tolower (cstr a) = CStr.map tolower b.
Proof.
  revert b; induction a as [|x a IH]; intros [|y b]; cbn [strcasecmp cstr CStr.map strchr].
  - tauto.
  - destruct (Ascii.eqb y NUL) eqn:Ey; [discriminate|]. intros _.
    split; [|intros; discriminate]. intros Hc. exfalso.
    apply Ascii.eqb_neq in Ey. apply Ey, tolower_NUL, code_NUL. lia.
  - intros _. destruct (Ascii.eqb x NUL) eqn:Ex.
    + apply Ascii.eqb_eq in Ex. subst x. split; reflexivity.
    + split; [|intros; discriminate]. intros Hc. exfalso.
      apply Ascii.eqb_neq in Ex. apply Ex, tolower_NUL, code_NUL. exact Hc.
  - destruct (Ascii.eqb y NUL) eqn:Ey; [discriminate|].
    destruct (strchr b NUL) eqn:Hb; [discriminate|]. intros _.
    apply Ascii.eqb_neq in Ey.
    destruct (Ascii.eqb x NUL) eqn:Ex.
    + apply Ascii.eqb_eq in Ex. subst x.
      destruct (Ascii.eqb (tolower NUL) (tolower y)) eqn:E.
      * apply Ascii.eqb_eq in E. exfalso. apply Ey, tolower_NUL. now rewrite <- E.
      * split; [|intros; discriminate]. intros Hc. exfalso. apply Ey, tolower_NUL, code_NUL.
        change (code (tolower NUL)) with 0 in Hc. lia.
    + cbn [CStr.map]. destruct (Ascii.eqb (tolower x) (tolower y)) eqn:E.
      * apply Ascii.eqb_eq in E. rewrite (IH b Hb), E. split; congruence.
      * apply Ascii.eqb_neq in E. split; [|congruence]. intros Hc. exfalso.
        apply E, code_inj. lia.
Qed.

Lemma map_take f n s : CStr.map f (take n s) = take n (CStr.map f s).
Proof.
  revert s; induction n as [|n IH]; intros [|c s]; cbn [take CStr.map]; try reflexivity.
  now rewrite IH.
Qed.

Lemma take_app_le n s r : (n <= String.length s)%nat -> take n (s ++ r) = take n s.
Proof.
  revert s; induction n as [|n IH]; intros [|c s] Hn; cbn [String.length] in Hn;
    try reflexivity; try lia.
  change (String c (take n (s ++ r)) = String c (take n s)). rewrite IH by lia.
  reflexivity.
Qed.

Lemma strchr_app_some s r c i : strchr s c = Some i -> strchr (s ++ r) c = Some i.
Proof.
  revert i; induction s as [|a s IH]; intros i; simpl; [intros; discriminate|].
  destruct (Ascii.eqb a c); [tauto|].
  destruct (strchr s c) as [j|]; [|intros; discriminate].
  intros [= <-]. now rewrite (IH j eq_refl).
Qed.

Lemma strchr_map_tolower_colon s : strchr (CStr.map tolower s) ":" = strchr s ":".
Proof.
  induction s as [|a s IH]; cbn [strchr CStr.map]; [reflexivity|].
  now rewrite tolower_colon, IH.
Qed.

Lemma strchr_map_tolower_NUL s :
  strchr (CStr.map tolower s) NUL = None -> strchr s NUL = None.
Proof.
  induction s as [|a s IH]; cbn [strchr CStr.map]; [reflexivity|].
  destruct (Ascii.eqb (tolower a) NUL) eqn:E; [discriminate|].
  destruct (strchr (CStr.map tolower s) NUL); [discriminate|]. intros _.
  destruct (Ascii.eqb a NUL) eqn:Ea.
  - apply Ascii.eqb_eq in Ea. subst a. discriminate.
  - now rewrite IH.
Qed.

(** A line on which [strncasecmp(pat, line, strlen(pat))] is 0 begins with
    [pat] up to case. *)
Lemma strncasecmp_prefix pat line :
  strchr pat NUL = None ->
  strncasecmp pat line (String.length pat) = 0 ->
  exists pre rest,
    line = (pre ++ rest)%string /\ String.length pre = String.length pat
    /\ CStr.map tolower pre = CStr.map tolower pat.
Proof.
  revert line; induction pat as [|x pat IH]; intros line.
  - intros _ _. exists EmptyString, line. auto.
  - cbn [strchr String.length strncasecmp].
    destruct (Ascii.eqb x NUL) eqn:Ex; [discriminate|].
    destruct (strchr pat NUL) eqn:Hp; [discriminate|]. intros _.
    apply Ascii.eqb_neq in Ex.
    destruct line as [|y line].
    + intros Hc. exfalso. apply Ex, tolower_NUL, code_NUL. exact Hc.
    + destruct (Ascii.eqb (tolower x) (tolower y)) eqn:E.
      * apply Ascii.eqb_eq in E. intros Hc.
        destruct (IH line eq_refl Hc) as (pre & rest & -> & Hlen & Hmap).
        exists (String y pre), rest. cbn [String.length CStr.map append].
        rewrite Hlen, Hmap, E. auto.
      * apply Ascii.eqb_neq in E. intros Hc. exfalso. apply E, code_inj. lia.
Qed.

End CaseFolding.

Section Lookup.

(** What matches an entry of the table matches no other. *)
Lemma smtp_lookup_found verb c name :
  In (c, name) commands ->
  CStr.map tolower (cstr verb) = CStr.map tolower name ->
  smtp_lookup commands verb = Some c.
Proof.
  intros Hin Hlow. unfold commands in *. cbn [In] in Hin.
  assert (forall n, strchr n NUL = None ->
            (strcasecmp verb n =? 0) = true ->
            CStr.map tolower name = CStr.map tolower n) as Hyes.
  { intros n Hn E. apply Z.eqb_eq in E. apply (strcasecmp_0 verb n Hn) in E. congruence. }
  assert (forall n, strchr n NUL = None ->
            (strcasecmp verb n =? 0) = false ->
            CStr.map tolower name <> CStr.map tolower n) as Hno.
  { intros n Hn E Heq. apply Z.eqb_neq in E. apply E, (strcasecmp_0 verb n Hn). congruence. }
  cbn [smtp_lookup].
  repeat match goal with
         | |- (if strcasecmp verb ?n =? 0 then _ else _) = _ =>
             let E := fresh "E" in
             destruct (strcasecmp verb n =? 0) eqn:E;
             [ apply (Hyes n eq_refl) in E | apply (Hno n eq_refl) in E ]
         end;
    repeat match goal with
           | Hin : _ \/ _ |- _ => destruct Hin as [Hin|Hin]
           | Hin : (_, _) = (_, _) |- _ => injection Hin as <- <-
           | Hin : False |- _ => destruct Hin
           end;
    first [reflexivity | discriminate | exfalso; auto; congruence].
Qed.

Lemma smtp_lookup_sound tbl verb c :
  smtp_lookup tbl verb = Some c ->
  exists name, In (c, name) tbl /\ strcasecmp verb name = 0.
Proof.
  induction tbl as [|[c0 n0] tbl IH]; cbn [smtp_lookup]; [discriminate|].
  destruct (strcasecmp verb n0 =? 0) eqn:E.
  - intros [= <-]. exists n0. split; [now left | now apply Z.eqb_eq].
  - intros Hl. destruct (IH Hl) as (name & Hin & H0). exists name. split; [now right | exact H0].
Qed.

Lemma commands_no_NUL c name : In (c, name) commands -> strchr name NUL = None.
Proof.
  unfold commands. cbn [In].
  intros Hin; repeat destruct Hin as [Hin|Hin]; try injection Hin as <- <-;
    try reflexivity; destruct Hin.
Qed.

(** X10.  The verb of a command is matched against the table without
    regard to case and in full: [smtp_lookup] returns the code of the one
    entry whose name has the same lower-case form as what C reads of the
    verb, and nothing when there is none. *)
Theorem smtp_lookup_is_case_blind verb c :
  smtp_lookup commands verb = Some c
  <-> exists name, In (c, name) commands
                   /\ CStr.map tolower (cstr verb) = CStr.map tolower name.
Proof.
  split.
  - intros Hl. destruct (smtp_lookup_sound _ _ _ Hl) as (name & Hin & H0).
    exists name. split; [exact Hin|].
    now apply strcasecmp_0; [apply (commands_no_NUL c)|].
  - intros (name & Hin & Hlow). now apply (smtp_lookup_found verb c name).
Qed.

End Lookup.

Section Split.

(** X11.  A line that begins with [MAIL FROM:] or [RCPT TO:], in any
    mixture of cases, is cut at that colon whatever follows: the verb is
    the text before the colon and is found in the table as [CMD_MAIL_FROM]
    or [CMD_RCPT_TO], and the argument is what follows the colon without
    its leading white space. *)
Theorem mail_and_rcpt_prefixes line :
  (strncasecmp "mail from:" line 10 = 0 ->
     smtp_split line = (take 9 line, Some (skip_space (drop 10 line)))
     /\ smtp_lookup commands (take 9 line) = Some CMD_MAIL_FROM)
  /\ (strncasecmp "rcpt to:" line 8 = 0 ->
        smtp_split line = (take 7 line, Some (skip_space (drop 8 line)))
        /\ smtp_lookup commands (take 7 line) = Some CMD_RCPT_TO).
Proof.
  assert (forall pat n c name,
            strchr pat NUL = None -> String.length pat = S n ->
            CStr.map tolower pat = pat -> strchr pat ":" = Some n ->
            In (c, name) commands -> CStr.map tolower name = take n pat ->
            strncasecmp pat line (S n) = 0 ->
            strchr line ":" = Some n /\ smtp_lookup commands (take n line) = Some c)
    as Hgen.
  { intros pat n c name Hnul Hlen Hlow Hcolon Hin Hname Hcmp.
    rewrite <- Hlen in Hcmp.
    destruct (strncasecmp_prefix pat line Hnul Hcmp) as (pre & rest & -> & Hpl & Hmap).
    rewrite Hlow in Hmap.
    assert (strchr pre ":" = Some n) as Hc
      by (rewrite <- strchr_map_tolower_colon, Hmap; exact Hcolon).
    split; [now apply strchr_app_some|].
    rewrite take_app_le by lia.
    apply (smtp_lookup_found _ c name Hin).
    rewrite cstr_id.
    - now rewrite map_take, Hmap, Hname.
    - apply strchr_take_none, strchr_map_tolower_NUL. now rewrite Hmap. }
  split; intros Hcmp.
  - destruct (Hgen "mail from:"%string 9%nat CMD_MAIL_FROM "MAIL FROM"%string) as [Hc Hl];
      try reflexivity; try exact Hcmp.
    { unfold commands. cbn [In]. tauto. }
    split; [|exact Hl]. unfold smtp_split. now rewrite Hcmp, Hc.
  - destruct (Hgen "rcpt to:"%string 7%nat CMD_RCPT_TO "RCPT TO"%string) as [Hc Hl];
      try reflexivity; try exact Hcmp.
    { unfold commands. cbn [In]. tauto. }
    split; [|exact Hl]. unfold smtp_split. rewrite Hcmp, Hc.
    now rewrite orb_true_r.
Qed.

End Split.

Section Mailaddr.

Lemma last_app_char s c : last (s ++ String c EmptyString) = c.
Proof.
  induction s as [|a s IH]; [reflexivity|].
  change (last (String a (s ++ String c EmptyString)) = c).
  cbn [last]. destruct (s ++ String c EmptyString)%string eqn:E; [|exact IH].
  destruct s; discriminate.
Qed.

Lemma take_init s c : take (String.length s) (s ++ String c EmptyString) = s.
Proof. apply take_app. Qed.

Lemma init_last s :
  s <> EmptyString ->
  s = (take (String.length s - 1) s ++ String (last s) EmptyString)%string.
Proof.
  induction s as [|a s IH]; [congruence|]. intros _.
  destruct s as [|b s]; [reflexivity|].
  change (last (String a (String b s))) with (last (String b s)).
  replace (String.length (String a (String b s)) - 1)%nat
    with (S (String.length (String b s) - 1)) by (cbn [String.length]; lia).
  cbn [take]. change (String a (String b s)
    = String a (take (String.length (String b s) - 1) (String b s)
                ++ String (last (String b s)) EmptyString)).
  rewrite <- IH by discriminate. reflexivity.
Qed.

(** X12.  [smtp_mailaddr] takes an address only as the whole argument in
    angle brackets: for [<a>] it hands [a], which may be empty, to
    [email_to_mailaddr]; for any other argument, such as one with
    parameters after the closing bracket, it returns 0 and leaves the
    address and the argument alone. *)
Theorem smtp_mailaddr_brackets H m line :
  (forall a, line = ("<" ++ a ++ ">")%string ->
     smtp_mailaddr H m line
     = let '(r, m', rest) := email_to_mailaddr H m a in (r, m', String "<" rest))
  /\ ((forall a, line <> ("<" ++ a ++ ">")%string) ->
      smtp_mailaddr H m line = (0, m, line)).
Proof.
  split.
  - intros a ->. unfold smtp_mailaddr.
    change ("<" ++ a ++ ">")%string with (String "<" (a ++ String ">" EmptyString)).
    assert (last (String "<" (a ++ String ">" EmptyString)) = ">"%char) as ->.
    { cbn [last]. destruct (a ++ String ">" EmptyString)%string eqn:E.
      - destruct a; discriminate.
      - rewrite <- E. apply last_app_char. }
    cbn [head Ascii.eqb Bool.eqb negb orb].
    replace (String.length (String "<" (a ++ String ">" EmptyString)) - 1)%nat
      with (S (String.length a))
      by (cbn [String.length]; rewrite length_app; cbn [String.length]; lia).
    cbn [take drop]. rewrite take_app. reflexivity.
  - intros Hno. unfold smtp_mailaddr.
    destruct (negb (Ascii.eqb (head line) "<") || negb (Ascii.eqb (last line) ">"))
      eqn:E; [reflexivity|].
    exfalso. apply orb_false_iff in E. destruct E as [Eh El].
    apply negb_false_iff, Ascii.eqb_eq in Eh, El.
    destruct line as [|c r]; [discriminate Eh|]. cbn [head] in Eh. subst c.
    destruct r as [|b r]; [discriminate El|].
    change (last (String "<" (String b r))) with (last (String b r)) in El.
    apply (Hno (take (String.length (String b r) - 1) (String b r))).
    rewrite (init_last (String b r)) at 1 by discriminate. now rewrite El.
Qed.

End Mailaddr.

(** ** The message body *)

Section BodyLines.

Context (H : smtpd_h) (env : smtpd).

(** X13.  The session code reads a line as a C string: what follows the
    first NUL of a line is invisible to [smtp_io], whether the line is a
    command, a body line or the lone dot. *)
Theorem smtp_io_line_reads_c_string l r p s g :
  strchr l NUL = None ->
  smtp_io_line H env (l ++ String NUL r) p s g = smtp_io_line H env l p s g.
Proof.
  intros Hl. unfold smtp_io_line, smtp_body_line, smtp_queue_data.
  rewrite (cstr_app l r Hl), (cstr_id l Hl). reflexivity.
Qed.

Lemma mask7_seven_bit c : (code (mask7 c) <? 128) = true.
Proof. destruct c as [[] [] [] [] [] [] [] []]; reflexivity. Qed.

Lemma seven_bit_map_mask7 s : seven_bit (CStr.map mask7 s) = true.
Proof.
  induction s as [|c s IH]; cbn [seven_bit CStr.map]; [reflexivity|].
  now rewrite mask7_seven_bit, IH.
Qed.

Lemma seven_bit_cstr s : seven_bit s = true -> seven_bit (cstr s) = true.
Proof.
  induction s as [|c s IH]; cbn [seven_bit cstr]; [reflexivity|].
  intros Hs. apply andb_true_iff in Hs. destruct Hs as [Hc Hs].
  destruct (Ascii.eqb c NUL); [reflexivity|]. cbn [seven_bit]. now rewrite Hc, IH.
Qed.

Lemma seven_bit_app a b : seven_bit (a ++ b) = seven_bit a && seven_bit b.
Proof.
  induction a as [|c a IH]; [reflexivity|].
  change (seven_bit (String c (a ++ b)) = seven_bit (String c a) && seven_bit b).
  cbn [seven_bit]. now rewrite IH, andb_assoc.
Qed.

Lemma seven_bit_take n s : seven_bit s = true -> seven_bit (take n s) = true.
Proof.
  revert s; induction n as [|n IH]; intros [|c s]; cbn [take seven_bit]; auto.
  intros Hs. apply andb_true_iff in Hs. destruct Hs as [-> Hs]. now apply IH.
Qed.

Lemma length_take_min n s : String.length (take n s) = Nat.min n (String.length s).
Proof.
  revert s; induction n as [|n IH]; intros [|c s]; cbn [take String.length Nat.min];
    try reflexivity.
  now rewrite IH.
Qed.

(** The ways [smtp_queue_data] returns: nothing done, the permanent
    failure recorded, or the line handed to [fprintf]. *)
Lemma smtp_queue_data_cases line p s g a s' g' f :
  ofile s = Some f ->
  smtp_queue_data H env line p s g = Ok a s' g' ->
  g' = g
  /\ (s' = s
      \/ s' = set_s_dstatus (Z.lor (s_dstatus s) (DS_PERMFAILURE H)) s
      \/ exists text f' n,
           let l := cstr line in
           let l := if Ascii.eqb (head l) "." then drop 1 l else l in
           text = (cstr (if has (flags s) F_8BITMIME then l else CStr.map mask7 l)
                   ++ NL)%string
           /\ ftell f + strlen l + 1 <= sc_maxsize env
           /\ fprintf f text = (f', n)
           /\ (s' = set_ofile (Some f') s
               \/ s' = set_s_dstatus (Z.lor (s_dstatus s) (DS_TEMPFAILURE H))
                         (set_ofile (Some f') s))).
Proof.
  intros Hf. unfold smtp_queue_data, bind, get. rewrite Hf.
  destruct (has (s_dstatus s) _).
  { intros [= _ <- <-]. auto. }
  destruct (_ || _) eqn:Hbig.
  { intros [= _ <- <-]. auto. }
  apply orb_false_iff in Hbig. destruct Hbig as [_ Hmax]. apply Z.ltb_ge in Hmax.
  destruct (fprintf f _) as [f' n] eqn:Hw. unfold modify.
  destruct (n =? _); intros [= _ <- <-]; (split; [reflexivity|]);
    right; right; eexists _, f', n; cbv zeta; (split; [reflexivity|]);
    (split; [exact Hmax|]); (split; [exact Hw|]); auto.
Qed.

Lemma fprintf_appends f text f' n :
  fprintf f text = (f', n) ->
  exists added, f_data f' = (f_data f ++ added)%string
                /\ (String.length added <= String.length text)%nat
                /\ (seven_bit text = true -> seven_bit added = true).
Proof.
  unfold fprintf. destruct (_ <=? _); intros [= <- _]; cbn [f_data].
  - exists text. auto.
  - exists (take (Z.to_nat (f_room f)) text). split; [reflexivity|]. split.
    + rewrite length_take_min. lia.
    + apply seven_bit_take.
Qed.

(** X14.  Unless the client has announced 8-bit content ([F_8BITMIME]),
    [smtp_queue_data] puts no byte above 127 into the spool file: it only
    appends, and what it appends is 7-bit. *)
Theorem smtp_queue_data_seven_bit line p s g s' g' f :
  has (flags s) F_8BITMIME = false -> ofile s = Some f ->
  smtp_queue_data H env line p s g = Ok tt s' g' ->
  exists f' added,
    ofile s' = Some f' /\ f_data f' = (f_data f ++ added)%string
    /\ seven_bit added = true.
Proof.
  intros H8 Hf Hrun.
  destruct (smtp_queue_data_cases _ _ _ _ _ _ _ _ Hf Hrun) as (_ & [->| [->|Hw]]).
  - exists f, EmptyString. split; [exact Hf|]. split; [|reflexivity].
    clear. induction (f_data f) as [|c d IH]; [reflexivity|].
    change (String c d = String c (d ++ EmptyString)). now rewrite <- IH.
  - exists f, EmptyString. split; [exact Hf|]. split; [|reflexivity].
    clear. induction (f_data f) as [|c d IH]; [reflexivity|].
    change (String c d = String c (d ++ EmptyString)). now rewrite <- IH.
  - destruct Hw as (text & f' & n & Htext & _ & Hw & Hs'). cbv zeta in Htext.
    rewrite H8 in Htext.
    destruct (fprintf_appends _ _ _ _ Hw) as (added & Hd & _ & H7).
    exists f', added. split; [destruct Hs' as [->| ->]; reflexivity|].
    split; [exact Hd|]. apply H7. subst text.
    rewrite seven_bit_app, (seven_bit_cstr _ (seven_bit_map_mask7 _)). reflexivity.
Qed.

(** X15.  [smtp_queue_data] keeps the spool file within the size allowed
    for a message: a file that is within [sc_maxsize] stays within it, and
    the file never shrinks. *)
Theorem smtp_queue_data_size_cap line p s g s' g' f :
  ofile s = Some f -> ftell f <= sc_maxsize env ->
  smtp_queue_data H env line p s g = Ok tt s' g' ->
  exists f', ofile s' = Some f' /\ ftell f <= ftell f' <= sc_maxsize env.
Proof.
  intros Hf Hcap Hrun.
  destruct (smtp_queue_data_cases _ _ _ _ _ _ _ _ Hf Hrun) as (_ & [->| [->|Hw]]).
  - exists f. split; [exact Hf | lia].
  - exists f. split; [exact Hf | lia].
  - destruct Hw as (text & f' & n & Htext & Hmax & Hw & Hs'). cbv zeta in Htext, Hmax.
    destruct (fprintf_appends _ _ _ _ Hw) as (added & Hd & Hlen & _).
    exists f'. split; [destruct Hs' as [->| ->]; reflexivity|].
    assert (strlen text
            <= strlen (if Ascii.eqb (head (cstr line)) "." then drop 1 (cstr line)
                       else cstr line) + 1) as Ht.
    { subst text. unfold strlen. rewrite length_app. cbn [NL String.length].
      match goal with
      | |- context [String.length (cstr ?x)] => pose proof (length_cstr_le x) as Hc
      end.
      destruct (has (flags s) F_8BITMIME); rewrite ?length_map in Hc; lia. }
    unfold ftell, strlen in *. rewrite Hd, length_app. lia.
Qed.

End BodyLines.

(** ** The body, end to end *)

Section Integrity.

Context (H : smtpd_h) (env : smtpd).

Lemma strchr_crlf l rest :
  strchr l LF = None ->
  strchr (l ++ CRLF ++ rest) LF = Some (S (String.length l)).
Proof.
  intros Hl. induction l as [|c l IH]; [reflexivity|].
  change (strchr (String c (l ++ CRLF ++ rest)) LF = Some (S (S (String.length l)))).
  cbn [strchr] in *. destruct (Ascii.eqb c LF); [discriminate|].
  destruct (strchr l LF); [discriminate|]. now rewrite IH.
Qed.

Lemma drop_crlf l rest : drop (S (S (String.length l))) (l ++ CRLF ++ rest) = rest.
Proof. induction l as [|c l IH]; [reflexivity | exact IH]. Qed.

Lemma head_drop_crlf l rest : head (drop (String.length l) (l ++ CRLF ++ rest)) = CR.
Proof. induction l as [|c l IH]; [reflexivity | exact IH]. Qed.

(** A line followed by CRLF comes off the buffer as it is. *)
Lemma iobuf_getline_wire l rest out :
  strchr l LF = None ->
  iobuf_getline {| ib_in := l ++ CRLF ++ rest; ib_out := out |}
  = Some (l, strlen l, {| ib_in := rest; ib_out := out |}).
Proof.
  intros Hl. unfold iobuf_getline. cbn [ib_in ib_out].
  rewrite (strchr_crlf l rest Hl), head_drop_crlf. cbn [Ascii.eqb Bool.eqb CR chr].
  change (Ascii.eqb CR CR) with true. cbv iota.
  now rewrite take_app, drop_crlf.
Qed.

(** One jump back to [nextline] leaves the rest of the loop as it is. *)
Lemma smtp_io_datain_next p s g s1 g1 :
  smtp_io_nextline H env p s g = Next s1 g1 ->
  smtp_io_datain H env p s g = smtp_io_datain H env p s1 g1.
Proof.
  intros Hn. pose proof (smtp_io_nextline_shorter H env p s g s1 g1 Hn) as Hlt.
  unfold smtp_io_datain.
  destruct (String.length (ib_in (iobuf s))) as [|n] eqn:E; [lia|].
  cbn [smtp_io_datain_loop]. rewrite Hn. apply smtp_io_datain_fuel; lia.
Qed.

Lemma smtp_io_datain_done p s g o :
  smtp_io_nextline H env p s g = Done o -> smtp_io_datain H env p s g = o.
Proof.
  intros Hn. unfold smtp_io_datain.
  destruct (String.length _); cbn [smtp_io_datain_loop]; now rewrite Hn.
Qed.

Lemma ds_failed_lor_perm d : DS_PERMFAILURE H <> 0 -> ds_failed H (Z.lor d (DS_PERMFAILURE H)) = true.
Proof.
  intros Hp. unfold ds_failed, has. rewrite negb_true_iff, Z.eqb_neq.
  intros E. apply Hp. apply Z.bits_inj'. intros n Hn.
  apply (f_equal (fun z => Z.testbit z n)) in E.
  rewrite Z.land_spec, !Z.lor_spec, Z.bits_0 in *.
  destruct (Z.testbit (DS_PERMFAILURE H) n); [|reflexivity].
  rewrite orb_true_r in E. discriminate.
Qed.

Lemma ds_failed_lor_temp d : DS_TEMPFAILURE H <> 0 -> ds_failed H (Z.lor d (DS_TEMPFAILURE H)) = true.
Proof.
  intros Hp. unfold ds_failed, has. rewrite negb_true_iff, Z.eqb_neq.
  intros E. apply Hp. apply Z.bits_inj'. intros n Hn.
  apply (f_equal (fun z => Z.testbit z n)) in E.
  rewrite Z.land_spec, !Z.lor_spec, Z.bits_0 in *.
  destruct (Z.testbit (DS_TEMPFAILURE H) n); [|reflexivity].
  rewrite !orb_true_r in E. discriminate.
Qed.

Lemma same_session s f : ofile s = Some f -> set_s_dstatus (s_dstatus s) (set_ofile (Some f) s) = s.
Proof. destruct s. cbn. now intros ->. Qed.

(** A buffer that is as long as its C string has no NUL in it. *)
Lemma cstr_full s : String.length (cstr s) = String.length s -> cstr s = s.
Proof.
  induction s as [|c s IH]; cbn [cstr String.length]; [reflexivity|].
  destruct (Ascii.eqb c NUL); cbn [String.length]; [discriminate|].
  intros E. f_equal. apply IH. lia.
Qed.

(** One body line: the line is in the spool as [spooled] has it, or a
    failure is on record. *)
Lemma smtp_queue_data_step line p s g f :
  DS_PERMFAILURE H <> 0 -> DS_TEMPFAILURE H <> 0 ->
  cstr line <> "."%string -> ofile s = Some f ->
  exists d1 f1,
    smtp_queue_data H env line p s g
    = Ok tt (set_s_dstatus d1 (set_ofile (Some f1) s)) g
    /\ (ds_failed H d1 = true
        \/ (d1 = s_dstatus s
            /\ f_data f1 = (f_data f ++ spooled (flags s) line)%string
            /\ f_err f1 = f_err f)).
Proof.
  intros Hperm Htemp Hdot Hf. unfold smtp_queue_data, bind, get. rewrite Hf.
  fold (ds_failed H (s_dstatus s)). destruct (ds_failed H (s_dstatus s)) eqn:Hfail.
  { exists (s_dstatus s), f. rewrite (same_session s f Hf). auto. }
  rewrite (strip_is_dot_unstuff (cstr line) Hdot).
  destruct (_ || _).
  { exists (Z.lor (s_dstatus s) (DS_PERMFAILURE H)), f. split.
    - unfold or_dstatus, modify. f_equal. destruct s. cbn in *. now subst.
    - left. now apply ds_failed_lor_perm. }
  set (m := if has (flags s) F_8BITMIME then dot_unstuff (cstr line)
            else CStr.map mask7 (dot_unstuff (cstr line))).
  assert (String.length m = String.length (dot_unstuff (cstr line))) as Hm.
  { subst m. destruct (has (flags s) F_8BITMIME); rewrite ?length_map; reflexivity. }
  assert (strlen (cstr m ++ NL) = Z.of_nat (String.length (cstr m)) + 1) as Hlen.
  { unfold strlen. rewrite length_app. cbn [NL String.length]. lia. }
  unfold fprintf. destruct (strlen (cstr m ++ NL) <=? f_room f).
  - unfold modify. destruct (strlen (cstr m ++ NL) =? _) eqn:E.
    + apply Z.eqb_eq in E. rewrite Hlen in E. unfold strlen in E.
      assert (cstr m = m) as Hc by (apply cstr_full; lia).
      eexists (s_dstatus s), _. split.
      * reflexivity.
      * right. cbn [f_data f_err]. unfold spooled. fold m. rewrite Hc. auto.
    + eexists (Z.lor (s_dstatus s) (DS_TEMPFAILURE H)), _. split.
      * reflexivity.
      * left. now apply ds_failed_lor_temp.
  - unfold modify.
    assert ((-1 =? strlen (dot_unstuff (cstr line)) + 1) = false) as ->.
    { apply Z.eqb_neq. unfold strlen. lia. }
    eexists (Z.lor (s_dstatus s) (DS_TEMPFAILURE H)), _. split.
    + reflexivity.
    + left. now apply ds_failed_lor_temp.
Qed.

Lemma iobuf_getline_of s l rest :
  ib_in (iobuf s) = (l ++ CRLF ++ rest)%string -> strchr l LF = None ->
  iobuf_getline (iobuf s)
  = Some (l, strlen l, {| ib_in := rest; ib_out := ib_out (iobuf s) |}).
Proof.
  intros Hin Hl. rewrite <- (iobuf_getline_wire l rest (ib_out (iobuf s)) Hl).
  f_equal. destruct (iobuf s) as [i o]. cbn in *. now subst.
Qed.

Lemma has_lor_self x k : k <> 0 -> has (Z.lor x k) k = true.
Proof.
  intros Hk. unfold has. rewrite negb_true_iff, Z.eqb_neq.
  intros E. apply Hk. apply Z.bits_inj'. intros n Hn.
  apply (f_equal (fun z => Z.testbit z n)) in E.
  rewrite Z.land_spec, Z.lor_spec, Z.bits_0 in *.
  destruct (Z.testbit k n); [|reflexivity].
  rewrite orb_true_r in E. discriminate.
Qed.

(** The loop of [IO_DATAIN] over the lines of a body and the final dot:
    it comes to the end of the body with every line in the spool, or with
    a failure on record. *)
Lemma body_then_dot p ls : forall s g f,
  DS_PERMFAILURE H <> 0 -> DS_TEMPFAILURE H <> 0 ->
  has (filtermask env) (HOOK_DATALINE H) = false ->
  state s = S_BODY -> ofile s = Some f ->
  Forall (fun l => strchr l LF = None /\ strlen l < SMTP_LINE_MAX
                   /\ cstr l <> "."%string) ls ->
  ib_in (iobuf s) = wire (ls ++ ["."%string]) ->
  exists d fk,
    smtp_io_datain H env p s g
    = run (smtp_end_of_body H) p
        (set_s_dstatus d
           (set_ofile (Some fk)
              (set_iobuf {| ib_in := EmptyString; ib_out := ib_out (iobuf s) |} s))) g
    /\ (ds_failed H d = true
        \/ (d = s_dstatus s
            /\ f_data fk = (f_data f ++ spooled_all (flags s) ls)%string
            /\ f_err fk = f_err f)).
Proof.
  induction ls as [|l ls IH]; intros s g f Hperm Htemp Hhook Hst Hf Hok Hin.
  - exists (s_dstatus s), f. split.
    + apply smtp_io_datain_done. unfold smtp_io_nextline.
      rewrite (iobuf_getline_of s "." EmptyString Hin eq_refl).
      change (SMTP_LINE_MAX <=? strlen ".") with false. cbv iota.
      unfold smtp_io_line. cbn [state set_iobuf]. rewrite Hst.
      change (strcmp (cstr ".") "." =? 0) with true.
      rewrite bool_decide_eq_true_2 by reflexivity. cbn [negb andb].
      cbn [iobuf set_iobuf iobuf_len ib_in].
      change (negb (strlen EmptyString =? 0)) with false. cbv iota.
      rewrite (same_session (set_iobuf _ s) f Hf). reflexivity.
    + right. cbn [spooled_all]. split; [reflexivity|]. split; [|reflexivity].
      clear. induction (f_data f) as [|c d IH]; [reflexivity|].
      change (String c d = String c (d ++ EmptyString)). now rewrite <- IH.
  - inversion Hok as [|l0 ls0 (Hlf & Hlen & Hdot) Hok']; subst l0 ls0.
    change (wire ((l :: ls) ++ ["."%string]))
      with (l ++ CRLF ++ wire (ls ++ ["."%string]))%string in Hin.
    set (s0 := set_iobuf {| ib_in := wire (ls ++ ["."%string]);
                            ib_out := ib_out (iobuf s) |} s).
    destruct (smtp_queue_data_step l p s0 g f Hperm Htemp Hdot Hf)
      as (d1 & f1 & Hq & Hinv1).
    set (s1 := set_s_dstatus d1 (set_ofile (Some f1) s0)) in *.
    assert (smtp_io_nextline H env p s g = Next s1 g) as Hn.
    { unfold smtp_io_nextline. rewrite (iobuf_getline_of s l _ Hin Hlf).
      apply Z.leb_gt in Hlen. rewrite Hlen. fold s0.
      unfold smtp_io_line. change (state s0) with (state s). rewrite Hst.
      assert ((strcmp (cstr l) "." =? 0) = false) as ->.
      { apply Z.eqb_neq. intros E. apply cstr_dot in E. contradiction. }
      rewrite bool_decide_eq_true_2 by reflexivity. cbn [negb andb].
      unfold smtp_body_line. now rewrite Hhook, Hq. }
    rewrite (smtp_io_datain_next p s g s1 g Hn).
    destruct (IH s1 g f1 Hperm Htemp Hhook Hst eq_refl Hok' eq_refl)
      as (d & fk & Hrun & Hinv).
    exists d, fk. split; [exact Hrun|].
    destruct Hinv as [Hfail|(Hd & Hdata & Herr)]; [now left|].
    change (s_dstatus s1) with d1 in Hd. change (flags s1) with (flags s) in Hdata.
    destruct Hinv1 as [Hfail1|(Hd1 & Hdata1 & Herr1)].
    + left. now rewrite Hd.
    + right. change (s_dstatus s0) with (s_dstatus s) in Hd1.
      change (flags s0) with (flags s) in Hdata1.
      split; [congruence|]. split; [|congruence].
      rewrite Hdata, Hdata1. cbn [spooled_all]. apply app_assoc_string.
Qed.

Lemma smtp_end_of_body_run p s g s' g' :
  run (smtp_end_of_body H) p s g = Live s' g' ->
  smtp_end_body H p
    (io_set_write (set_flags (Z.lor (flags s) F_SMTP_MESSAGE_END) s)) g
  = Ok tt s' g'.
Proof.
  unfold run, smtp_end_of_body, bind at 1 2 3, modify at 1 2 3.
  change (set_iobuf (iobuf_normalize (iobuf (set_flags (Z.lor (flags s) F_SMTP_MESSAGE_END) s)))
            (set_flags (Z.lor (flags s) F_SMTP_MESSAGE_END) s))
    with (set_flags (Z.lor (flags s) F_SMTP_MESSAGE_END) s).
  destruct (smtp_end_body H p _ g) as [[] s2 g2|]; [|discriminate].
  now intros [= <- <-].
Qed.

(** X16.  A body is committed only as it was sent.  When the lines of a
    body and the final dot arrive in one read (no filter on data lines),
    [smtp_io] closes the spool file and either composes
    [IMSG_QUEUE_COMMIT_MESSAGE], in which case the file holds what it held
    before followed by every line, dot-unstuffed, masked to 7 bits unless
    [F_8BITMIME] is set, each ended by LF, with no error on the stream; or
    it composes nothing and answers 554 or 421. *)
Theorem committed_body_is_what_was_sent ls p s g f s' g' :
  DS_PERMFAILURE H <> 0 -> DS_TEMPFAILURE H <> 0 ->
  has (filtermask env) (HOOK_DATALINE H) = false ->
  state s = S_BODY -> has (flags s) F_MFA_MESSAGE_END = true -> ofile s = Some f ->
  Forall (fun l => strchr l LF = None /\ strlen l < SMTP_LINE_MAX
                   /\ cstr l <> "."%string) ls ->
  ib_in (iobuf s) = wire (ls ++ ["."%string]) ->
  smtp_io H env IO_DATAIN p s g = Live s' g' ->
  ofile s' = None /\ phase s' = PHASE_SETUP
  /\ exists f',
       spool g' = spool g ++ [f'] /\ datalen s' = ftell f'
       /\ ((sent g' = sent g ++ [Q_QUEUE_COMMIT_MESSAGE (s_id s) (evp_id (evp s))]
            /\ wait g' wait_queue_commit !! s_id s = Some p
            /\ ib_out (iobuf s') = ib_out (iobuf s)
            /\ f_data f' = (f_data f ++ spooled_all (flags s) ls)%string
            /\ f_err f' = false
            /\ s_dstatus s' = s_dstatus s)
           \/ (sent g' = sent g
               /\ ((state s' = S_HELO
                    /\ ib_out (iobuf s')
                       = ib_out (iobuf s)
                         ++ [("554 5.0.0 Transaction failed" ++ CRLF)%string])
                   \/ (state s' = S_QUIT
                       /\ ib_out (iobuf s')
                          = ib_out (iobuf s)
                            ++ [("421 4.0.0 Temporary failure" ++ CRLF)%string])))).
Proof.
  intros Hperm Htemp Hhook Hst Hmfa Hf Hok Hin Hrun.
  destruct (body_then_dot p ls s g f Hperm Htemp Hhook Hst Hf Hok Hin)
    as (d & fk & Hloop & Hinv).
  change (smtp_io H env IO_DATAIN p s g) with (smtp_io_datain H env p s g) in Hrun.
  rewrite Hloop in Hrun. clear Hloop.
  apply smtp_end_of_body_run in Hrun.
  apply (smtp_end_body_cases H p _ g tt s' g' fk) in Hrun;
    [ | apply has_lor_same; unfold F_SMTP_MESSAGE_END; lia
      | cbn [flags io_set_write set_io set_flags set_s_dstatus set_ofile set_iobuf];
        rewrite has_lor_other by reflexivity; exact Hmfa
      | reflexivity ].
  cbn [flags io_set_write set_io set_flags set_s_dstatus set_ofile set_iobuf
       s_dstatus iobuf ib_out s_id evp state] in Hrun.
  destruct Hrun as (Hd & Hof & Hph & Hdl & Hsp & Hcases).
  split; [exact Hof|]. split; [exact Hph|]. exists fk.
  split; [exact Hsp|]. split; [exact Hdl|].
  destruct Hcases as [(_ & Hs & Ho & Hsent)|[(_ & _ & Hs & Ho & Hsent)|Hcommit]];
    [right; auto | right; auto | left].
  destruct Hcommit as (Hp & Ht & _ & Ho & Hsent & Hw).
  assert (f_err fk = false) as Herr.
  { destruct (f_err fk); [|reflexivity]. now rewrite has_lor_self in Ht. }
  rewrite Herr in Hd, Hp, Ht.
  assert (ds_failed H d = false) as Hclean.
  { unfold ds_failed. now rewrite has_lor, Hp, Ht. }
  destruct Hinv as [Hfail|(Hd0 & Hdata & Herr0)]; [congruence|].
  repeat (split; [assumption|]). congruence.
Qed.

End Integrity.

(** ** Replies and the trees *)

Section Requests.

Context (H : smtpd_h) (env : smtpd).

Lemma spares_ret t {A} (a : A) : spares t (ret a).
Proof. intros p s g a' s' g' [= _ _ <-]. reflexivity. Qed.

Lemma spares_bind t {A B} (m : M A) (k : A -> M B) :
  spares t m -> (forall a, spares t (k a)) -> spares t (bind m k).
Proof.
  intros Hm Hk p s g b s' g' E. unfold bind in E.
  destruct (m p s g) as [a s1 g1|] eqn:E1; [|discriminate].
  rewrite (Hk a _ _ _ _ _ _ E). exact (Hm _ _ _ _ _ _ E1).
Qed.

Lemma spares_get t : spares t get.
Proof. intros p s g a s' g' [= _ _ <-]. reflexivity. Qed.

Lemma spares_getg t : spares t getg.
Proof. intros p s g a s' g' [= _ _ <-]. reflexivity. Qed.

Lemma spares_fatalx t {A} msg : spares t (@fatalx A msg).
Proof. intros p s g a s' g' E. discriminate. Qed.

Lemma spares_modify t f : spares t (modify f).
Proof. intros p s g a s' g' [= _ _ <-]. reflexivity. Qed.

Lemma spares_modifyg t f : (forall g, wait (f g) = wait g) -> spares t (modifyg f).
Proof. intros Hf p s g a s' g' [= _ _ <-]. now rewrite Hf. Qed.

Lemma spares_imsg_compose_event t m : spares t (imsg_compose_event m).
Proof. apply spares_modifyg. reflexivity. Qed.

Lemma spares_stat_increment t k n : spares t (stat_increment k n).
Proof. apply spares_modifyg. reflexivity. Qed.

Lemma spares_io_reload t : spares t io_reload.
Proof. apply spares_ret. Qed.

Lemma spares_tree_xset t t' k : t' <> t -> spares t (tree_xset t' k).
Proof.
  intros Ht p s g a s' g' E. unfold tree_xset in E.
  destruct (wait g t' !! k); [discriminate|]. injection E as _ _ <-.
  cbn. unfold upd_tree. destruct (decide (t = t')); [congruence | reflexivity].
Qed.

Lemma spares_smtp_reply t buf : spares t (smtp_reply buf).
Proof.
  unfold smtp_reply. destruct (_ <=? _); [apply spares_fatalx|].
  destruct (_ <? _); [apply spares_fatalx | apply spares_modify].
Qed.

Lemma spares_or_dstatus t bit : spares t (or_dstatus bit).
Proof. apply spares_modify. Qed.

Lemma spares_smtp_enter_state t st :
  (st = S_CONNECTED -> t <> wait_mfa_connect) -> spares t (smtp_enter_state st).
Proof.
  intros Ht. unfold smtp_enter_state. apply spares_bind; [apply spares_modify|].
  intros _. destruct st; try apply spares_ret.
  apply spares_bind; [apply spares_get|]. intros s.
  apply spares_bind; [apply spares_imsg_compose_event|]. intros _.
  apply spares_tree_xset. intros E. now apply Ht.
Qed.

(** One step of the analysis of a handler. *)
Ltac spares_step :=
  lazymatch goal with
  | |- spares _ (bind _ _) => apply spares_bind; [|intros ?]
  | |- spares _ (ret _) => apply spares_ret
  | |- spares _ get => apply spares_get
  | |- spares _ getg => apply spares_getg
  | |- spares _ (fatalx _) => apply spares_fatalx
  | |- spares _ (modify _) => apply spares_modify
  | |- spares _ (modifyg _) => apply spares_modifyg; reflexivity
  | |- spares _ (imsg_compose_event _) => apply spares_imsg_compose_event
  | |- spares _ (stat_increment _ _) => apply spares_stat_increment
  | |- spares _ io_reload => apply spares_io_reload
  | |- spares _ (or_dstatus _) => apply spares_or_dstatus
  | |- spares _ (tree_xset _ _) => apply spares_tree_xset; discriminate
  | |- spares _ (smtp_reply _) => apply spares_smtp_reply
  | |- spares _ (smtp_enter_state _) => apply spares_smtp_enter_state; discriminate
  | |- spares _ (if ?c then _ else _) => destruct c
  | |- spares _ (match ?x with _ => _ end) => destruct x
  end.

Lemma spares_smtp_end_body t : t <> wait_queue_commit -> spares t (smtp_end_body H).
Proof.
  intros Ht. unfold smtp_end_body. repeat spares_step.
  apply spares_tree_xset. congruence.
Qed.

Lemma run_spares t m p s g s' g' :
  spares t m -> run m p s g = Live s' g' -> wait g' t = wait g t.
Proof.
  intros Hm E. unfold run in E. destruct (m p s g) as [[] s1 g1|] eqn:E1; [|discriminate].
  injection E as <- <-. exact (Hm _ _ _ _ _ _ E1).
Qed.

Lemma run_live_or_aborted m p s g :
  (exists s' g', run m p s g = Live s' g') \/ (exists msg, run m p s g = Aborted msg).
Proof. unfold run. destruct (m p s g) as [[] s' g'|msg]; eauto. Qed.

(** After [tree_xpop] and a handler that spares the tree, the entry is
    gone. *)
Lemma with_xpop_consumed t k P m P' :
  spares t m -> with_xpop t k P (run m) = Running P' -> wait (glob P') t !! k = None.
Proof.
  intros Hm. unfold with_xpop, tree_pop.
  destruct (wait (glob P) t !! k) as [p|]; [|discriminate].
  unfold resume. destruct (heap P !! p) as [s|]; [|discriminate].
  destruct (run_live_or_aborted m p s
              (set_wait (upd_tree t (delete k (wait (glob P) t)) (wait (glob P)))
                 (glob P))) as [(s' & g' & E)|(msg & E)];
    rewrite E; cbn [settle]; [|discriminate].
  intros [= <-]. cbn [glob]. rewrite (run_spares t m _ _ _ _ _ Hm E).
  cbn. unfold upd_tree. rewrite decide_True by reflexivity. apply lookup_delete_eq.
Qed.

Lemma smtp_free_spares t s reason g o :
  t <> wait_mfa_data -> smtp_free H s reason g = o ->
  exists g', o = Freed reason g' /\ wait g' t = wait g t.
Proof.
  intros Ht <-. unfold smtp_free. eexists. split; [reflexivity|].
  repeat match goal with
         | |- context [if ?c then _ else _] => destruct c
         | |- context [match ofile s with _ => _ end] => destruct (ofile s)
         end;
    cbn; unfold upd_tree; rewrite decide_False by exact Ht; reflexivity.
Qed.

Lemma smtp_session_imsg_consumed m P P' t :
  smtp_session_imsg H env m P = Running P' ->
  imsg_tree m = Some t -> imsg_pops m = true ->
  wait (glob P') t !! imsg_key m = None.
Proof.
  intros Hrun Ht Hpop.
  destruct m; cbn [imsg_tree imsg_key imsg_pops] in *; try discriminate;
    injection Ht as <-; cbn [smtp_session_imsg] in Hrun.
  - eapply with_xpop_consumed; [|exact Hrun].
    unfold on_dns_ptr. repeat spares_step.
  - (* the filter's verdict on the connection *)
    revert Hrun. unfold with_xpop, tree_pop.
    destruct (wait (glob P) wait_mfa_connect !! mfa_reqid r) as [p|]; [|discriminate].
    unfold resume. destruct (heap P !! p) as [s|]; [|discriminate].
    set (g1 := set_wait _ (glob P)).
    assert (wait g1 wait_mfa_connect !! mfa_reqid r = None) as Hgone.
    { subst g1. cbn. unfold upd_tree. rewrite decide_True by reflexivity.
      apply lookup_delete_eq. }
    unfold on_mfa_connect. destruct (negb _).
    + destruct (smtp_free_spares wait_mfa_connect s "rejected by filter" g1 _
                  ltac:(discriminate) eq_refl) as (g' & -> & Hw).
      cbn [settle]. intros [= <-]. cbn [glob]. now rewrite Hw.
    + destruct (has _ _).
      * cbn [settle]. intros [= <-]. exact Hgone.
      * match goal with
        | |- settle _ _ (run ?m _ _ _) = _ -> _ =>
            destruct (run_live_or_aborted m p s g1) as [(s' & g' & E)|(msg & E)];
              rewrite E; cbn [settle]; [|discriminate];
              intros [= <-]; cbn [glob];
              rewrite (run_spares wait_mfa_connect m _ _ _ _ _ ltac:(repeat spares_step) E)
        end.
        exact Hgone.
  - eapply with_xpop_consumed; [|exact Hrun].
    unfold on_mfa_helo. repeat spares_step.
  - eapply with_xpop_consumed; [|exact Hrun].
    unfold on_mfa_mail. repeat spares_step.
  - eapply with_xpop_consumed; [|exact Hrun].
    unfold on_mfa_rcpt. repeat spares_step.
  - (* the final dot from the filter *)
    rewrite Hpop in Hrun.
    change (match tree_pop wait_mfa_data (mfa_reqid r) (glob P) with
            | (Some p, g) => resume p P g (run (on_mfa_dataline_end H))
            | (None, _) => Running P
            end = Running P') in Hrun.
    unfold tree_pop in Hrun.
    destruct (wait (glob P) wait_mfa_data !! mfa_reqid r) as [p|] eqn:Hw.
    + eapply (with_xpop_consumed wait_mfa_data (mfa_reqid r) P (on_mfa_dataline_end H)).
      * unfold on_mfa_dataline_end. apply spares_bind; [apply spares_modify|].
        intros _. apply spares_smtp_end_body. discriminate.
      * unfold with_xpop, tree_pop. rewrite Hw. exact Hrun.
    + injection Hrun as <-. exact Hw.
  - eapply with_xpop_consumed; [|exact Hrun].
    unfold on_queue_create_message. repeat spares_step.
  - eapply with_xpop_consumed; [|exact Hrun].
    unfold on_queue_message_file. repeat spares_step.
  - eapply with_xpop_consumed; [|exact Hrun].
    unfold on_queue_commit_envelopes. repeat spares_step.
  - eapply with_xpop_consumed; [|exact Hrun].
    unfold on_queue_commit_message. repeat spares_step.
  - eapply with_xpop_consumed; [|exact Hrun].
    unfold on_parent_authenticate. repeat spares_step.
Qed.

Lemma smtp_session_imsg_missing m P t :
  imsg_tree m = Some t -> wait (glob P) t !! imsg_key m = None ->
  match m with
  | IMSG_MFA_DATALINE _ => smtp_session_imsg H env m P = Running P
  | _ => exists msg, smtp_session_imsg H env m P = Crashed msg
  end.
Proof.
  intros Ht Hnone.
  destruct m; cbn [imsg_tree imsg_key] in *; try discriminate;
    injection Ht as <-;
    cbn [smtp_session_imsg]; unfold with_xpop, with_xget, tree_pop, tree_get;
    rewrite Hnone; eauto.
  destruct (_ =? _); reflexivity.
Qed.

(** X17.  A reply without a request.  When no session waits under the
    reply's request id in the tree of its kind, [smtp_session_imsg] stops
    the process ([tree_xpop] and [tree_xget] are fatal on a missing key,
    and so is a reply of an unexpected kind); only a data line from the
    filter is dropped, with the process as it was. *)
Theorem reply_without_request m P :
  (forall t, imsg_tree m = Some t -> wait (glob P) t !! imsg_key m = None) ->
  match m with
  | IMSG_MFA_DATALINE _ => smtp_session_imsg H env m P = Running P
  | _ => exists msg, smtp_session_imsg H env m P = Crashed msg
  end.
Proof.
  intros Hnone. destruct (imsg_tree m) as [t|] eqn:Ht.
  - apply (smtp_session_imsg_missing m P t Ht). now apply Hnone.
  - destruct m; try discriminate Ht. eexists. reflexivity.
Qed.

(** X18.  A reply is consumed.  Once a reply that pops its session has
    been handled, no session waits under its request id in that tree any
    more, so the same reply once again stops the process (or is dropped,
    when it is the final dot from the filter). *)
Theorem reply_is_consumed m P P' t :
  smtp_session_imsg H env m P = Running P' ->
  imsg_tree m = Some t -> imsg_pops m = true ->
  wait (glob P') t !! imsg_key m = None
  /\ match m with
     | IMSG_MFA_DATALINE _ => smtp_session_imsg H env m P' = Running P'
     | _ => exists msg, smtp_session_imsg H env m P' = Crashed msg
     end.
Proof.
  intros Hrun Ht Hpop.
  pose proof (smtp_session_imsg_consumed m P P' t Hrun Ht Hpop) as Hgone.
  split; [exact Hgone|]. exact (smtp_session_imsg_missing m P' t Ht Hgone).
Qed.

End Requests.

(** ** From accept to disposal *)

Section Lifecycle.

Context (H : smtpd_h) (env : smtpd).

Lemma smtp_reply_inv buf p s g a s' g' :
  smtp_reply buf p s g = Ok a s' g' ->
  s' = set_iobuf (iobuf_xfqueue buf (iobuf s)) s /\ g' = g.
Proof.
  unfold smtp_reply. destruct (_ <=? _); [discriminate|].
  destruct (_ <? _); [discriminate|]. intros [= _ <- <-]. split; reflexivity.
Qed.

Lemma smtp_enter_state_connected p s g :
  wait g wait_mfa_connect !! s_id s = None ->
  smtp_enter_state S_CONNECTED p s g
  = Ok tt (set_state S_CONNECTED s)
      (set_wait (upd_tree wait_mfa_connect (<[s_id s := p]> (wait g wait_mfa_connect))
                   (wait g))
         (set_sent (sent g ++ [Q_MFA_CONNECT (s_id s) (evp s)]) g)).
Proof.
  intros Hw. unfold smtp_enter_state, bind, modify, get, imsg_compose_event, modifyg,
    tree_xset.
  cbn [s_id set_state wait set_sent evp]. rewrite Hw. reflexivity.
Qed.

(** X19.  The resolver round trip.  A connection accepted without a
    hostname asks the resolver and waits; the resolver's answer then leaves
    the session as it would be had the connection been accepted with that
    name ([<unknown>] when the lookup failed): connected, announced to the
    filter, waiting for its verdict.  The one difference is the name
    [localhost], which marks the envelope as a bounce only when it is given
    at accept; after a lookup the envelope flags are clear. *)
Theorem resolver_round_trip p uid l ss0 dns host P :
  wait (glob P) wait_lka_ptr !! uid = None ->
  wait (glob P) wait_mfa_connect !! uid = None ->
  dns_id dns = uid ->
  host = (if dns_error dns =? 0 then dns_host dns else "<unknown>"%string) ->
  exists P1 P2 s2,
    smtp_session_init H p uid l ss0 None P = Running P1
    /\ smtp_session_imsg H env (IMSG_DNS_PTR dns) P1 = Running P2
    /\ heap P2 = <[p := s2]> (heap P)
    /\ state s2 = S_CONNECTED
    /\ hostname s2 = fst (strlcpy host (sizeof_hostname H))
    /\ evp_flags (evp s2) = 0
    /\ sent (glob P2) = sent (glob P) ++ [Q_DNS_PTR ss0 uid; Q_MFA_CONNECT uid (evp s2)]
    /\ wait (glob P2) wait_lka_ptr !! uid = None
    /\ wait (glob P2) wait_mfa_connect !! uid = Some p
    /\ (strcmp host "localhost" <> 0 ->
        exists Pd,
          smtp_session_init H p uid l ss0 (Some host) P = Running Pd
          /\ heap Pd = heap P2
          /\ sent (glob Pd) = sent (glob P) ++ [Q_MFA_CONNECT uid (evp s2)]
          /\ wait (glob Pd) wait_mfa_connect !! uid = Some p).
Proof.
  intros Hlka Hmfa Hid Hhost. subst host.
  unfold smtp_session_init. cbv zeta.
  unfold run at 1, bind at 1, imsg_compose_event at 1, modifyg at 1, tree_xset at 1.
  cbn [wait set_sent]. rewrite Hlka. cbn [settle].
  eexists. eexists. eexists. split; [reflexivity|].
  split.
  { cbn [smtp_session_imsg]. rewrite Hid. unfold with_xpop, tree_pop.
    cbn [glob wait set_wait set_sent]. unfold upd_tree at 1.
    rewrite decide_True by reflexivity. rewrite lookup_insert_eq.
    unfold resume. cbn [heap]. rewrite lookup_insert_eq.
    unfold run, on_dns_ptr, bind at 1, modify at 1.
    rewrite smtp_enter_state_connected; [cbn [settle]; reflexivity|].
    cbn [wait set_wait]. unfold upd_tree. rewrite !decide_False by discriminate.
    exact Hmfa. }
  cbn [heap glob].
  split; [apply insert_insert_eq|].
  split; [reflexivity|]. split; [reflexivity|]. split; [reflexivity|].
  split. { cbn [sent set_wait set_sent]. rewrite <- app_assoc. reflexivity. }
  split.
  { cbn [wait set_wait]. unfold upd_tree. rewrite decide_False by discriminate.
    rewrite decide_True by reflexivity. apply lookup_delete_eq. }
  split.
  { cbn [wait set_wait]. unfold upd_tree at 1. rewrite decide_True by reflexivity.
    apply lookup_insert_eq. }
  intros Hlocal. apply Z.eqb_neq in Hlocal. rewrite Hlocal.
  unfold run. rewrite smtp_enter_state_connected by exact Hmfa. cbn [settle].
  eexists. split; [reflexivity|]. cbn [heap glob].
  split; [symmetry; apply insert_insert_eq|].
  split; [reflexivity|].
  cbn [wait set_wait]. unfold upd_tree at 1. rewrite decide_True by reflexivity.
  apply lookup_insert_eq.
Qed.

(** X20.  The queue's verdict on a message decides what a disposal does
    with it.  After a successful [IMSG_QUEUE_COMMIT_MESSAGE] the session
    has let go of the message (the envelope id is 0, the session is back
    in [S_HELO] with one more message counted) and [smtp_free] composes no
    request at all; after a failed one the envelope is as it was, so
    [smtp_free] asks the queue to remove the message. *)
Theorem commit_verdict_and_disposal q P P' p :
  smtp_session_imsg H env (IMSG_QUEUE_COMMIT_MESSAGE q) P = Running P' ->
  wait (glob P) wait_queue_commit !! q_reqid q = Some p ->
  exists s s',
    heap P !! p = Some s /\ heap P' !! p = Some s'
    /\ sent (glob P') = sent (glob P)
    /\ if q_success q =? 0 then
         evp s' = evp s /\ state s' = state s /\ mailcount s' = mailcount s
         /\ ib_out (iobuf s')
            = ib_out (iobuf s) ++ [("421 Temporay failure" ++ CRLF)%string]
         /\ (evp_id (evp s) <> 0 ->
             forall reason g, exists g2,
               smtp_free H s' reason g = Freed reason g2
               /\ sent g2
                  = sent g
                    ++ [Q_QUEUE_REMOVE_MESSAGE (evpid_to_msgid H (evp_id (evp s)))])
       else
         evp_id (evp s') = 0 /\ state s' = S_HELO /\ phase s' = PHASE_SETUP
         /\ kickcount s' = 0 /\ mailcount s' = wrap (mailcount s + 1)
         /\ ib_out (iobuf s')
            = ib_out (iobuf s)
              ++ [(("250 2.0.0 " ++ Fmt.x08 (evpid_to_msgid H (evp_id (evp s)))
                    ++ " Message accepted for delivery") ++ CRLF)%string]
         /\ forall reason g, exists g2,
              smtp_free H s' reason g = Freed reason g2 /\ sent g2 = sent g.
Proof.
  intros Hrun Hw. cbn [smtp_session_imsg] in Hrun.
  unfold with_xpop, tree_pop in Hrun. rewrite Hw in Hrun.
  unfold resume in Hrun. destruct (heap P !! p) as [s|] eqn:Hs; [|discriminate].
  exists s. revert Hrun. set (g1 := set_wait _ (glob P)).
  unfold on_queue_commit_message. destruct (q_success q =? 0).
  - unfold run, bind, io_reload, ret.
    destruct (smtp_reply _ p s g1) as [[] s1 g2|] eqn:Er; [|discriminate].
    apply smtp_reply_inv in Er. destruct Er as [-> ->].
    cbn [settle]. intros [= <-]. eexists. split; [reflexivity|].
    cbn [heap glob]. split; [apply lookup_insert_eq|].
    split; [reflexivity|].
    repeat (split; [reflexivity|]).
    intros Hid reason g. unfold smtp_free. cbn [evp set_iobuf ofile flags listener].
    apply Z.eqb_neq in Hid. rewrite Hid. eexists. split; [reflexivity|].
    destruct (ofile s), (_ && has _ (F_SMTPS H)), (_ && has _ (F_STARTTLS H));
      reflexivity.
  - unfold run, bind at 1, get at 1. unfold bind at 1.
    destruct (smtp_reply _ p s g1) as [[] s1 g2|] eqn:Er; [|discriminate].
    apply smtp_reply_inv in Er. destruct Er as [-> ->].
    unfold bind, modify, smtp_enter_state, io_reload, ret.
    cbn [settle]. intros [= <-]. eexists. split; [reflexivity|].
    cbn [heap glob]. split; [apply lookup_insert_eq|].
    split; [reflexivity|].
    repeat (split; [reflexivity|]).
    intros reason g. unfold smtp_free.
    cbn [evp set_iobuf set_state set_kickcount set_phase set_evp set_mailcount
         set_evp_id evp_id ofile flags listener].
    change (0 =? 0) with true. cbv iota. eexists. split; [reflexivity|].
    destruct (ofile s), (_ && has _ (F_SMTPS H)), (_ && has _ (F_STARTTLS H));
      reflexivity.
Qed.

(** X21.  The TLS gauges.  When a session whose handshake has ended is
    disposed of, [smtp.smtps] is back where it was before the handshake;
    [smtp.tls] is back only if the listener has exactly one of [F_SMTPS]
    and [F_STARTTLS]: with both it ends one lower, with neither one
    higher. *)
Theorem tls_gauges p s g s1 g1 reason :
  smtp_io H env IO_TLSREADY p s g = Live s1 g1 ->
  exists g2,
    smtp_free H s1 reason g1 = Freed reason g2
    /\ default 0 (stats g2 !! "smtp.smtps"%string)
       = default 0 (stats g !! "smtp.smtps"%string)
    /\ default 0 (stats g2 !! "smtp.tls"%string)
       = default 0 (stats g !! "smtp.tls"%string)
         + (if has (l_flags (listener s)) (F_SMTPS H) then 0 else 1)
         - (if has (l_flags (listener s)) (F_STARTTLS H) then 1 else 0).
Proof.
  cbn [smtp_io]. unfold run, smtp_io_tlsready, bind at 1 2 3, modify at 1 2, get at 1.
  cbn [listener set_kickcount set_flags].
  assert (forall x, has (Z.lor x F_SECURE) F_SECURE = true) as Hsec
    by (intros x; apply has_lor_same; unfold F_SECURE; lia).
  destruct (has (l_flags (listener s)) (F_SMTPS H)) eqn:Hsm.
  - unfold bind, stat_increment, modifyg, modify.
    destruct (smtp_reply _ p _ _) as [[] s2 g2|] eqn:Er; [|discriminate].
    apply smtp_reply_inv in Er. destruct Er as [-> ->]. intros [= <- <-].
    unfold smtp_free.
    cbn [flags listener io_set_write set_io set_iobuf set_kickcount set_flags evp
         ofile s_id].
    rewrite Hsec, Hsm. cbn [andb]. eexists. split; [reflexivity|].
    destruct (evp_id (evp s) =? 0), (ofile s), (has _ (F_STARTTLS H));
      repeat first [ rewrite stat_add_same
                   | rewrite stat_add_other by discriminate
                   | progress cbn [stats set_spool set_sent set_wait snd tree_pop
                                   default from_option id] ];
      repeat match goal with
             | |- context [stats g !! ?k] => destruct (stats g !! k)
             end;
      cbn [default from_option id]; split; lia.
  - unfold stat_increment, modifyg. intros [= <- <-].
    unfold smtp_free.
    cbn [flags listener set_kickcount set_flags evp ofile s_id].
    rewrite Hsec, Hsm. cbn [andb]. eexists. split; [reflexivity|].
    destruct (evp_id (evp s) =? 0), (ofile s), (has _ (F_STARTTLS H));
      repeat first [ rewrite stat_add_same
                   | rewrite stat_add_other by discriminate
                   | progress cbn [stats set_spool set_sent set_wait snd tree_pop
                                   default from_option id] ];
      repeat match goal with
             | |- context [stats g !! ?k] => destruct (stats g !! k)
             end;
      cbn [default from_option id]; split; lia.
Qed.

End Lifecycle.

(** ** The further properties at concrete inputs *)

Section Instances.

Import Sample Cases Scenes.

Lemma smtp_session_imsg_own_entries_witness :
  smtp_session_imsg h env rcpt_committed rcpt_proc = Running rcpt_done
  /\ (rcpt_done = rcpt_proc
      \/ exists t p s,
           imsg_tree rcpt_committed = Some t
           /\ wait (glob rcpt_proc) t !! imsg_key rcpt_committed = Some p
           /\ heap rcpt_proc !! p = Some s
           /\ (forall q, q <> p -> heap rcpt_done !! q = heap rcpt_proc !! q)
           /\ (forall s', heap rcpt_done !! p = Some s' -> s_id s' = s_id s)
           /\ (forall t' k, k <> imsg_key rcpt_committed -> k <> s_id s ->
                 wait (glob rcpt_done) t' !! k = wait (glob rcpt_proc) t' !! k)
           /\ exists l, sent (glob rcpt_done) = sent (glob rcpt_proc) ++ l
                        /\ Forall (own_request h s) l).
Proof.
  assert (smtp_session_imsg h env rcpt_committed rcpt_proc = Running rcpt_done) as E
    by (vm_compute; reflexivity).
  split; [exact E|].
  exact (smtp_session_imsg_own_entries h env rcpt_committed rcpt_proc rcpt_done E).
Defined.

Lemma smtp_io_queues_lines_witness :
  smtp_io h env IO_DATAIN 1 (client_sends "NOOP" ready) g0
  = Live (live_session noop_sent) (live_globals noop_sent)
  /\ (exists r, ib_out (iobuf (live_session noop_sent))
                = ib_out (iobuf (client_sends "NOOP" ready)) ++ r
                /\ Forall reply_line r)
  /\ (exists pre, ib_in (iobuf (client_sends "NOOP" ready))
                  = (pre ++ ib_in (iobuf (live_session noop_sent)))%string).
Proof.
  assert (smtp_io h env IO_DATAIN 1 (client_sends "NOOP" ready) g0
          = Live (live_session noop_sent) (live_globals noop_sent)) as E
    by (vm_compute; reflexivity).
  split; [exact E|].
  exact (smtp_io_queues_lines h env IO_DATAIN 1 (client_sends "NOOP" ready) g0
           (live_session noop_sent) (live_globals noop_sent) E).
Defined.

Lemma smtp_session_imsg_queues_lines_witness :
  smtp_session_imsg h env rcpt_committed rcpt_proc = Running rcpt_done
  /\ heap rcpt_done !! 1 = Some (default idle (heap rcpt_done !! 1))
  /\ exists s, heap rcpt_proc !! 1 = Some s
       /\ exists r, ib_out (iobuf (default idle (heap rcpt_done !! 1)))
                    = ib_out (iobuf s) ++ r
                    /\ Forall reply_line r.
Proof.
  assert (smtp_session_imsg h env rcpt_committed rcpt_proc = Running rcpt_done) as E
    by (vm_compute; reflexivity).
  assert (heap rcpt_done !! 1 = Some (default idle (heap rcpt_done !! 1))) as E1
    by (vm_compute; reflexivity).
  split; [exact E|]. split; [exact E1|].
  exact (smtp_session_imsg_queues_lines h env rcpt_committed rcpt_proc rcpt_done 1
           (default idle (heap rcpt_done !! 1)) E E1).
Defined.

Lemma smtp_io_trust_witness :
  smtp_io h env IO_TLSREADY 1 tls_starting g0
  = Live (live_session tls_started) (live_globals tls_started)
  /\ has (flags (live_session tls_started)) F_AUTHENTICATED
     = has (flags tls_starting) F_AUTHENTICATED
  /\ (has (flags (live_session tls_started)) F_SECURE = true
      <-> has (flags tls_starting) F_SECURE = true \/ IO_TLSREADY = IO_TLSREADY).
Proof.
  assert (smtp_io h env IO_TLSREADY 1 tls_starting g0
          = Live (live_session tls_started) (live_globals tls_started)) as E
    by (vm_compute; reflexivity).
  split; [exact E|].
  exact (smtp_io_trust h env IO_TLSREADY 1 tls_starting g0
           (live_session tls_started) (live_globals tls_started) E).
Defined.

Lemma smtp_session_imsg_trust_witness :
  smtp_session_imsg h env verdict auth_asked = Running auth_done
  /\ heap auth_done !! 1 = Some (default idle (heap auth_done !! 1))
  /\ exists s,
       heap auth_asked !! 1 = Some s
       /\ has (flags (default idle (heap auth_done !! 1))) F_SECURE = has (flags s) F_SECURE
       /\ (has (flags s) F_AUTHENTICATED = true ->
           has (flags (default idle (heap auth_done !! 1))) F_AUTHENTICATED = true)
       /\ ((forall a, verdict = IMSG_PARENT_AUTHENTICATE a -> auth_success a = 0) ->
           has (flags (default idle (heap auth_done !! 1))) F_AUTHENTICATED
           = has (flags s) F_AUTHENTICATED).
Proof.
  assert (smtp_session_imsg h env verdict auth_asked = Running auth_done) as E
    by (vm_compute; reflexivity).
  assert (heap auth_done !! 1 = Some (default idle (heap auth_done !! 1))) as E1
    by (vm_compute; reflexivity).
  split; [exact E|]. split; [exact E1|].
  exact (smtp_session_imsg_trust h env verdict auth_asked auth_done 1
           (default idle (heap auth_done !! 1)) E E1).
Defined.

Lemma credentials_need_an_offer_witness :
  ADVERTISE_AUTH h auth_unoffered = false
  /\ sasl (state auth_unoffered) = false
  /\ match smtp_io h env IO_DATAIN 1 auth_unoffered g0 with
     | Live s' g' =>
         sasl (state s') = false
         /\ exists l, sent g' = sent g0 ++ l /\ Forall no_credentials l
     | Freed _ g' => exists l, sent g' = sent g0 ++ l /\ Forall no_credentials l
     | Aborted _ => True
     end.
Proof.
  split; [reflexivity|]. split; [reflexivity|].
  apply (credentials_need_an_offer h env IO_DATAIN 1 auth_unoffered g0); reflexivity.
Defined.

Lemma smtp_session_imsg_no_credentials_witness :
  smtp_session_imsg h env verdict auth_asked = Running auth_done
  /\ (exists l, sent (glob auth_done) = sent (glob auth_asked) ++ l
                /\ Forall no_credentials l)
  /\ (forall q s', heap auth_done !! q = Some s' ->
        exists s, heap auth_asked !! q = Some s
                  /\ (sasl (state s') = true -> state s' = state s)).
Proof.
  assert (smtp_session_imsg h env verdict auth_asked = Running auth_done) as E
    by (vm_compute; reflexivity).
  split; [exact E|].
  exact (smtp_session_imsg_no_credentials h env verdict auth_asked auth_done E).
Defined.

Lemma sender_needs_listener_policy_witness :
  has (l_flags (listener mail_early)) (F_STARTTLS_REQUIRE h)
  && negb (has (flags mail_early) F_SECURE)
  || has (l_flags (listener mail_early)) (F_AUTH_REQUIRE h)
     && negb (has (flags mail_early) F_AUTHENTICATED)
  = true
  /\ match smtp_io h env IO_DATAIN 1 mail_early g0 with
     | Live _ g' | Freed _ g' => exists l, sent g' = sent g0 ++ l /\ Forall no_sender l
     | Aborted _ => True
     end.
Proof.
  assert (has (l_flags (listener mail_early)) (F_STARTTLS_REQUIRE h)
          && negb (has (flags mail_early) F_SECURE)
          || has (l_flags (listener mail_early)) (F_AUTH_REQUIRE h)
             && negb (has (flags mail_early) F_AUTHENTICATED)
          = true) as E by (vm_compute; reflexivity).
  split; [exact E|].
  exact (sender_needs_listener_policy h env IO_DATAIN 1 mail_early g0 E).
Defined.

Lemma mail_and_rcpt_prefixes_witness :
  strncasecmp "mail from:" "Mail From:<a@b>" 10 = 0
  /\ smtp_split "Mail From:<a@b>" = ("Mail From"%string, Some "<a@b>"%string)
  /\ smtp_lookup commands "Mail From" = Some CMD_MAIL_FROM.
Proof.
  split; [reflexivity|].
  exact (proj1 (mail_and_rcpt_prefixes "Mail From:<a@b>") eq_refl).
Defined.

Lemma smtp_mailaddr_brackets_witness :
  smtp_mailaddr h (evp_sender (evp idle)) "<a@b>"
  = (1, {| ma_user := "a"; ma_domain := "b" |}, "<a"%string).
Proof.
  exact (proj1 (smtp_mailaddr_brackets h (evp_sender (evp idle)) "<a@b>") "a@b" eq_refl).
Defined.

Lemma smtp_io_line_reads_c_string_witness :
  strchr "NOOP" NUL = None
  /\ smtp_io_line h env ("NOOP" ++ String NUL "junk") 1 ready g0
     = smtp_io_line h env "NOOP" 1 ready g0.
Proof.
  split; [reflexivity|].
  apply (smtp_io_line_reads_c_string h env "NOOP" "junk" 1 ready g0). reflexivity.
Defined.

Lemma smtp_queue_data_seven_bit_witness :
  has (flags seven) F_8BITMIME = false
  /\ ofile seven = Some blank
  /\ smtp_queue_data h env eight_bit_line 1 seven g0
     = Ok tt (set_ofile (Some {| f_data := ("ite" ++ NL)%string; f_room := 999996;
                                 f_err := false |}) seven) g0
  /\ exists f' added,
       ofile (set_ofile (Some {| f_data := ("ite" ++ NL)%string; f_room := 999996;
                                 f_err := false |}) seven) = Some f'
       /\ f_data f' = (f_data blank ++ added)%string
       /\ seven_bit added = true.
Proof.
  assert (smtp_queue_data h env eight_bit_line 1 seven g0
          = Ok tt (set_ofile (Some {| f_data := ("ite" ++ NL)%string; f_room := 999996;
                                      f_err := false |}) seven) g0) as E
    by (vm_compute; reflexivity).
  split; [reflexivity|]. split; [reflexivity|]. split; [exact E|].
  exact (smtp_queue_data_seven_bit h env eight_bit_line 1 seven g0
           (set_ofile (Some {| f_data := ("ite" ++ NL)%string; f_room := 999996;
                               f_err := false |}) seven) g0 blank
           eq_refl eq_refl E).
Defined.

Lemma smtp_queue_data_size_cap_witness :
  ofile receiving = Some blank
  /\ ftell blank <= sc_maxsize env
  /\ smtp_queue_data h env "Hi" 1 receiving g0
     = Ok tt (set_ofile (Some {| f_data := ("Hi" ++ NL)%string; f_room := 999997;
                                 f_err := false |}) receiving) g0
  /\ exists f',
       ofile (set_ofile (Some {| f_data := ("Hi" ++ NL)%string; f_room := 999997;
                                 f_err := false |}) receiving) = Some f'
       /\ ftell blank <= ftell f' <= sc_maxsize env.
Proof.
  assert (ftell blank <= sc_maxsize env) as Hcap by (vm_compute; discriminate).
  assert (smtp_queue_data h env "Hi" 1 receiving g0
          = Ok tt (set_ofile (Some {| f_data := ("Hi" ++ NL)%string; f_room := 999997;
                                      f_err := false |}) receiving) g0) as E
    by (vm_compute; reflexivity).
  split; [reflexivity|]. split; [exact Hcap|]. split; [exact E|].
  exact (smtp_queue_data_size_cap h env "Hi" 1 receiving g0
           (set_ofile (Some {| f_data := ("Hi" ++ NL)%string; f_room := 999997;
                               f_err := false |}) receiving) g0 blank eq_refl Hcap E).
Defined.

Lemma committed_body_is_what_was_sent_witness :
  smtp_io h env IO_DATAIN 1 body_sent g0
  = Live (live_session body_done) (live_globals body_done)
  /\ exists f',
       spool (live_globals body_done) = spool g0 ++ [f']
       /\ sent (live_globals body_done)
          = sent g0 ++ [Q_QUEUE_COMMIT_MESSAGE (s_id body_sent) (evp_id (evp body_sent))]
       /\ f_data f' = (f_data blank ++ spooled_all (flags body_sent) body_lines)%string
       /\ f_err f' = false.
Proof.
  assert (smtp_io h env IO_DATAIN 1 body_sent g0
          = Live (live_session body_done) (live_globals body_done)) as E
    by (vm_compute; reflexivity).
  split; [exact E|].
  assert (Forall (fun l => strchr l LF = None /\ strlen l < SMTP_LINE_MAX
                           /\ cstr l <> "."%string) body_lines) as Hok.
  { repeat constructor; discriminate. }
  assert (DS_PERMFAILURE h <> 0) as Hperm by discriminate.
  assert (DS_TEMPFAILURE h <> 0) as Htemp by discriminate.
  destruct (committed_body_is_what_was_sent h env body_lines 1 body_sent g0 blank
              (live_session body_done) (live_globals body_done)
              Hperm Htemp eq_refl eq_refl eq_refl eq_refl Hok eq_refl E)
    as (_ & _ & f' & Hsp & _ & Hcases).
  exists f'. split; [exact Hsp|].
  destruct Hcases as [(Hsent & _ & _ & Hdata & Herr & _)|(Hsent & _)].
  - split; [exact Hsent|]. split; [exact Hdata | exact Herr].
  - vm_compute in Hsent. discriminate Hsent.
Defined.

Lemma reply_without_request_witness :
  (forall t, imsg_tree stray = Some t -> wait (glob rcpt_proc) t !! imsg_key stray = None)
  /\ exists msg, smtp_session_imsg h env stray rcpt_proc = Crashed msg.
Proof.
  assert (forall t, imsg_tree stray = Some t ->
                    wait (glob rcpt_proc) t !! imsg_key stray = None) as Hnone.
  { intros t [= <-]. vm_compute. reflexivity. }
  split; [exact Hnone|].
  exact (reply_without_request h env stray rcpt_proc Hnone).
Defined.

Lemma reply_is_consumed_witness :
  smtp_session_imsg h env rcpt_committed rcpt_proc = Running rcpt_done
  /\ wait (glob rcpt_done) wait_mfa_rcpt !! imsg_key rcpt_committed = None
  /\ exists msg, smtp_session_imsg h env rcpt_committed rcpt_done = Crashed msg.
Proof.
  assert (smtp_session_imsg h env rcpt_committed rcpt_proc = Running rcpt_done) as E
    by (vm_compute; reflexivity).
  split; [exact E|].
  exact (reply_is_consumed h env rcpt_committed rcpt_proc rcpt_done wait_mfa_rcpt
           E eq_refl eq_refl).
Defined.

Lemma resolver_round_trip_witness :
  exists P1 P2 s2,
    smtp_session_init h 1 7 plain "192.0.2.1" None boot = Running P1
    /\ smtp_session_imsg h env (IMSG_DNS_PTR resolved) P1 = Running P2
    /\ heap P2 = <[1 := s2]> (heap boot)
    /\ state s2 = S_CONNECTED
    /\ hostname s2 = fst (strlcpy "client.example" (sizeof_hostname h))
    /\ evp_flags (evp s2) = 0
    /\ exists Pd,
         smtp_session_init h 1 7 plain "192.0.2.1" (Some "client.example"%string) boot
         = Running Pd
         /\ heap Pd = heap P2.
Proof.
  destruct (resolver_round_trip h env 1 7 plain "192.0.2.1" resolved "client.example"
              boot eq_refl eq_refl eq_refl eq_refl)
    as (P1 & P2 & s2 & E1 & E2 & Hh & Hst & Hn & Hf & _ & _ & _ & Hsame).
  exists P1, P2, s2. repeat (split; [assumption|]).
  destruct (Hsame ltac:(discriminate)) as (Pd & Ed & Hd & _).
  exists Pd. split; assumption.
Defined.

Lemma commit_verdict_and_disposal_witness :
  smtp_session_imsg h env (IMSG_QUEUE_COMMIT_MESSAGE (queue 7 1 0)) commit_asked
  = Running (commit_done 1)
  /\ wait (glob commit_asked) wait_queue_commit !! 7 = Some 1
  /\ exists s s',
       heap commit_asked !! 1 = Some s /\ heap (commit_done 1) !! 1 = Some s'
       /\ evp_id (evp s') = 0 /\ state s' = S_HELO
       /\ forall reason g, exists g2,
            smtp_free h s' reason g = Freed reason g2 /\ sent g2 = sent g.
Proof.
  assert (smtp_session_imsg h env (IMSG_QUEUE_COMMIT_MESSAGE (queue 7 1 0)) commit_asked
          = Running (commit_done 1)) as E by (vm_compute; reflexivity).
  assert (wait (glob commit_asked) wait_queue_commit !! 7 = Some 1) as Hw
    by (vm_compute; reflexivity).
  split; [exact E|]. split; [exact Hw|].
  destruct (commit_verdict_and_disposal h env (queue 7 1 0) commit_asked (commit_done 1) 1
              E Hw) as (s & s' & Hs & Hs' & _ & Hcase).
  exists s, s'. split; [exact Hs|]. split; [exact Hs'|].
  change (q_success (queue 7 1 0) =? 0) with false in Hcase.
  destruct Hcase as (Hid & Hst & _ & _ & _ & _ & Hfree).
  split; [exact Hid|]. split; [exact Hst | exact Hfree].
Defined.

Lemma tls_gauges_witness :
  smtp_io h env IO_TLSREADY 1 tls_starting g0
  = Live (live_session tls_started) (live_globals tls_started)
  /\ exists g2,
       smtp_free h (live_session tls_started) "done" (live_globals tls_started)
       = Freed "done" g2
       /\ default 0 (stats g2 !! "smtp.smtps"%string)
          = default 0 (stats g0 !! "smtp.smtps"%string)
       /\ default 0 (stats g2 !! "smtp.tls"%string)
          = default 0 (stats g0 !! "smtp.tls"%string).
Proof.
  assert (smtp_io h env IO_TLSREADY 1 tls_starting g0
          = Live (live_session tls_started) (live_globals tls_started)) as E
    by (vm_compute; reflexivity).
  split; [exact E|].
  destruct (tls_gauges h env 1 tls_starting g0 (live_session tls_started)
              (live_globals tls_started) "done" E) as (g2 & Hf & Hs & Ht).
  exists g2. split; [exact Hf|]. split; [exact Hs|].
  assert (has (l_flags (listener tls_starting)) (F_SMTPS h) = false) as E1
    by (vm_compute; reflexivity).
  assert (has (l_flags (listener tls_starting)) (F_STARTTLS h) = true) as E2
    by (vm_compute; reflexivity).
  rewrite E1, E2 in Ht. rewrite Ht. lia.
Defined.

End Instances.
